(** * Display bring-up of ion/platform/device/display.c

    A shallow embedding of the LCD initialisation code: the memory-mapped
    registers it touches, the sequence of register accesses each routine
    performs, and the busy-wait loops on hardware status flags.

    Registers are [volatile uint32_t] cells.  What a load returns is decided
    by the silicon, not by the last store, so every routine is run against a
    [silicon] that answers loads; every access is appended to a log. *)

From Stdlib Require Import ZArith List Lia Bool.
From Stdlib Require Import Strings.Byte.
Import ListNotations.
Open Scope Z_scope.

(** ** Peripherals and registers named by the source *)

Inductive gpio_group := GPIOA | GPIOB | GPIOC | GPIOD | GPIOF | GPIOG.

Inductive spi_port := SPI5.

Inductive ltdc_layer := LTDC_LAYER1.

Inductive reg :=
| RCC_CR
| RCC_PLLSAICFGR
| RCC_DCKCFGR
| RCC_AHB1ENR
| RCC_APB2ENR
| GPIO_MODER (g : gpio_group)
| GPIO_ODR (g : gpio_group)
| GPIO_AFRL (g : gpio_group)
| GPIO_AFRH (g : gpio_group)
| SPI_CR1 (p : spi_port)
| SPI_SR (p : spi_port)
| SPI_DR (p : spi_port)
| LTDC_SSCR
| LTDC_BPCR
| LTDC_AWCR
| LTDC_TWCR
| LTDC_GCR
| LTDC_SRCR
| LTDC_BCCR
| LTDC_LCR (l : ltdc_layer)
| LTDC_LWHPCR (l : ltdc_layer)
| LTDC_LWVPCR (l : ltdc_layer)
| LTDC_LPFCR (l : ltdc_layer)
| LTDC_LCFBAR (l : ltdc_layer)
| LTDC_LCFBLR (l : ltdc_layer)
| LTDC_LCFBLNR (l : ltdc_layer).

Definition gpio_group_eqb (a b : gpio_group) : bool :=
  match a, b with
  | GPIOA, GPIOA | GPIOB, GPIOB | GPIOC, GPIOC
  | GPIOD, GPIOD | GPIOF, GPIOF | GPIOG, GPIOG => true
  | _, _ => false
  end.

Definition reg_eqb (a b : reg) : bool :=
  match a, b with
  | RCC_CR, RCC_CR | RCC_PLLSAICFGR, RCC_PLLSAICFGR
  | RCC_DCKCFGR, RCC_DCKCFGR | RCC_AHB1ENR, RCC_AHB1ENR
  | RCC_APB2ENR, RCC_APB2ENR => true
  | GPIO_MODER g, GPIO_MODER h | GPIO_ODR g, GPIO_ODR h
  | GPIO_AFRL g, GPIO_AFRL h | GPIO_AFRH g, GPIO_AFRH h => gpio_group_eqb g h
  | SPI_CR1 SPI5, SPI_CR1 SPI5 | SPI_SR SPI5, SPI_SR SPI5
  | SPI_DR SPI5, SPI_DR SPI5 => true
  | LTDC_SSCR, LTDC_SSCR | LTDC_BPCR, LTDC_BPCR | LTDC_AWCR, LTDC_AWCR
  | LTDC_TWCR, LTDC_TWCR | LTDC_GCR, LTDC_GCR | LTDC_SRCR, LTDC_SRCR
  | LTDC_BCCR, LTDC_BCCR => true
  | LTDC_LCR LTDC_LAYER1, LTDC_LCR LTDC_LAYER1
  | LTDC_LWHPCR LTDC_LAYER1, LTDC_LWHPCR LTDC_LAYER1
  | LTDC_LWVPCR LTDC_LAYER1, LTDC_LWVPCR LTDC_LAYER1
  | LTDC_LPFCR LTDC_LAYER1, LTDC_LPFCR LTDC_LAYER1
  | LTDC_LCFBAR LTDC_LAYER1, LTDC_LCFBAR LTDC_LAYER1
  | LTDC_LCFBLR LTDC_LAYER1, LTDC_LCFBLR LTDC_LAYER1
  | LTDC_LCFBLNR LTDC_LAYER1, LTDC_LCFBLNR LTDC_LAYER1 => true
  | _, _ => false
  end.

(** ** Machine integers *)

(** A value as a [uint32_t] holds it. *)
Definition uint32 (v : Z) : Z := v mod 2 ^ 32.

Definition INT_MAX : Z := 2 ^ 31 - 1.
Definition INT_MIN : Z := - 2 ^ 31.

(** A value as an [int] holds it (two's complement wrap-around). *)
Definition int32 (v : Z) : Z := (v + 2 ^ 31) mod 2 ^ 32 - 2 ^ 31.

Definition int_add (a b : Z) : Z := int32 (a + b).
Definition int_sub (a b : Z) : Z := int32 (a - b).

(** ** Register accesses *)

Inductive event :=
| RegLoad (r : reg) (v : Z)
| RegStore (r : reg) (v : Z).

Record machine := mkMachine {
  regs : reg -> Z;          (* last value stored in each register *)
  log : list event          (* accesses so far, oldest first *)
}.

(** The hardware side of a load: the value register [r] presents when the
    machine is in state [m].  It may depend on everything that happened. *)
Definition silicon := machine -> reg -> Z.

(** A register that presents what was last stored in it. *)
Definition reads_back (hw : silicon) (r : reg) : Prop :=
  forall m, hw m r = regs m r.

(** Silicon all of whose registers are plain memory. *)
Definition latch : silicon := fun m r => regs m r.

Definition upd (f : reg -> Z) (r : reg) (v : Z) : reg -> Z :=
  fun r' => if reg_eqb r r' then v else f r'.

(** ** The monad of routines

    A routine takes the machine to a new machine and either returns
    ([Some]) or is still spinning in a busy-wait loop when the observer's
    patience [fuel] ends ([None]).  The machine reached is kept in both cases. *)

Definition M (A : Type) : Type := machine -> option A * machine.

Definition ret {A} (a : A) : M A := fun m => (Some a, m).

Definition bind {A B} (c : M A) (k : A -> M B) : M B :=
  fun m => match c m with
           | (Some a, m') => k a m'
           | (None, m') => (None, m')
           end.

Definition spinning {A} : M A := fun m => (None, m).

Declare Scope routine_scope.
Delimit Scope routine_scope with routine.
Notation "x <- c ;; k" := (bind c (fun x => k))
  (at level 61, c at next level, right associativity) : routine_scope.
Notation "c ;; k" := (bind c (fun _ => k))
  (at level 61, right associativity) : routine_scope.
Open Scope routine_scope.

Definition load (hw : silicon) (r : reg) : M Z :=
  fun m => let v := uint32 (hw m r) in
           (Some v, mkMachine (regs m) (log m ++ [RegLoad r v])).

Definition store (r : reg) (v : Z) : M unit :=
  fun m => (Some tt, mkMachine (upd (regs m) r (uint32 v))
                               (log m ++ [RegStore r (uint32 v)])).

(** [while (cond) { }]: at most [fuel] evaluations of the condition are
    watched. *)
Fixpoint busy_wait (fuel : nat) (cond : M bool) : M unit :=
  match fuel with
  | O => spinning
  | S n => b <- cond ;; if b : bool then busy_wait n cond else ret tt
  end.

(** ** registers/registers.h *)

(** Modelled from the spec: registers/registers.h is not among the sources.
    A bit field of a register, as the [field] argument of
    [REGISTER_SET_VALUE] names one: its lowest and highest bit. *)
Record field := mkField { LOW_BIT : Z; HIGH_BIT : Z }.

(** Modelled from the spec: registers/registers.h is not among the sources.
    The mask covering a field. *)
Definition REGISTER_FIELD_MASK (f : field) : Z :=
  Z.shiftl (Z.shiftl 1 (HIGH_BIT f - LOW_BIT f + 1) - 1) (LOW_BIT f).

(** Modelled from the spec: registers/registers.h is not among the sources.
    A value moved to the position of its field. *)
Definition REGISTER_FIELD_VALUE (f : field) (v : Z) : Z :=
  Z.land (Z.shiftl v (LOW_BIT f)) (REGISTER_FIELD_MASK f).

(** Modelled from the spec: registers/registers.h is not among the sources.
    [REGISTER_SET_VALUE(reg, field, value)] is the read-modify-write
    [reg = (reg & ~mask) | value-in-place]: section 3 of the spec has every
    programming step rewrite the register, and the call sites set one field
    of a register at a time. *)
Definition REGISTER_SET_VALUE (hw : silicon) (r : reg) (f : field) (v : Z) : M unit :=
  x <- load hw r ;;
  store r (Z.lor (Z.land x (Z.lxor (2 ^ 32 - 1) (REGISTER_FIELD_MASK f)))
                 (REGISTER_FIELD_VALUE f v)).

(** [reg |= bits] *)
Definition or_assign (hw : silicon) (r : reg) (bits : Z) : M unit :=
  x <- load hw r ;; store r (Z.lor x bits).

(** The machine after a load of [r] that yielded [v], and after a store
    of [v] to [r]. *)
Definition after_load (r : reg) (v : Z) (m : machine) : machine :=
  mkMachine (regs m) (log m ++ [RegLoad r v]).

Definition after_store (r : reg) (v : Z) (m : machine) : machine :=
  mkMachine (upd (regs m) r (uint32 v)) (log m ++ [RegStore r (uint32 v)]).

(** ** The headers the file includes

    [registers/registers.h], [platform.h] and [ion.h] are not among the
    sources.  Every constant, bit-field name and function-like macro of
    theirs that display.c uses is a member of [registers_h]; the routines
    below are written against an arbitrary one. *)

Class registers_h := {
  (* RCC_AHB1ENR, RCC_APB2ENR *)
  GPIOAEN : Z; GPIOBEN : Z; GPIOCEN : Z; GPIODEN : Z; GPIOFEN : Z; GPIOGEN : Z;
  SPI5EN : Z; LTDCEN : Z;
  (* RCC_CR *)
  PLLON : Z; PLLRDY : Z; PLLSAION : Z; PLLSAIRDY : Z;
  (* RCC_PLLSAICFGR, RCC_DCKCFGR *)
  PLLSAIN : field; PLLSAIR : field; PLLSAIDIVR : field;
  RCC_PLLSAIDIVR_DIV8 : Z;
  (* GPIO *)
  GPIO_AFR_HIGH : Z -> bool;
  MODER : Z -> field; AFR : Z -> field; ODR : Z -> field;
  GPIO_MODE_OUTPUT : Z; GPIO_MODE_ALTERNATE_FUNCTION : Z;
  (* SPI *)
  SPI_BIDIMODE : Z; SPI_BIDIOE : Z; SPI_MSTR : Z; SPI_DFF_8_BITS : Z;
  SPI_BR : Z -> Z; SPI_BR_DIV_2 : Z; SPI_SSM : Z; SPI_SSI : Z; SPI_SPE : Z;
  SPI_BSY : Z; SPI_TXE : Z;
  (* LTDC timings *)
  LTDC_VSH : Z -> Z; LTDC_HSW : Z -> Z;
  LTDC_AVBP : Z -> Z; LTDC_AHBP : Z -> Z;
  LTDC_AAH : Z -> Z; LTDC_AAW : Z -> Z;
  LTDC_TOTALH : Z -> Z; LTDC_TOTALW : Z -> Z;
  LTDC_PCPOL : Z; LTDC_LTDCEN : Z; LTDC_IMR : Z;
  (* LTDC layer *)
  LTDC_WHSTPOS : Z -> Z; LTDC_WHSPPOS : Z -> Z;
  LTDC_WVSTPOS : Z -> Z; LTDC_WVSPPOS : Z -> Z;
  LTDC_PF_L8 : Z;
  LTDC_CFBLL : Z -> Z; LTDC_CFBP : Z -> Z; LTDC_CFBLNR : Z -> Z;
  LTDC_LEN : Z;
  (* ion.h *)
  ION_FRAMEBUFFER_ADDRESS : Z;
  ION_FRAMEBUFFER_WIDTH : Z;
  ION_FRAMEBUFFER_HEIGHT : Z
}.

(** [GPIO_AFR(group, pin)]: the low or the high alternate-function register
    of the group, as the header sorts the pin. *)
Definition GPIO_AFR {hdr : registers_h} (g : gpio_group) (pin : Z) : reg :=
  if GPIO_AFR_HIGH pin then GPIO_AFRH g else GPIO_AFRL g.

(** [gpio_pin_t] *)
Record gpio_pin_t := mkPin { group : gpio_group; number : Z }.

(** The values [init_rgb_clocks] programs into the three stages of the
    pixel-clock derivation: PLLSAIN, PLLSAIR and the PLLSAIDIVR code. *)
Record clock_stages := mkStages { sain : Z; sair : Z; saidivr : Z }.

(** The eight [lcd_panel_*] locals of [init_rgb_timings]. *)
Record panel_timings := mkTimings {
  lcd_panel_hsync : Z;
  lcd_panel_hbp : Z;
  lcd_panel_hadr : Z;
  lcd_panel_hfp : Z;
  lcd_panel_vsync : Z;
  lcd_panel_vbp : Z;
  lcd_panel_vadr : Z;
  lcd_panel_vfp : Z
}.

(** The sub-expressions of the register values of [init_rgb_timings], in
    [int] arithmetic, left to right as C groups them. *)
Definition hsync_bp (t : panel_timings) : Z :=
  int_add (lcd_panel_hsync t) (lcd_panel_hbp t).
Definition hsync_bp_adr (t : panel_timings) : Z :=
  int_add (hsync_bp t) (lcd_panel_hadr t).
Definition total_width (t : panel_timings) : Z :=
  int_add (hsync_bp_adr t) (lcd_panel_hfp t).
Definition vsync_bp (t : panel_timings) : Z :=
  int_add (lcd_panel_vsync t) (lcd_panel_vbp t).
Definition vsync_bp_adr (t : panel_timings) : Z :=
  int_add (vsync_bp t) (lcd_panel_vadr t).
Definition total_height (t : panel_timings) : Z :=
  int_add (vsync_bp_adr t) (lcd_panel_vfp t).

(** The arguments of LTDC_HSW, LTDC_AHBP, LTDC_AAW, LTDC_TOTALW. *)
Definition horizontal_accumulation (t : panel_timings) : list Z :=
  [ int_sub (lcd_panel_hsync t) 1;
    int_sub (hsync_bp t) 1;
    int_sub (hsync_bp_adr t) 1;
    int_sub (total_width t) 1 ].

(** The arguments of LTDC_VSH, LTDC_AVBP, LTDC_AAH, LTDC_TOTALH. *)
Definition vertical_accumulation (t : panel_timings) : list Z :=
  [ int_sub (lcd_panel_vsync t) 1;
    int_sub (vsync_bp t) 1;
    int_sub (vsync_bp_adr t) 1;
    int_sub (total_height t) 1 ].

(** The arguments of LTDC_WHSTPOS / LTDC_WHSPPOS and of LTDC_WVSTPOS /
    LTDC_WVSPPOS. *)
Definition window_horizontal (t : panel_timings) : Z * Z :=
  (hsync_bp t, int_sub (hsync_bp_adr t) 1).
Definition window_vertical (t : panel_timings) : Z * Z :=
  (vsync_bp t, int_sub (vsync_bp_adr t) 1).

(** [char] is unsigned on the target: the value a byte of the buffer
    stores into the data register. *)
Definition char_value (b : byte) : Z := Z.of_N (Byte.to_N b).

(** Modelled from the spec: ion/drivers/ili9341 is not among the sources.
    Section 6 has the panel driver use the transport only through
    selectChip, selectMode and write; one call of a callback of
    [Platform.display]. *)
Inductive panel_op :=
| chip_select_pin (pin_state : bool)
| data_command_pin (pin_state : bool)
| spi_send (data : list byte).

(** [Platform.display]: the three callbacks handed to the panel driver. *)
Record ili9341_t := mkDisplay {
  chip_select_pin_write : bool -> M unit;
  data_command_pin_write : bool -> M unit;
  spi_write : list byte -> M unit
}.

(** Modelled from the spec: ion/drivers/ili9341 is not among the sources.
    The driver's initialisation as the sequence of callback invocations it
    makes. *)
Fixpoint ili9341_initialize (script : list panel_op) (d : ili9341_t) : M unit :=
  match script with
  | [] => ret tt
  | chip_select_pin b :: rest =>
      chip_select_pin_write d b ;; ili9341_initialize rest d
  | data_command_pin b :: rest =>
      data_command_pin_write d b ;; ili9341_initialize rest d
  | spi_send data :: rest =>
      spi_write d data ;; ili9341_initialize rest d
  end.

Section Display.

Context {hdr : registers_h}.
Variable hw : silicon.

Notation "r '|=' bits" := (or_assign hw r bits) (at level 60).
Notation "r '::=' v" := (store r v) (at level 60).

(** *** SPI interface *)

Definition init_spi_gpios : M unit :=
  RCC_AHB1ENR |= Z.lor (Z.lor GPIOCEN GPIODEN) GPIOFEN ;;
  REGISTER_SET_VALUE hw (GPIO_MODER GPIOC) (MODER 2) GPIO_MODE_OUTPUT ;;
  REGISTER_SET_VALUE hw (GPIO_MODER GPIOD) (MODER 13) GPIO_MODE_OUTPUT ;;
  REGISTER_SET_VALUE hw (GPIO_MODER GPIOF) (MODER 7) GPIO_MODE_ALTERNATE_FUNCTION ;;
  REGISTER_SET_VALUE hw (GPIO_MODER GPIOF) (MODER 9) GPIO_MODE_ALTERNATE_FUNCTION ;;
  REGISTER_SET_VALUE hw (GPIO_AFR GPIOF 7) (AFR 7) 5 ;;
  REGISTER_SET_VALUE hw (GPIO_AFR GPIOF 9) (AFR 9) 5.

Definition init_spi_port : M unit :=
  RCC_APB2ENR |= SPI5EN ;;
  SPI_CR1 SPI5 ::=
    Z.lor (Z.lor (Z.lor (Z.lor (Z.lor (Z.lor (Z.lor
      SPI_BIDIMODE SPI_BIDIOE) SPI_MSTR) SPI_DFF_8_BITS)
      (SPI_BR SPI_BR_DIV_2)) SPI_SSM) SPI_SSI) SPI_SPE.

Definition init_spi_interface : M unit :=
  init_spi_gpios ;; init_spi_port.

(** *** RGB interface *)

Definition rgb_pins : list gpio_pin_t :=
  [ mkPin GPIOA 3; mkPin GPIOA 4; mkPin GPIOA 6; mkPin GPIOA 11; mkPin GPIOA 12;
    mkPin GPIOB 0; mkPin GPIOB 1; mkPin GPIOB 8; mkPin GPIOB 9; mkPin GPIOB 10;
    mkPin GPIOB 11;
    mkPin GPIOC 2; mkPin GPIOC 6; mkPin GPIOC 7; mkPin GPIOC 10;
    mkPin GPIOD 3; mkPin GPIOD 6;
    mkPin GPIOF 10;
    mkPin GPIOG 6; mkPin GPIOG 7; mkPin GPIOG 10; mkPin GPIOG 11; mkPin GPIOG 12 ].

(** The body of the [for] loop over [rgb_pins]. *)
Fixpoint init_rgb_pins (pins : list gpio_pin_t) : M unit :=
  match pins with
  | [] => ret tt
  | pin :: rest =>
      REGISTER_SET_VALUE hw (GPIO_AFR (group pin) (number pin)) (AFR (number pin)) 14 ;;
      REGISTER_SET_VALUE hw (GPIO_MODER (group pin)) (MODER (number pin))
        GPIO_MODE_ALTERNATE_FUNCTION ;;
      init_rgb_pins rest
  end.

Definition init_rgb_gpios : M unit :=
  RCC_AHB1ENR |= Z.lor (Z.lor (Z.lor (Z.lor (Z.lor
      GPIOAEN GPIOBEN) GPIOCEN) GPIODEN) GPIOFEN) GPIOGEN ;;
  init_rgb_pins rgb_pins.

(** The condition of the clock-lock loop:
    [(RCC_CR & PLLSAIRDY) == 0 || (RCC_CR & PLLRDY) == 0]; the second load
    happens only when the first test fails. *)
Definition pll_not_ready : M bool :=
  x <- load hw RCC_CR ;;
  if Z.land x PLLSAIRDY =? 0 then ret true
  else y <- load hw RCC_CR ;; ret (Z.land y PLLRDY =? 0).

(** [init_rgb_clocks], with the three literals it programs taken from [c]. *)
Definition program_rgb_clocks (c : clock_stages) (fuel : nat) : M unit :=
  RCC_APB2ENR |= LTDCEN ;;
  REGISTER_SET_VALUE hw RCC_PLLSAICFGR PLLSAIN (sain c) ;;
  REGISTER_SET_VALUE hw RCC_PLLSAICFGR PLLSAIR (sair c) ;;
  REGISTER_SET_VALUE hw RCC_DCKCFGR PLLSAIDIVR (saidivr c) ;;
  RCC_CR |= Z.lor PLLSAION PLLON ;;
  busy_wait fuel pll_not_ready.

(** [6 = 192/(4*8)] *)
Definition lcd_clock_stages : clock_stages :=
  mkStages 192 4 RCC_PLLSAIDIVR_DIV8.

Definition init_rgb_clocks (fuel : nat) : M unit :=
  program_rgb_clocks lcd_clock_stages fuel.

(** [init_rgb_timings], with its eight locals taken from [t]. *)
Definition program_rgb_timings (t : panel_timings) : M unit :=
  LTDC_SSCR ::=
    Z.lor (LTDC_VSH (int_sub (lcd_panel_vsync t) 1))
          (LTDC_HSW (int_sub (lcd_panel_hsync t) 1)) ;;
  LTDC_BPCR ::=
    Z.lor (LTDC_AVBP (int_sub (vsync_bp t) 1))
          (LTDC_AHBP (int_sub (hsync_bp t) 1)) ;;
  LTDC_AWCR ::=
    Z.lor (LTDC_AAH (int_sub (vsync_bp_adr t) 1))
          (LTDC_AAW (int_sub (hsync_bp_adr t) 1)) ;;
  LTDC_TWCR ::=
    Z.lor (LTDC_TOTALH (int_sub (total_height t) 1))
          (LTDC_TOTALW (int_sub (total_width t) 1)) ;;
  LTDC_GCR |= LTDC_PCPOL ;;
  LTDC_BCCR ::= 0x00FF00FF ;;
  LTDC_LWHPCR LTDC_LAYER1 ::=
    Z.lor (LTDC_WHSTPOS (hsync_bp t))
          (LTDC_WHSPPOS (int_sub (hsync_bp_adr t) 1)) ;;
  LTDC_LWVPCR LTDC_LAYER1 ::=
    Z.lor (LTDC_WVSTPOS (vsync_bp t))
          (LTDC_WVSPPOS (int_sub (vsync_bp_adr t) 1)) ;;
  LTDC_LPFCR LTDC_LAYER1 ::= LTDC_PF_L8 ;;
  LTDC_LCFBAR LTDC_LAYER1 ::= ION_FRAMEBUFFER_ADDRESS ;;
  LTDC_LCFBLR LTDC_LAYER1 ::=
    Z.lor (LTDC_CFBLL (int_add ION_FRAMEBUFFER_WIDTH 3))
          (LTDC_CFBP ION_FRAMEBUFFER_WIDTH) ;;
  LTDC_LCFBLNR LTDC_LAYER1 ::= LTDC_CFBLNR ION_FRAMEBUFFER_HEIGHT ;;
  LTDC_LCR LTDC_LAYER1 ::= LTDC_LEN ;;
  LTDC_SRCR ::= LTDC_IMR ;;
  LTDC_GCR |= LTDC_LTDCEN.

Definition lcd_panel : panel_timings :=
  mkTimings 10 20 ION_FRAMEBUFFER_WIDTH 10 2 2 ION_FRAMEBUFFER_HEIGHT 4.

Definition init_rgb_timings : M unit :=
  program_rgb_timings lcd_panel.

Definition init_rgb_interface (fuel : nat) : M unit :=
  init_rgb_gpios ;;
  init_rgb_clocks fuel ;;
  init_rgb_timings.

(** *** Panel *)

Definition spi_busy : M bool :=
  x <- load hw (SPI_SR SPI5) ;; ret (negb (Z.land x SPI_BSY =? 0)).

Definition spi_tx_not_empty : M bool :=
  x <- load hw (SPI_SR SPI5) ;; ret (Z.land x SPI_TXE =? 0).

(** The [for] loop of [spi_5_write] over the [size] bytes at [data]. *)
Fixpoint spi_5_send (fuel : nat) (data : list byte) : M unit :=
  match data with
  | [] => ret tt
  | b :: rest =>
      SPI_DR SPI5 ::= char_value b ;;
      busy_wait fuel spi_tx_not_empty ;;
      spi_5_send fuel rest
  end.

Definition spi_5_write (fuel : nat) (data : list byte) : M unit :=
  busy_wait fuel spi_busy ;;
  spi_5_send fuel data ;;
  busy_wait fuel spi_busy.

Definition b2z (pin_state : bool) : Z := if pin_state then 1 else 0.

Definition gpio_c2_write (pin_state : bool) : M unit :=
  REGISTER_SET_VALUE hw (GPIO_ODR GPIOC) (ODR 2) (b2z pin_state).

Definition gpio_d13_write (pin_state : bool) : M unit :=
  REGISTER_SET_VALUE hw (GPIO_ODR GPIOD) (ODR 13) (b2z pin_state).

Definition Platform_display (fuel : nat) : ili9341_t :=
  mkDisplay gpio_c2_write gpio_d13_write (spi_5_write fuel).

Definition init_panel (script : list panel_op) (fuel : nat) : M unit :=
  ili9341_initialize script (Platform_display fuel).

Definition init_display (script : list panel_op) (fuel : nat) : M unit :=
  init_spi_interface ;;
  init_rgb_interface fuel ;;
  init_panel script fuel.

End Display.

(** ** One reading of the missing headers

    The STM32F429 layout of the reference manual, used wherever a concrete
    run is evaluated. *)

Definition bit (n : Z) : Z := Z.shiftl 1 n.

Definition stm32f429 : registers_h := {|
  GPIOAEN := bit 0; GPIOBEN := bit 1; GPIOCEN := bit 2; GPIODEN := bit 3;
  GPIOFEN := bit 5; GPIOGEN := bit 6;
  SPI5EN := bit 20; LTDCEN := bit 26;
  PLLON := bit 24; PLLRDY := bit 25; PLLSAION := bit 28; PLLSAIRDY := bit 29;
  PLLSAIN := mkField 6 14; PLLSAIR := mkField 28 30; PLLSAIDIVR := mkField 16 17;
  RCC_PLLSAIDIVR_DIV8 := 2;
  GPIO_AFR_HIGH := fun n => 8 <=? n;
  MODER := fun n => mkField (2 * n) (2 * n + 1);
  AFR := fun n => mkField (4 * (n mod 8)) (4 * (n mod 8) + 3);
  ODR := fun n => mkField n n;
  GPIO_MODE_OUTPUT := 1; GPIO_MODE_ALTERNATE_FUNCTION := 2;
  SPI_BIDIMODE := bit 15; SPI_BIDIOE := bit 14; SPI_MSTR := bit 2;
  SPI_DFF_8_BITS := 0;
  SPI_BR := fun v => Z.shiftl v 3; SPI_BR_DIV_2 := 0;
  SPI_SSM := bit 9; SPI_SSI := bit 8; SPI_SPE := bit 6;
  SPI_BSY := bit 7; SPI_TXE := bit 1;
  LTDC_VSH := fun v => v; LTDC_HSW := fun v => Z.shiftl v 16;
  LTDC_AVBP := fun v => v; LTDC_AHBP := fun v => Z.shiftl v 16;
  LTDC_AAH := fun v => v; LTDC_AAW := fun v => Z.shiftl v 16;
  LTDC_TOTALH := fun v => v; LTDC_TOTALW := fun v => Z.shiftl v 16;
  LTDC_PCPOL := bit 28; LTDC_LTDCEN := bit 0; LTDC_IMR := bit 0;
  LTDC_WHSTPOS := fun v => v; LTDC_WHSPPOS := fun v => Z.shiftl v 16;
  LTDC_WVSTPOS := fun v => v; LTDC_WVSPPOS := fun v => Z.shiftl v 16;
  LTDC_PF_L8 := 5;
  LTDC_CFBLL := fun v => v; LTDC_CFBP := fun v => Z.shiftl v 16;
  LTDC_CFBLNR := fun v => v;
  LTDC_LEN := bit 0;
  ION_FRAMEBUFFER_ADDRESS := 0x2001D400;
  ION_FRAMEBUFFER_WIDTH := 240;
  ION_FRAMEBUFFER_HEIGHT := 320
|}.

(** A machine just out of reset: every register zero, nothing logged. *)
Definition reset_machine : machine := mkMachine (fun _ => 0) [].

(** Silicon whose status flags never come up: every load of RCC_CR and of
    SPI_SR yields 0; the other registers read back. *)
Definition stuck_low : silicon :=
  fun m r => match r with
             | RCC_CR | SPI_SR _ => 0
             | _ => regs m r
             end.

(** Silicon whose status registers always have every bit set. *)
Definition stuck_high : silicon :=
  fun m r => match r with
             | RCC_CR | SPI_SR _ => 2 ^ 32 - 1
             | _ => regs m r
             end.

(** Silicon with both PLLs locked, the SPI idle (transmit buffer empty, not
    busy) and a shadow-register reload that is never carried out (IMR stays
    set); the other registers read back. *)
Definition idle_no_reload : silicon :=
  fun m r => match r with
             | RCC_CR => Z.lor (regs m r) (Z.lor (bit 25) (bit 29))
             | SPI_SR _ => bit 1
             | LTDC_SRCR => bit 0
             | _ => regs m r
             end.

(** Silicon whose SPI has an empty transmit buffer and is idle until a
    byte is stored to SPI_DR, and stays busy ever after. *)
Definition transfer_never_completes : silicon :=
  fun m r => match r with
             | SPI_SR _ =>
                 if existsb (fun e => match e with
                                      | RegStore (SPI_DR _) _ => true
                                      | _ => false
                                      end) (log m)
                 then Z.lor (bit 1) (bit 7)
                 else bit 1
             | _ => regs m r
             end.

(** Silicon whose SPI status reads 0 at the very first access and has TXE
    set (and BSY clear) from then on. *)
Definition tx_empty_late : silicon :=
  fun m r => match r with
             | SPI_SR _ => match log m with [] => 0 | _ => bit 1 end
             | _ => regs m r
             end.

(** ** Observing a run *)

(** The accesses a routine adds to the log when started in [m]. *)
Definition trace {A} (c : M A) (m : machine) : list event :=
  skipn (length (log m)) (log (snd (c m))).

(** The registers stored to, in order. *)
Fixpoint stored_regs (evs : list event) : list reg :=
  match evs with
  | [] => []
  | RegStore r _ :: rest => r :: stored_regs rest
  | RegLoad _ _ :: rest => stored_regs rest
  end.

(** The values stored to [r], in order. *)
Fixpoint stored_values (r : reg) (evs : list event) : list Z :=
  match evs with
  | [] => []
  | RegStore r' v :: rest =>
      if reg_eqb r r' then v :: stored_values r rest else stored_values r rest
  | RegLoad _ _ :: rest => stored_values r rest
  end.

(** How many times [r] was loaded. *)
Fixpoint loads_of (r : reg) (evs : list event) : nat :=
  match evs with
  | [] => O
  | RegLoad r' _ :: rest =>
      if reg_eqb r r' then S (loads_of r rest) else loads_of r rest
  | RegStore _ _ :: rest => loads_of r rest
  end.

Definition is_load_of (r : reg) (e : event) : bool :=
  match e with
  | RegLoad r' _ => reg_eqb r r'
  | RegStore _ _ => false
  end.

(** A byte has been stored to the data register of the SPI. *)
Definition byte_sent (m : machine) : bool :=
  existsb (fun e => match e with
                    | RegStore (SPI_DR _) _ => true
                    | _ => false
                    end) (log m).

(** ** Hardware status flags *)

(** The flag reads as 0 at every load. *)
Definition flag_low (hw : silicon) (r : reg) (flag : Z) : Prop :=
  forall m, Z.land (uint32 (hw m r)) flag = 0.

(** The flag reads as set at every load. *)
Definition flag_high (hw : silicon) (r : reg) (flag : Z) : Prop :=
  forall m, Z.land (uint32 (hw m r)) flag <> 0.

(** The flag reads as 0 once [T] register accesses have been made. *)
Definition flag_low_from (T : nat) (hw : silicon) (r : reg) (flag : Z) : Prop :=
  forall m, (T <= length (log m))%nat -> Z.land (uint32 (hw m r)) flag = 0.

(** The flag reads as set once [T] register accesses have been made. *)
Definition flag_high_from (T : nat) (hw : silicon) (r : reg) (flag : Z) : Prop :=
  forall m, (T <= length (log m))%nat -> Z.land (uint32 (hw m r)) flag <> 0.

(** A polling routine has a budget: however long it is watched and
    wherever it starts, it loads [r] at most [budget] times. *)
Definition polls_bounded (run : nat -> M unit) (r : reg) : Prop :=
  exists budget : nat,
    forall fuel m, (loads_of r (trace (run fuel) m) <= budget)%nat.

(** ** Timing descriptors *)

Definition timings_positive (t : panel_timings) : Prop :=
  0 < lcd_panel_hsync t /\ 0 < lcd_panel_hbp t /\
  0 < lcd_panel_hadr t /\ 0 < lcd_panel_hfp t /\
  0 < lcd_panel_vsync t /\ 0 < lcd_panel_vbp t /\
  0 < lcd_panel_vadr t /\ 0 < lcd_panel_vfp t.

(** The totals of both axes are values of type [int]. *)
Definition timings_representable (t : panel_timings) : Prop :=
  lcd_panel_hsync t + lcd_panel_hbp t + lcd_panel_hadr t + lcd_panel_hfp t
    <= INT_MAX /\
  lcd_panel_vsync t + lcd_panel_vbp t + lcd_panel_vadr t + lcd_panel_vfp t
    <= INT_MAX.

Fixpoint strictly_increasing (l : list Z) : Prop :=
  match l with
  | a :: (b :: _) as rest => a < b /\ strictly_increasing rest
  | _ => True
  end.

(** ** Shapes of logs *)

(** A completed wait on [r]: loads of [r] up to and including the first
    whose value satisfies [leave]; what follows it is returned. *)
Fixpoint skip_polls (r : reg) (leave : Z -> bool) (evs : list event)
  : option (list event) :=
  match evs with
  | RegLoad r' v :: rest =>
      if reg_eqb r r'
      then if leave v then Some rest else skip_polls r leave rest
      else None
  | _ => None
  end.

Definition flag_clear (flag v : Z) : bool := Z.land v flag =? 0.
Definition flag_set (flag v : Z) : bool := negb (Z.land v flag =? 0).

(** For each byte in turn: the byte is stored to SPI_DR, then a completed
    wait for TXE follows. *)
Fixpoint sent_then_waited (txe : Z) (data : list byte) (evs : list event)
  : option (list event) :=
  match data with
  | [] => Some evs
  | b :: bs =>
      match evs with
      | RegStore (SPI_DR SPI5) v :: rest =>
          if v =? char_value b
          then match skip_polls (SPI_SR SPI5) (flag_set txe) rest with
               | Some rest' => sent_then_waited txe bs rest'
               | None => None
               end
          else None
      | _ => None
      end
  end.

(** The whole of a completed [spi_5_write]: a wait for BSY to clear, the
    bytes each followed by a wait for TXE, a wait for BSY to clear, and
    nothing else. *)
Definition write_protocol (bsy txe : Z) (data : list byte) (evs : list event)
  : bool :=
  match skip_polls (SPI_SR SPI5) (flag_clear bsy) evs with
  | Some evs1 =>
      match sent_then_waited txe data evs1 with
      | Some evs2 =>
          match skip_polls (SPI_SR SPI5) (flag_clear bsy) evs2 with
          | Some [] => true
          | _ => false
          end
      | None => false
      end
  | None => false
  end.

(** The order the spec words: every store to SPI_DR comes when the latest
    load of SPI_SR showed TXE set, and no store to SPI_DR came in between.
    [ready] is what the latest load showed. *)
Fixpoint loads_follow_ready (txe : Z) (ready : bool) (evs : list event) : bool :=
  match evs with
  | [] => true
  | RegLoad (SPI_SR SPI5) v :: rest => loads_follow_ready txe (flag_set txe v) rest
  | RegStore (SPI_DR SPI5) _ :: rest => ready && loads_follow_ready txe false rest
  | _ :: rest => loads_follow_ready txe ready rest
  end.

(** The order the spec words for the reload: a store to LTDC_GCR that sets
    LTDCEN comes only after a store to LTDC_SRCR that set IMR
    ([requested]) and a later load of LTDC_SRCR that showed IMR cleared
    ([confirmed]). *)
Fixpoint enable_follows_reload (imr ltdcen : Z) (requested confirmed : bool)
  (evs : list event) : bool :=
  match evs with
  | [] => true
  | RegStore LTDC_SRCR v :: rest =>
      enable_follows_reload imr ltdcen (requested || flag_set imr v) false rest
  | RegLoad LTDC_SRCR v :: rest =>
      enable_follows_reload imr ltdcen requested
        (confirmed || (requested && flag_clear imr v)) rest
  | RegStore LTDC_GCR v :: rest =>
      (flag_clear ltdcen v || confirmed)
      && enable_follows_reload imr ltdcen requested confirmed rest
  | _ :: rest => enable_follows_reload imr ltdcen requested confirmed rest
  end.

(** An access that switches the engine on: a store to LTDC_GCR of a value
    with LTDCEN set. *)
Definition enables_engine (ltdcen : Z) (e : event) : bool :=
  match e with
  | RegStore LTDC_GCR v => flag_set ltdcen v
  | _ => false
  end.

(** The registers of the timing generator, and those of a layer. *)
Definition timing_reg (r : reg) : bool :=
  match r with
  | LTDC_SSCR | LTDC_BPCR | LTDC_AWCR | LTDC_TWCR | LTDC_GCR | LTDC_BCCR => true
  | _ => false
  end.

(** The registers outside the LTDC. *)
Definition not_ltdc (r : reg) : bool :=
  match r with
  | RCC_CR | RCC_PLLSAICFGR | RCC_DCKCFGR | RCC_AHB1ENR | RCC_APB2ENR
  | GPIO_MODER _ | GPIO_ODR _ | GPIO_AFRL _ | GPIO_AFRH _
  | SPI_CR1 _ | SPI_SR _ | SPI_DR _ => true
  | _ => false
  end.

(** Every access of [evs] is to a register satisfying [P]. *)
Definition accesses_only (P : reg -> bool) (evs : list event) : bool :=
  forallb (fun e => match e with RegLoad r _ | RegStore r _ => P r end) evs.

(** A routine only ever adds to the log. *)
Definition grows {A} (c : M A) : Prop :=
  forall m, exists new, log (snd (c m)) = log m ++ new.

(** The log grows, and only by accesses to registers satisfying [P]. *)
Definition confined {A} (P : reg -> bool) (c : M A) : Prop :=
  grows c /\ forall m, accesses_only P (trace c m) = true.

(** Successive sums: each entry is the one before it (at first [start])
    plus the next summand. *)
Fixpoint running_sums (start : Z) (summands : list Z) : list Z :=
  match summands with
  | [] => []
  | c :: rest => (start + c) :: running_sums (start + c) rest
  end.

(** The timings of the spec's end-to-end example. *)
Definition example_timings : panel_timings := mkTimings 10 20 240 10 2 2 320 4.

(** A routine leaves the value held by [r] as it was. *)
Definition preserves {A} (r : reg) (c : M A) : Prop :=
  forall m, regs (snd (c m)) r = regs m r.

(** Bit [i] of a register after a run is [b] when the rule says [Some b]
    and what it was when the rule says [None]. *)
Definition ruled_bit (rule : option bool) (before : bool) : bool :=
  match rule with
  | Some b => b
  | None => before
  end.

(** A routine that returns and whose effect on the registers is given bit
    by bit: a register it does not touch keeps its value; each of the 32
    bits of one it touches becomes a constant or stays, as [rule] says. *)
Definition acts_bitwise (c : M unit) (touched : reg -> bool)
  (rule : reg -> Z -> option bool) : Prop :=
  (forall r i, touched r = false -> rule r i = None)
  /\ forall m,
       fst (c m) = Some tt
       /\ forall r,
            (touched r = false -> regs (snd (c m)) r = regs m r)
            /\ (touched r = true ->
                0 <= regs (snd (c m)) r < 2 ^ 32
                /\ forall i, 0 <= i < 32 ->
                     Z.testbit (regs (snd (c m)) r) i
                     = ruled_bit (rule r i) (Z.testbit (regs m r) i)).

(** The two bits of a pin's mode in GPIO_MODER. *)
Definition mode_bits (moder : Z) (pin : Z) : bool * bool :=
  (Z.testbit moder (2 * pin), Z.testbit moder (2 * pin + 1)).

(** The registers of the LTDC that [init_rgb_timings] assigns outright. *)
Definition assigned_by_timings (r : reg) : bool :=
  match r with
  | LTDC_SSCR | LTDC_BPCR | LTDC_AWCR | LTDC_TWCR | LTDC_BCCR | LTDC_SRCR
  | LTDC_LCR _ | LTDC_LWHPCR _ | LTDC_LWVPCR _ | LTDC_LPFCR _
  | LTDC_LCFBAR _ | LTDC_LCFBLR _ | LTDC_LCFBLNR _ => true
  | _ => false
  end.

(** Every bit set in [x] is set in [y]. *)
Definition bits_kept (x y : Z) : Prop :=
  forall i, 0 <= i < 32 -> Z.testbit x i = true -> Z.testbit y i = true.

(** A routine never clears a bit of [r]. *)
Definition keeps {A} (r : reg) (c : M A) : Prop :=
  forall m, bits_kept (regs m r) (regs (snd (c m)) r).

(** After the routine, returned or not, the bits of [B] are set in [r]. *)
Definition sets {A} (r : reg) (B : Z) (c : M A) : Prop :=
  forall m, bits_kept (uint32 B) (regs (snd (c m)) r).

(** A routine with no loop to be caught in. *)
Definition always_returns (c : M unit) : Prop :=
  forall m, fst (c m) = Some tt.

(** The registers first stored to after the clock wait of the bring-up:
    those of the LTDC, the output data of the GPIO groups and the data
    register of the SPI. *)
Definition stored_after_clock_wait (r : reg) : bool :=
  match r with
  | GPIO_ODR _ | SPI_DR _ => true
  | _ => negb (not_ltdc r)
  end.

(** The pin is pin [n] of group [g]. *)
Definition same_pin (g : gpio_group) (n : Z) (pin : gpio_pin_t) : bool :=
  gpio_group_eqb (group pin) g && (number pin =? n).

(** * Properties *)

(** ** Registers and machine integers *)

Lemma gpio_group_eqb_eq (a b : gpio_group) : gpio_group_eqb a b = true <-> a = b.
Proof. destruct a, b; simpl; split; intro E; try reflexivity; discriminate E. Qed.

Lemma reg_eqb_eq (a b : reg) : reg_eqb a b = true <-> a = b.
Proof.
  split.
  - destruct a as [| | | | |g|g|g|g|[]|[]|[]| | | | | | | |[]|[]|[]|[]|[]|[]|[]],
             b as [| | | | |h|h|h|h|[]|[]|[]| | | | | | | |[]|[]|[]|[]|[]|[]|[]];
      simpl; intro E; try discriminate E; try reflexivity;
      apply gpio_group_eqb_eq in E; subst; reflexivity.
  - intros <-.
    destruct a as [| | | | |g|g|g|g|[]|[]|[]| | | | | | | |[]|[]|[]|[]|[]|[]|[]];
      simpl; try reflexivity; apply gpio_group_eqb_eq; reflexivity.
Qed.

Lemma reg_eqb_refl (a : reg) : reg_eqb a a = true.
Proof. apply reg_eqb_eq; reflexivity. Qed.

Lemma reg_eqb_neq (a b : reg) : a <> b -> reg_eqb a b = false.
Proof.
  intro N. destruct (reg_eqb a b) eqn:E; [|reflexivity].
  apply reg_eqb_eq in E. contradiction.
Qed.

Lemma uint32_range (v : Z) : 0 <= uint32 v < 2 ^ 32.
Proof. unfold uint32. apply Z.mod_pos_bound. reflexivity. Qed.

Lemma uint32_small (v : Z) : 0 <= v < 2 ^ 32 -> uint32 v = v.
Proof. unfold uint32. apply Z.mod_small. Qed.

Lemma uint32_testbit (v i : Z) :
  Z.testbit (uint32 v) i = if i <? 32 then Z.testbit v i else false.
Proof.
  unfold uint32. destruct (Z.ltb_spec i 32) as [L|L].
  - destruct (Z.lt_ge_cases i 0) as [Neg|Pos].
    + rewrite !Z.testbit_neg_r by assumption. reflexivity.
    + apply Z.mod_pow2_bits_low. lia.
  - apply Z.mod_pow2_bits_high. lia.
Qed.

Lemma int32_exact (v : Z) : INT_MIN <= v <= INT_MAX -> int32 v = v.
Proof.
  unfold int32, INT_MIN, INT_MAX. intros R.
  rewrite Z.mod_small by lia. lia.
Qed.

Lemma int_add_exact (a b : Z) : INT_MIN <= a + b <= INT_MAX -> int_add a b = a + b.
Proof. apply int32_exact. Qed.

Lemma int_sub_exact (a b : Z) : INT_MIN <= a - b <= INT_MAX -> int_sub a b = a - b.
Proof. apply int32_exact. Qed.

Lemma char_value_range (b : byte) : 0 <= char_value b < 256.
Proof. destruct b; vm_compute; split; congruence. Qed.

Lemma uint32_char_value (b : byte) : uint32 (char_value b) = char_value b.
Proof. apply uint32_small. pose proof (char_value_range b). lia. Qed.

(** ** Logs only grow *)

Lemma trace_intro {A} (c : M A) (m : machine) (new : list event) :
  log (snd (c m)) = log m ++ new -> trace c m = new.
Proof.
  unfold trace. intros ->.
  rewrite skipn_app, skipn_all, Nat.sub_diag. reflexivity.
Qed.

Lemma grows_log {A} (c : M A) (m : machine) :
  grows c -> log (snd (c m)) = log m ++ trace c m.
Proof.
  intros G. destruct (G m) as [new E].
  rewrite (trace_intro _ _ _ E). exact E.
Qed.

Lemma grows_ret {A} (a : A) : grows (ret a).
Proof. intro m. exists []. simpl. symmetry. apply app_nil_r. Qed.

Lemma grows_spinning {A} : grows (@spinning A).
Proof. intro m. exists []. simpl. symmetry. apply app_nil_r. Qed.

Lemma grows_load (hw : silicon) (r : reg) : grows (load hw r).
Proof. intro m. eexists. reflexivity. Qed.

Lemma grows_store (r : reg) (v : Z) : grows (store r v).
Proof. intro m. eexists. reflexivity. Qed.

Lemma grows_bind {A B} (c : M A) (k : A -> M B) :
  grows c -> (forall a, grows (k a)) -> grows (bind c k).
Proof.
  intros Gc Gk m. unfold bind.
  destruct (Gc m) as [n1 E1]. destruct (c m) as [[a|] m1]; simpl in E1.
  - destruct (Gk a m1) as [n2 E2]. exists (n1 ++ n2).
    rewrite E2, E1. symmetry. apply app_assoc.
  - exists n1. exact E1.
Qed.

Lemma trace_bind {A B} (c : M A) (k : A -> M B) (m : machine) :
  grows c -> (forall a, grows (k a)) ->
  trace (bind c k) m =
  trace c m ++ match c m with
               | (Some a, m1) => trace (k a) m1
               | (None, _) => []
               end.
Proof.
  intros Gc Gk. apply trace_intro. unfold bind.
  pose proof (grows_log c m Gc) as E1.
  destruct (c m) as [[a|] m1]; simpl in E1 |- *.
  - rewrite (grows_log (k a) m1 (Gk a)), E1. symmetry. apply app_assoc.
  - rewrite app_nil_r. exact E1.
Qed.

Lemma trace_bind_some {A B} (c : M A) (k : A -> M B) (m m1 : machine) (a : A) :
  grows c -> grows (k a) -> c m = (Some a, m1) ->
  trace (bind c k) m = trace c m ++ trace (k a) m1.
Proof.
  intros Gc Gk E. apply trace_intro. unfold bind.
  pose proof (grows_log c m Gc) as E1. rewrite E in E1 |- *. simpl in E1.
  rewrite (grows_log (k a) m1 Gk), E1. symmetry. apply app_assoc.
Qed.

Lemma trace_bind_none {A B} (c : M A) (k : A -> M B) (m m1 : machine) :
  c m = (None, m1) -> trace (bind c k) m = trace c m.
Proof. intros E. unfold trace, bind. rewrite E. reflexivity. Qed.

Lemma bind_assoc {A B C} (c : M A) (k : A -> M B) (h : B -> M C) (m : machine) :
  bind (bind c k) h m = bind c (fun a => bind (k a) h) m.
Proof. unfold bind. destruct (c m) as [[a|] m1]; reflexivity. Qed.

Lemma bind_cong {A B} (c : M A) (k k' : A -> M B) (m : machine) :
  (forall a m1, k a m1 = k' a m1) -> bind c k m = bind c k' m.
Proof. intros E. unfold bind. destruct (c m) as [[a|] m1]; [apply E|reflexivity]. Qed.

Lemma trace_ext {A} (c c' : M A) (m : machine) :
  c m = c' m -> trace c m = trace c' m.
Proof. unfold trace. intros ->. reflexivity. Qed.

Lemma grows_busy_wait (fuel : nat) (cond : M bool) :
  grows cond -> grows (busy_wait fuel cond).
Proof.
  intros G. induction fuel as [|n IH]; simpl.
  - apply grows_spinning.
  - apply grows_bind; [exact G|]. intros [|]; [exact IH|apply grows_ret].
Qed.

Lemma grows_or_assign (hw : silicon) (r : reg) (bits : Z) : grows (or_assign hw r bits).
Proof.
  intro m. eexists. unfold or_assign, bind, load, store.
  cbn [log snd fst regs]. rewrite <- app_assoc. reflexivity.
Qed.

Lemma grows_REGISTER_SET_VALUE (hw : silicon) (r : reg) (f : field) (v : Z) :
  grows (REGISTER_SET_VALUE hw r f v).
Proof.
  intro m. eexists. unfold REGISTER_SET_VALUE, bind, load, store.
  cbn [log snd fst regs]. rewrite <- app_assoc. reflexivity.
Qed.

Create HintDb grows.

#[local] Hint Resolve grows_ret grows_spinning grows_load grows_store grows_bind
  grows_busy_wait grows_or_assign grows_REGISTER_SET_VALUE : grows.

(** *** Running straight-line code one access at a time *)

Lemma log_snoc_app (l : list event) (e : event) (rest : list event) :
  (l ++ [e]) ++ rest = l ++ e :: rest.
Proof. rewrite <- app_assoc. reflexivity. Qed.

Lemma log_after_store (r : reg) (v : Z) (m : machine) (rest : list event) :
  log (after_store r v m) ++ rest = log m ++ RegStore r (uint32 v) :: rest.
Proof. apply log_snoc_app. Qed.

Lemma log_after_load (r : reg) (v : Z) (m : machine) (rest : list event) :
  log (after_load r v m) ++ rest = log m ++ RegLoad r v :: rest.
Proof. apply log_snoc_app. Qed.

Lemma run_store (r : reg) (v : Z) (m : machine) :
  store r v m = (Some tt, after_store r v m).
Proof. reflexivity. Qed.

Lemma run_store_bind {B} (r : reg) (v : Z) (k : unit -> M B) (m : machine) :
  bind (store r v) k m = k tt (after_store r v m).
Proof. reflexivity. Qed.

Lemma run_load_bind {B} (hw : silicon) (r : reg) (k : Z -> M B) (m : machine) :
  bind (load hw r) k m = k (uint32 (hw m r)) (after_load r (uint32 (hw m r)) m).
Proof. reflexivity. Qed.

Lemma run_or_assign (hw : silicon) (r : reg) (bits : Z) (m : machine) :
  or_assign hw r bits m =
  (Some tt, after_store r (Z.lor (uint32 (hw m r)) bits)
              (after_load r (uint32 (hw m r)) m)).
Proof. reflexivity. Qed.

Lemma run_or_assign_bind {B} (hw : silicon) (r : reg) (bits : Z)
  (k : unit -> M B) (m : machine) :
  bind (or_assign hw r bits) k m =
  k tt (after_store r (Z.lor (uint32 (hw m r)) bits)
          (after_load r (uint32 (hw m r)) m)).
Proof. reflexivity. Qed.

Lemma run_REGISTER_SET_VALUE (hw : silicon) (r : reg) (f : field) (v : Z)
  (m : machine) :
  REGISTER_SET_VALUE hw r f v m =
  (Some tt,
   after_store r
     (Z.lor (Z.land (uint32 (hw m r)) (Z.lxor (2 ^ 32 - 1) (REGISTER_FIELD_MASK f)))
            (REGISTER_FIELD_VALUE f v))
     (after_load r (uint32 (hw m r)) m)).
Proof. reflexivity. Qed.

Lemma run_REGISTER_SET_VALUE_bind {B} (hw : silicon) (r : reg) (f : field)
  (v : Z) (k : unit -> M B) (m : machine) :
  bind (REGISTER_SET_VALUE hw r f v) k m =
  k tt
    (after_store r
       (Z.lor (Z.land (uint32 (hw m r)) (Z.lxor (2 ^ 32 - 1) (REGISTER_FIELD_MASK f)))
              (REGISTER_FIELD_VALUE f v))
       (after_load r (uint32 (hw m r)) m)).
Proof. reflexivity. Qed.

Ltac run_straight_line :=
  repeat (rewrite run_store_bind || rewrite run_or_assign_bind
          || rewrite run_REGISTER_SET_VALUE_bind);
  try rewrite run_or_assign; try rewrite run_store;
  try rewrite run_REGISTER_SET_VALUE.

(** Straight-line code: the log after the run is the log before it followed
    by the accesses made, which are read off. *)
Ltac read_off_trace :=
  apply trace_intro; run_straight_line; cbn [snd];
  match goal with |- ?l = _ => rewrite <- (app_nil_r l) end;
  repeat (rewrite log_after_store || rewrite log_after_load);
  reflexivity.

Section Timings.

Context {hdr : registers_h}.
Variable hw : silicon.

(** Everything [init_rgb_timings] does, for any timings: seventeen
    accesses, of which two are loads (of LTDC_GCR). *)
Lemma program_rgb_timings_trace (t : panel_timings) (m : machine) :
  exists g1 g2,
    trace (program_rgb_timings hw t) m =
    [ RegStore LTDC_SSCR
        (uint32 (Z.lor (LTDC_VSH (int_sub (lcd_panel_vsync t) 1))
                       (LTDC_HSW (int_sub (lcd_panel_hsync t) 1))));
      RegStore LTDC_BPCR
        (uint32 (Z.lor (LTDC_AVBP (int_sub (vsync_bp t) 1))
                       (LTDC_AHBP (int_sub (hsync_bp t) 1))));
      RegStore LTDC_AWCR
        (uint32 (Z.lor (LTDC_AAH (int_sub (vsync_bp_adr t) 1))
                       (LTDC_AAW (int_sub (hsync_bp_adr t) 1))));
      RegStore LTDC_TWCR
        (uint32 (Z.lor (LTDC_TOTALH (int_sub (total_height t) 1))
                       (LTDC_TOTALW (int_sub (total_width t) 1))));
      RegLoad LTDC_GCR g1;
      RegStore LTDC_GCR (uint32 (Z.lor g1 LTDC_PCPOL));
      RegStore LTDC_BCCR (uint32 0x00FF00FF);
      RegStore (LTDC_LWHPCR LTDC_LAYER1)
        (uint32 (Z.lor (LTDC_WHSTPOS (hsync_bp t))
                       (LTDC_WHSPPOS (int_sub (hsync_bp_adr t) 1))));
      RegStore (LTDC_LWVPCR LTDC_LAYER1)
        (uint32 (Z.lor (LTDC_WVSTPOS (vsync_bp t))
                       (LTDC_WVSPPOS (int_sub (vsync_bp_adr t) 1))));
      RegStore (LTDC_LPFCR LTDC_LAYER1) (uint32 LTDC_PF_L8);
      RegStore (LTDC_LCFBAR LTDC_LAYER1) (uint32 ION_FRAMEBUFFER_ADDRESS);
      RegStore (LTDC_LCFBLR LTDC_LAYER1)
        (uint32 (Z.lor (LTDC_CFBLL (int_add ION_FRAMEBUFFER_WIDTH 3))
                       (LTDC_CFBP ION_FRAMEBUFFER_WIDTH)));
      RegStore (LTDC_LCFBLNR LTDC_LAYER1)
        (uint32 (LTDC_CFBLNR ION_FRAMEBUFFER_HEIGHT));
      RegStore (LTDC_LCR LTDC_LAYER1) (uint32 LTDC_LEN);
      RegStore LTDC_SRCR (uint32 LTDC_IMR);
      RegLoad LTDC_GCR g2;
      RegStore LTDC_GCR (uint32 (Z.lor g2 LTDC_LTDCEN)) ].
Proof.
  do 2 eexists. unfold program_rgb_timings. read_off_trace.
Qed.

Lemma program_rgb_timings_returns (t : panel_timings) (m : machine) :
  fst (program_rgb_timings hw t m) = Some tt.
Proof. reflexivity. Qed.

(** When LTDC_GCR reads back, the load of step 4 (the fifth access) shows
    what the register held on entry: the four stores before it are to
    other registers. *)
Lemma program_rgb_timings_entry_load (t : panel_timings) (m : machine) :
  reads_back hw LTDC_GCR ->
  nth 4 (trace (program_rgb_timings hw t) m) (RegLoad LTDC_GCR 0)
  = RegLoad LTDC_GCR (uint32 (regs m LTDC_GCR)).
Proof.
  intros Back.
  assert (E : exists a b c d rest,
             trace (program_rgb_timings hw t) m =
             a :: b :: c :: d
               :: RegLoad LTDC_GCR (uint32 (regs m LTDC_GCR)) :: rest).
  { do 5 eexists. unfold program_rgb_timings. apply trace_intro.
    do 4 rewrite run_store_bind. rewrite run_or_assign_bind.
    rewrite Back. cbn [regs after_store]. unfold upd at 1 2 3 4 5 6 7 8.
    cbn [reg_eqb].
    run_straight_line; cbn [snd].
    match goal with |- ?l = _ => rewrite <- (app_nil_r l) end.
    repeat (rewrite log_after_store || rewrite log_after_load).
    reflexivity. }
  destruct E as (a & b & c & d & rest & ->). reflexivity.
Qed.

End Timings.

(** ** Derived timing values *)

Section Accumulation.

Variable t : panel_timings.
Hypothesis positive : timings_positive t.
Hypothesis representable : timings_representable t.

Lemma hsync_bp_exact : hsync_bp t = lcd_panel_hsync t + lcd_panel_hbp t.
Proof.
  destruct positive as (?&?&?&?&?&?&?&?), representable as [? ?].
  apply int_add_exact. unfold INT_MIN, INT_MAX in *. lia.
Qed.

Lemma hsync_bp_adr_exact :
  hsync_bp_adr t = lcd_panel_hsync t + lcd_panel_hbp t + lcd_panel_hadr t.
Proof.
  unfold hsync_bp_adr. rewrite hsync_bp_exact.
  destruct positive as (?&?&?&?&?&?&?&?), representable as [? ?].
  apply int_add_exact. unfold INT_MIN, INT_MAX in *. lia.
Qed.

Lemma total_width_exact :
  total_width t =
  lcd_panel_hsync t + lcd_panel_hbp t + lcd_panel_hadr t + lcd_panel_hfp t.
Proof.
  unfold total_width. rewrite hsync_bp_adr_exact.
  destruct positive as (?&?&?&?&?&?&?&?), representable as [? ?].
  apply int_add_exact. unfold INT_MIN, INT_MAX in *. lia.
Qed.

Lemma vsync_bp_exact : vsync_bp t = lcd_panel_vsync t + lcd_panel_vbp t.
Proof.
  destruct positive as (?&?&?&?&?&?&?&?), representable as [? ?].
  apply int_add_exact. unfold INT_MIN, INT_MAX in *. lia.
Qed.

Lemma vsync_bp_adr_exact :
  vsync_bp_adr t = lcd_panel_vsync t + lcd_panel_vbp t + lcd_panel_vadr t.
Proof.
  unfold vsync_bp_adr. rewrite vsync_bp_exact.
  destruct positive as (?&?&?&?&?&?&?&?), representable as [? ?].
  apply int_add_exact. unfold INT_MIN, INT_MAX in *. lia.
Qed.

Lemma total_height_exact :
  total_height t =
  lcd_panel_vsync t + lcd_panel_vbp t + lcd_panel_vadr t + lcd_panel_vfp t.
Proof.
  unfold total_height. rewrite vsync_bp_adr_exact.
  destruct positive as (?&?&?&?&?&?&?&?), representable as [? ?].
  apply int_add_exact. unfold INT_MIN, INT_MAX in *. lia.
Qed.

Lemma horizontal_accumulation_exact :
  horizontal_accumulation t =
  [ lcd_panel_hsync t - 1;
    lcd_panel_hsync t + lcd_panel_hbp t - 1;
    lcd_panel_hsync t + lcd_panel_hbp t + lcd_panel_hadr t - 1;
    lcd_panel_hsync t + lcd_panel_hbp t + lcd_panel_hadr t + lcd_panel_hfp t - 1 ].
Proof.
  unfold horizontal_accumulation.
  rewrite total_width_exact, hsync_bp_adr_exact, hsync_bp_exact.
  destruct positive as (?&?&?&?&?&?&?&?), representable as [? ?].
  rewrite !int_sub_exact by (unfold INT_MIN, INT_MAX in *; lia).
  reflexivity.
Qed.

Lemma vertical_accumulation_exact :
  vertical_accumulation t =
  [ lcd_panel_vsync t - 1;
    lcd_panel_vsync t + lcd_panel_vbp t - 1;
    lcd_panel_vsync t + lcd_panel_vbp t + lcd_panel_vadr t - 1;
    lcd_panel_vsync t + lcd_panel_vbp t + lcd_panel_vadr t + lcd_panel_vfp t - 1 ].
Proof.
  unfold vertical_accumulation.
  rewrite total_height_exact, vsync_bp_adr_exact, vsync_bp_exact.
  destruct positive as (?&?&?&?&?&?&?&?), representable as [? ?].
  rewrite !int_sub_exact by (unfold INT_MIN, INT_MAX in *; lia).
  reflexivity.
Qed.

End Accumulation.

(** C4. For every timing descriptor with eight positive fields (whose
    totals are values of the type [int] the code computes in), the four
    values computed for each axis are sync-1, sync+bp-1, sync+bp+active-1
    and sync+bp+active+fp-1; they are strictly increasing; each is the one
    before it plus the new category (starting from minus one); and they
    are the arguments of the field macros in the first four stores of
    [init_rgb_timings], whatever the header and the silicon. *)
Theorem accumulation_values_increasing :
  forall (hdr : registers_h) (hw : silicon) (t : panel_timings) (m : machine),
    timings_positive t ->
    timings_representable t ->
    horizontal_accumulation t =
      [ lcd_panel_hsync t - 1;
        lcd_panel_hsync t + lcd_panel_hbp t - 1;
        lcd_panel_hsync t + lcd_panel_hbp t + lcd_panel_hadr t - 1;
        lcd_panel_hsync t + lcd_panel_hbp t + lcd_panel_hadr t
          + lcd_panel_hfp t - 1 ]
    /\ vertical_accumulation t =
      [ lcd_panel_vsync t - 1;
        lcd_panel_vsync t + lcd_panel_vbp t - 1;
        lcd_panel_vsync t + lcd_panel_vbp t + lcd_panel_vadr t - 1;
        lcd_panel_vsync t + lcd_panel_vbp t + lcd_panel_vadr t
          + lcd_panel_vfp t - 1 ]
    /\ strictly_increasing (horizontal_accumulation t)
    /\ strictly_increasing (vertical_accumulation t)
    /\ horizontal_accumulation t =
       running_sums (-1) [ lcd_panel_hsync t; lcd_panel_hbp t;
                           lcd_panel_hadr t; lcd_panel_hfp t ]
    /\ vertical_accumulation t =
       running_sums (-1) [ lcd_panel_vsync t; lcd_panel_vbp t;
                           lcd_panel_vadr t; lcd_panel_vfp t ]
    /\ firstn 4 (trace (program_rgb_timings hw t) m) =
       [ RegStore LTDC_SSCR
           (uint32 (Z.lor (LTDC_VSH (nth 0 (vertical_accumulation t) 0))
                          (LTDC_HSW (nth 0 (horizontal_accumulation t) 0))));
         RegStore LTDC_BPCR
           (uint32 (Z.lor (LTDC_AVBP (nth 1 (vertical_accumulation t) 0))
                          (LTDC_AHBP (nth 1 (horizontal_accumulation t) 0))));
         RegStore LTDC_AWCR
           (uint32 (Z.lor (LTDC_AAH (nth 2 (vertical_accumulation t) 0))
                          (LTDC_AAW (nth 2 (horizontal_accumulation t) 0))));
         RegStore LTDC_TWCR
           (uint32 (Z.lor (LTDC_TOTALH (nth 3 (vertical_accumulation t) 0))
                          (LTDC_TOTALW (nth 3 (horizontal_accumulation t) 0)))) ].
Proof.
  intros hdr hw t m Pos Rep.
  pose proof (horizontal_accumulation_exact t Pos Rep) as H.
  pose proof (vertical_accumulation_exact t Pos Rep) as V.
  destruct (program_rgb_timings_trace hw t m) as (g1 & g2 & Tr).
  split; [exact H|]. split; [exact V|].
  split; [|split]; [| |split; [|split]].
  - rewrite H. destruct Pos as (?&?&?&?&?&?&?&?). cbn [strictly_increasing]. lia.
  - rewrite V. destruct Pos as (?&?&?&?&?&?&?&?). cbn [strictly_increasing]. lia.
  - rewrite H. cbn [running_sums]. repeat (f_equal; try lia).
  - rewrite V. cbn [running_sums]. repeat (f_equal; try lia).
  - rewrite Tr. unfold horizontal_accumulation, vertical_accumulation.
    cbn [firstn nth]. reflexivity.
Qed.

(** The timings of the source (240 by 320 active area) satisfy the
    premises of C4, and its conclusion gives their horizontal values. *)
Lemma accumulation_values_increasing_witness :
  timings_positive example_timings
  /\ timings_representable example_timings
  /\ horizontal_accumulation example_timings = [9; 29; 269; 279]
  /\ vertical_accumulation example_timings = [1; 3; 323; 327]
  /\ strictly_increasing (horizontal_accumulation example_timings).
Proof.
  assert (P : timings_positive example_timings)
    by (unfold timings_positive; cbn; lia).
  assert (R : timings_representable example_timings)
    by (unfold timings_representable, INT_MAX; cbn; lia).
  destruct (accumulation_values_increasing stm32f429 latch example_timings
              reset_machine P R) as (H & V & I & _).
  split; [exact P|]. split; [exact R|]. split; [exact H|].
  split; [exact V | exact I].
Defined.

(** ** The accesses of [init_rgb_timings] *)

Section TimingGenerator.

Context {hdr : registers_h}.
Variable hw : silicon.
Variable m : machine.

Lemma init_rgb_timings_stored_regs :
  stored_regs (trace (init_rgb_timings hw) m) =
  [ LTDC_SSCR; LTDC_BPCR; LTDC_AWCR; LTDC_TWCR; LTDC_GCR; LTDC_BCCR;
    LTDC_LWHPCR LTDC_LAYER1; LTDC_LWVPCR LTDC_LAYER1; LTDC_LPFCR LTDC_LAYER1;
    LTDC_LCFBAR LTDC_LAYER1; LTDC_LCFBLR LTDC_LAYER1;
    LTDC_LCFBLNR LTDC_LAYER1; LTDC_LCR LTDC_LAYER1; LTDC_SRCR; LTDC_GCR ].
Proof.
  destruct (program_rgb_timings_trace hw lcd_panel m) as (g1 & g2 & Tr).
  unfold init_rgb_timings. rewrite Tr. reflexivity.
Qed.

Lemma init_rgb_timings_never_loads_SRCR :
  loads_of LTDC_SRCR (trace (init_rgb_timings hw) m) = O.
Proof.
  destruct (program_rgb_timings_trace hw lcd_panel m) as (g1 & g2 & Tr).
  unfold init_rgb_timings. rewrite Tr. reflexivity.
Qed.

End TimingGenerator.

(** C6. [init_rgb_timings] stores, in this order and before anything else,
    to the sync-width register (SSCR), the back-porch accumulation register
    (BPCR), the active-area accumulation register (AWCR), the total-size
    accumulation register (TWCR), the control register (GCR, the value read
    with the pixel-clock polarity bit or-ed in) and the background colour
    register (BCCR).  None of SSCR, BPCR, AWCR, TWCR, BCCR is stored to
    again; the one later store to GCR is the last access of the routine,
    the global enable of the engine. *)
Theorem timing_registers_programmed_in_order :
  forall (hdr : registers_h) (hw : silicon) (m : machine),
    (exists g rest,
       trace (init_rgb_timings hw) m =
       [ RegStore LTDC_SSCR
           (uint32 (Z.lor (LTDC_VSH (int_sub (lcd_panel_vsync lcd_panel) 1))
                          (LTDC_HSW (int_sub (lcd_panel_hsync lcd_panel) 1))));
         RegStore LTDC_BPCR
           (uint32 (Z.lor (LTDC_AVBP (int_sub (vsync_bp lcd_panel) 1))
                          (LTDC_AHBP (int_sub (hsync_bp lcd_panel) 1))));
         RegStore LTDC_AWCR
           (uint32 (Z.lor (LTDC_AAH (int_sub (vsync_bp_adr lcd_panel) 1))
                          (LTDC_AAW (int_sub (hsync_bp_adr lcd_panel) 1))));
         RegStore LTDC_TWCR
           (uint32 (Z.lor (LTDC_TOTALH (int_sub (total_height lcd_panel) 1))
                          (LTDC_TOTALW (int_sub (total_width lcd_panel) 1))));
         RegLoad LTDC_GCR g;
         RegStore LTDC_GCR (uint32 (Z.lor g LTDC_PCPOL));
         RegStore LTDC_BCCR (uint32 0x00FF00FF) ] ++ rest
       /\ stored_regs rest =
          [ LTDC_LWHPCR LTDC_LAYER1; LTDC_LWVPCR LTDC_LAYER1;
            LTDC_LPFCR LTDC_LAYER1; LTDC_LCFBAR LTDC_LAYER1;
            LTDC_LCFBLR LTDC_LAYER1; LTDC_LCFBLNR LTDC_LAYER1;
            LTDC_LCR LTDC_LAYER1; LTDC_SRCR; LTDC_GCR ])
    /\ stored_regs (trace (init_rgb_timings hw) m) =
       [ LTDC_SSCR; LTDC_BPCR; LTDC_AWCR; LTDC_TWCR; LTDC_GCR; LTDC_BCCR;
         LTDC_LWHPCR LTDC_LAYER1; LTDC_LWVPCR LTDC_LAYER1;
         LTDC_LPFCR LTDC_LAYER1; LTDC_LCFBAR LTDC_LAYER1;
         LTDC_LCFBLR LTDC_LAYER1; LTDC_LCFBLNR LTDC_LAYER1;
         LTDC_LCR LTDC_LAYER1; LTDC_SRCR; LTDC_GCR ].
Proof.
  intros hdr hw m. split.
  - destruct (program_rgb_timings_trace hw lcd_panel m) as (g1 & g2 & Tr).
    exists g1. eexists. unfold init_rgb_timings. rewrite Tr.
    split; reflexivity.
  - apply init_rgb_timings_stored_regs.
Qed.

(** C5. With a 240 by 320 framebuffer the timings of [init_rgb_timings] are
    those of the example; the total width it computes is 280 and the total
    height 328 (the values less one, 279 and 327, go to TWCR); the layer
    window is programmed with horizontal positions 30 and 269 and vertical
    positions 4 and 323. *)
Theorem example_totals_and_window :
  forall (hdr : registers_h) (hw : silicon) (m : machine),
    ION_FRAMEBUFFER_WIDTH = 240 ->
    ION_FRAMEBUFFER_HEIGHT = 320 ->
    lcd_panel = example_timings
    /\ total_width lcd_panel = 280
    /\ total_height lcd_panel = 328
    /\ window_horizontal lcd_panel = (30, 269)
    /\ window_vertical lcd_panel = (4, 323)
    /\ stored_values LTDC_TWCR (trace (init_rgb_timings hw) m) =
       [ uint32 (Z.lor (LTDC_TOTALH (328 - 1)) (LTDC_TOTALW (280 - 1))) ]
    /\ stored_values (LTDC_LWHPCR LTDC_LAYER1) (trace (init_rgb_timings hw) m) =
       [ uint32 (Z.lor (LTDC_WHSTPOS 30) (LTDC_WHSPPOS 269)) ]
    /\ stored_values (LTDC_LWVPCR LTDC_LAYER1) (trace (init_rgb_timings hw) m) =
       [ uint32 (Z.lor (LTDC_WVSTPOS 4) (LTDC_WVSPPOS 323)) ].
Proof.
  intros hdr hw m W H.
  assert (E : lcd_panel = example_timings)
    by (unfold lcd_panel, example_timings; rewrite W, H; reflexivity).
  destruct (program_rgb_timings_trace hw lcd_panel m) as (g1 & g2 & Tr).
  unfold init_rgb_timings. rewrite Tr, E.
  change (total_width example_timings) with 280.
  change (total_height example_timings) with 328.
  change (hsync_bp example_timings) with 30.
  change (vsync_bp example_timings) with 4.
  change (hsync_bp_adr example_timings) with 270.
  change (vsync_bp_adr example_timings) with 324.
  change (int_sub 270 1) with 269.
  change (int_sub 324 1) with 323.
  change (int_sub 280 1) with (280 - 1).
  change (int_sub 328 1) with (328 - 1).
  repeat split.
Qed.

(** The reference header has a 240 by 320 framebuffer: C5 applies. *)
Lemma example_totals_and_window_witness :
  total_width (lcd_panel (hdr:=stm32f429)) = 280
  /\ total_height (lcd_panel (hdr:=stm32f429)) = 328
  /\ stored_values (LTDC_LWHPCR LTDC_LAYER1)
       (trace (init_rgb_timings (hdr:=stm32f429) latch) reset_machine) =
     [ uint32 (Z.lor 30 (Z.shiftl 269 16)) ].
Proof.
  destruct (example_totals_and_window stm32f429 latch reset_machine
              eq_refl eq_refl) as (_ & Wd & Ht & _ & _ & _ & Hz & _).
  split; [exact Wd|]. split; [exact Ht|exact Hz].
Defined.

(** C9. The layer is given the pixel format L8, a line length of
    ION_FRAMEBUFFER_WIDTH + 3 with a pitch of ION_FRAMEBUFFER_WIDTH (one
    byte per pixel, not four), and ION_FRAMEBUFFER_HEIGHT lines: these are
    the only values stored to the three registers, and the values the
    registers hold when [init_rgb_timings] returns. *)
Theorem layer_format_and_geometry :
  forall (hdr : registers_h) (hw : silicon) (m : machine),
    stored_values (LTDC_LPFCR LTDC_LAYER1) (trace (init_rgb_timings hw) m) =
      [ uint32 LTDC_PF_L8 ]
    /\ stored_values (LTDC_LCFBLR LTDC_LAYER1) (trace (init_rgb_timings hw) m) =
      [ uint32 (Z.lor (LTDC_CFBLL (int_add ION_FRAMEBUFFER_WIDTH 3))
                      (LTDC_CFBP ION_FRAMEBUFFER_WIDTH)) ]
    /\ stored_values (LTDC_LCFBLNR LTDC_LAYER1) (trace (init_rgb_timings hw) m) =
      [ uint32 (LTDC_CFBLNR ION_FRAMEBUFFER_HEIGHT) ]
    /\ regs (snd (init_rgb_timings hw m)) (LTDC_LPFCR LTDC_LAYER1) =
       uint32 LTDC_PF_L8
    /\ regs (snd (init_rgb_timings hw m)) (LTDC_LCFBLR LTDC_LAYER1) =
       uint32 (Z.lor (LTDC_CFBLL (int_add ION_FRAMEBUFFER_WIDTH 3))
                     (LTDC_CFBP ION_FRAMEBUFFER_WIDTH))
    /\ regs (snd (init_rgb_timings hw m)) (LTDC_LCFBLNR LTDC_LAYER1) =
       uint32 (LTDC_CFBLNR ION_FRAMEBUFFER_HEIGHT)
    /\ (INT_MIN <= ION_FRAMEBUFFER_WIDTH + 3 <= INT_MAX ->
        int_add ION_FRAMEBUFFER_WIDTH 3 = ION_FRAMEBUFFER_WIDTH + 3).
Proof.
  intros hdr hw m.
  destruct (program_rgb_timings_trace hw lcd_panel m) as (g1 & g2 & Tr).
  unfold init_rgb_timings. rewrite Tr.
  split; [reflexivity|]. split; [reflexivity|]. split; [reflexivity|].
  split; [reflexivity|]. split; [reflexivity|]. split; [reflexivity|].
  apply int_add_exact.
Qed.

(** ** Which registers a routine touches *)

Lemma accesses_only_app (P : reg -> bool) (l1 l2 : list event) :
  accesses_only P (l1 ++ l2) = accesses_only P l1 && accesses_only P l2.
Proof. apply forallb_app. Qed.

Lemma confined_ret {A} (P : reg -> bool) (a : A) : confined P (ret a).
Proof.
  split; [apply grows_ret|]. intro m.
  rewrite (trace_intro (ret a) m []); [reflexivity|].
  simpl. symmetry. apply app_nil_r.
Qed.

Lemma confined_spinning {A} (P : reg -> bool) : confined P (@spinning A).
Proof.
  split; [apply grows_spinning|]. intro m.
  rewrite (trace_intro spinning m []); [reflexivity|].
  simpl. symmetry. apply app_nil_r.
Qed.

Lemma confined_load (P : reg -> bool) (hw : silicon) (r : reg) :
  P r = true -> confined P (load hw r).
Proof.
  intros Pr. split; [apply grows_load|]. intro m.
  rewrite (trace_intro (load hw r) m [RegLoad r (uint32 (hw m r))]);
    [|reflexivity].
  cbn [accesses_only forallb]. rewrite Pr. reflexivity.
Qed.

Lemma confined_store (P : reg -> bool) (r : reg) (v : Z) :
  P r = true -> confined P (store r v).
Proof.
  intros Pr. split; [apply grows_store|]. intro m.
  rewrite (trace_intro (store r v) m [RegStore r (uint32 v)]);
    [|reflexivity].
  cbn [accesses_only forallb]. rewrite Pr. reflexivity.
Qed.

Lemma confined_bind {A B} (P : reg -> bool) (c : M A) (k : A -> M B) :
  confined P c -> (forall a, confined P (k a)) -> confined P (bind c k).
Proof.
  intros [Gc Cc] Ck. split.
  - apply grows_bind; [exact Gc|]. intro a. apply Ck.
  - intro m. rewrite trace_bind; [|exact Gc|intro a; apply Ck].
    rewrite accesses_only_app, Cc.
    destruct (c m) as [[a|] m1]; [apply Ck|reflexivity].
Qed.

Lemma confined_busy_wait (P : reg -> bool) (fuel : nat) (cond : M bool) :
  confined P cond -> confined P (busy_wait fuel cond).
Proof.
  intros C. induction fuel as [|n IH]; simpl.
  - apply confined_spinning.
  - apply confined_bind; [exact C|].
    intros [|]; [exact IH|apply confined_ret].
Qed.

Lemma confined_or_assign (P : reg -> bool) (hw : silicon) (r : reg) (bits : Z) :
  P r = true -> confined P (or_assign hw r bits).
Proof.
  intros Pr. apply confined_bind; [apply confined_load; exact Pr|].
  intro x. apply confined_store; exact Pr.
Qed.

Lemma confined_REGISTER_SET_VALUE (P : reg -> bool) (hw : silicon) (r : reg)
  (f : field) (v : Z) :
  P r = true -> confined P (REGISTER_SET_VALUE hw r f v).
Proof.
  intros Pr. apply confined_bind; [apply confined_load; exact Pr|].
  intro x. apply confined_store; exact Pr.
Qed.

Section OutsideTheLTDC.

Context {hdr : registers_h}.
Variable hw : silicon.

Lemma GPIO_AFR_not_ltdc (g : gpio_group) (n : Z) : not_ltdc (GPIO_AFR g n) = true.
Proof. unfold GPIO_AFR. destruct (GPIO_AFR_HIGH n); reflexivity. Qed.

Ltac confine :=
  repeat lazymatch goal with
    | |- confined _ (ret _) => apply confined_ret
    | |- confined _ (bind _ _) => apply confined_bind; [|intro]
    | |- confined _ (or_assign _ _ _) => apply confined_or_assign
    | |- confined _ (REGISTER_SET_VALUE _ _ _ _) => apply confined_REGISTER_SET_VALUE
    | |- confined _ (store _ _) => apply confined_store
    | |- confined _ (load _ _) => apply confined_load
    | |- not_ltdc (GPIO_AFR _ _) = true => apply GPIO_AFR_not_ltdc
    | |- not_ltdc _ = true => reflexivity
    end.

Lemma init_spi_interface_confined : confined not_ltdc (init_spi_interface hw).
Proof. unfold init_spi_interface, init_spi_gpios, init_spi_port. confine. Qed.

Lemma init_rgb_pins_confined (pins : list gpio_pin_t) :
  confined not_ltdc (init_rgb_pins hw pins).
Proof.
  induction pins as [|pin rest IH]; cbn [init_rgb_pins]; [confine|].
  apply confined_bind; [confine|]. intro.
  apply confined_bind; [confine|]. intro. exact IH.
Qed.

Lemma init_rgb_gpios_confined : confined not_ltdc (init_rgb_gpios hw).
Proof.
  unfold init_rgb_gpios. apply confined_bind; [confine|].
  intro. apply init_rgb_pins_confined.
Qed.

Lemma pll_not_ready_confined : confined not_ltdc (pll_not_ready hw).
Proof.
  unfold pll_not_ready. apply confined_bind; [confine|]. intro x.
  destruct (Z.land x PLLSAIRDY =? 0); confine.
Qed.

Lemma program_rgb_clocks_confined (c : clock_stages) (fuel : nat) :
  confined not_ltdc (program_rgb_clocks hw c fuel).
Proof.
  unfold program_rgb_clocks.
  do 5 (apply confined_bind; [confine|intro]).
  apply confined_busy_wait, pll_not_ready_confined.
Qed.

Lemma spi_busy_confined : confined not_ltdc (spi_busy hw).
Proof. unfold spi_busy. confine. Qed.

Lemma spi_tx_not_empty_confined : confined not_ltdc (spi_tx_not_empty hw).
Proof. unfold spi_tx_not_empty. confine. Qed.

Lemma spi_5_send_confined (fuel : nat) (data : list byte) :
  confined not_ltdc (spi_5_send hw fuel data).
Proof.
  induction data as [|b rest IH]; cbn [spi_5_send]; [confine|].
  apply confined_bind; [confine|]. intro.
  apply confined_bind; [|intro; exact IH].
  apply confined_busy_wait, spi_tx_not_empty_confined.
Qed.

Lemma spi_5_write_confined (fuel : nat) (data : list byte) :
  confined not_ltdc (spi_5_write hw fuel data).
Proof.
  unfold spi_5_write.
  apply confined_bind; [apply confined_busy_wait, spi_busy_confined|]. intro.
  apply confined_bind; [apply spi_5_send_confined|]. intro.
  apply confined_busy_wait, spi_busy_confined.
Qed.

Lemma init_panel_confined (script : list panel_op) (fuel : nat) :
  confined not_ltdc (init_panel hw script fuel).
Proof.
  unfold init_panel.
  induction script as [|[b|b|data] rest IH]; cbn [ili9341_initialize];
    [confine| | |];
    (apply confined_bind; [|intro; exact IH]);
    cbn [Platform_display chip_select_pin_write data_command_pin_write spi_write].
  - unfold gpio_c2_write. confine.
  - unfold gpio_d13_write. confine.
  - apply spi_5_write_confined.
Qed.

Lemma init_rgb_timings_grows : grows (init_rgb_timings hw).
Proof.
  unfold init_rgb_timings, program_rgb_timings.
  repeat (apply grows_bind; [auto with grows|intro]). auto with grows.
Qed.

End OutsideTheLTDC.

Section BringUp.

Context {hdr : registers_h}.
Variable hw : silicon.

(** In a whole bring-up the LTDC is touched by [init_rgb_timings] alone:
    either the run never got that far, or its accesses are those of one run
    of [init_rgb_timings] between accesses to other peripherals. *)
Lemma init_display_ltdc_accesses (script : list panel_op) (fuel : nat) (m : machine) :
  accesses_only not_ltdc (trace (init_display hw script fuel) m) = true
  \/ exists pre m1 post,
       trace (init_display hw script fuel) m =
         pre ++ trace (init_rgb_timings hw) m1 ++ post
       /\ accesses_only not_ltdc pre = true
       /\ accesses_only not_ltdc post = true.
Proof.
  pose proof (init_spi_interface_confined hw) as [G1 C1].
  pose proof (init_rgb_gpios_confined hw) as [G2 C2].
  pose proof (program_rgb_clocks_confined hw lcd_clock_stages fuel) as [G3 C3].
  pose proof (init_rgb_timings_grows hw) as G4.
  pose proof (init_panel_confined hw script fuel) as [G5 C5].
  fold (init_rgb_clocks hw fuel) in G3, C3.
  set (spi := init_spi_interface hw) in *.
  set (gpios := init_rgb_gpios hw) in *.
  set (clocks := init_rgb_clocks hw fuel) in *.
  set (timings := init_rgb_timings hw) in *.
  set (panel := init_panel hw script fuel) in *.
  assert (Gtp : grows (timings ;; panel))
    by (apply grows_bind; [exact G4|intro; exact G5]).
  assert (Gctp : grows (clocks ;; timings ;; panel))
    by (apply grows_bind; [exact G3|intro; exact Gtp]).
  assert (Ggctp : grows (gpios ;; clocks ;; timings ;; panel))
    by (apply grows_bind; [exact G2|intro; exact Gctp]).
  assert (E : trace (init_display hw script fuel) m =
              trace (spi ;; gpios ;; clocks ;; timings ;; panel) m).
  { apply trace_ext. unfold init_display, init_rgb_interface.
    fold spi gpios clocks timings panel.
    apply bind_cong; intros [] m1.
    rewrite bind_assoc. apply bind_cong; intros [] m2.
    rewrite bind_assoc. reflexivity. }
  rewrite E. clear E.
  destruct (spi m) as [[[]|] m1] eqn:E1.
  2:{ left. rewrite (trace_bind_none spi _ m m1 E1). apply C1. }
  rewrite (trace_bind_some spi (fun _ => gpios ;; clocks ;; timings ;; panel)
             m m1 tt G1 Ggctp E1).
  destruct (gpios m1) as [[[]|] m2] eqn:E2.
  2:{ left. rewrite (trace_bind_none gpios _ m1 m2 E2), accesses_only_app, C1, C2.
      reflexivity. }
  rewrite (trace_bind_some gpios (fun _ => clocks ;; timings ;; panel)
             m1 m2 tt G2 Gctp E2).
  destruct (clocks m2) as [[[]|] m3] eqn:E3.
  2:{ left. rewrite (trace_bind_none clocks _ m2 m3 E3), !accesses_only_app, C1, C2, C3.
      reflexivity. }
  rewrite (trace_bind_some clocks (fun _ => timings ;; panel)
             m2 m3 tt G3 Gtp E3).
  right. exists (trace spi m ++ trace gpios m1 ++ trace clocks m2), m3.
  destruct (timings m3) as [[[]|] m4] eqn:E4.
  - exists (trace panel m4).
    rewrite (trace_bind_some timings (fun _ => panel) m3 m4 tt G4 G5 E4).
    split; [rewrite <- !app_assoc; reflexivity|].
    rewrite !accesses_only_app, C1, C2, C3, C5. split; reflexivity.
  - exists []. rewrite (trace_bind_none timings _ m3 m4 E4).
    split; [rewrite <- !app_assoc, app_nil_r; reflexivity|].
    rewrite !accesses_only_app, C1, C2, C3. split; reflexivity.
Qed.

End BringUp.

(** ** The enable bit of the engine *)

Lemma land_uint32_lor_clear (a b flag : Z) :
  Z.land a flag = 0 -> Z.land b flag = 0 ->
  Z.land (uint32 (Z.lor a b)) flag = 0.
Proof.
  intros A B. apply Z.bits_inj'. intros i _.
  apply (f_equal (fun z => Z.testbit z i)) in A, B.
  rewrite Z.land_spec, Z.bits_0 in A, B.
  rewrite Z.land_spec, uint32_testbit, Z.lor_spec, Z.bits_0.
  destruct (i <? 32); [|reflexivity].
  destruct (Z.testbit a i), (Z.testbit b i), (Z.testbit flag i);
    (discriminate || reflexivity).
Qed.

Lemma land_uint32_lor_set (a flag : Z) :
  0 < flag < 2 ^ 32 ->
  Z.land (uint32 (Z.lor a flag)) flag = flag.
Proof.
  intros R. apply Z.bits_inj'. intros i _.
  rewrite Z.land_spec, uint32_testbit, Z.lor_spec.
  destruct (Z.ltb_spec i 32) as [L|L].
  - destruct (Z.testbit a i), (Z.testbit flag i); reflexivity.
  - rewrite <- (uint32_small flag) at 1 2 by lia.
    rewrite uint32_testbit.
    destruct (Z.ltb_spec i 32) as [L'|_]; [lia|reflexivity].
Qed.

(** C7, as the code has it.  [init_rgb_timings] always returns and makes
    seventeen accesses: the timing stores, the polarity bit or-ed into
    LTDC_GCR, the background colour, then the stores that configure the
    layer (window positions, pixel format, base address, line length and
    pitch, line count), the store that enables the layer, the store that
    requests the reload and last LTDC_GCR with LTDCEN or-ed in.  The only
    earlier store to LTDC_GCR writes back what was loaded with PCPOL or-ed
    in: when that load shows LTDCEN clear (the engine is disabled on entry;
    when LTDC_GCR reads back, the load shows what the register held) and
    PCPOL is another bit than LTDCEN, no access before the last one sets
    the global enable, and the last one sets it.  LTDC_SRCR is never
    loaded: the request is not checked.  In a whole bring-up, whatever the
    panel driver does and however long the waits are watched, no other
    routine touches the LTDC. *)
Theorem enable_follows_layer_and_reload_request :
  forall (hdr : registers_h) (hw : silicon) (script : list panel_op)
         (fuel : nat) (m : machine),
    (exists g1 g2,
       trace (init_rgb_timings hw) m =
       [ RegStore LTDC_SSCR
           (uint32 (Z.lor (LTDC_VSH (int_sub (lcd_panel_vsync lcd_panel) 1))
                          (LTDC_HSW (int_sub (lcd_panel_hsync lcd_panel) 1))));
         RegStore LTDC_BPCR
           (uint32 (Z.lor (LTDC_AVBP (int_sub (vsync_bp lcd_panel) 1))
                          (LTDC_AHBP (int_sub (hsync_bp lcd_panel) 1))));
         RegStore LTDC_AWCR
           (uint32 (Z.lor (LTDC_AAH (int_sub (vsync_bp_adr lcd_panel) 1))
                          (LTDC_AAW (int_sub (hsync_bp_adr lcd_panel) 1))));
         RegStore LTDC_TWCR
           (uint32 (Z.lor (LTDC_TOTALH (int_sub (total_height lcd_panel) 1))
                          (LTDC_TOTALW (int_sub (total_width lcd_panel) 1))));
         RegLoad LTDC_GCR g1;
         RegStore LTDC_GCR (uint32 (Z.lor g1 LTDC_PCPOL));
         RegStore LTDC_BCCR (uint32 0x00FF00FF);
         RegStore (LTDC_LWHPCR LTDC_LAYER1)
           (uint32 (Z.lor (LTDC_WHSTPOS (hsync_bp lcd_panel))
                          (LTDC_WHSPPOS (int_sub (hsync_bp_adr lcd_panel) 1))));
         RegStore (LTDC_LWVPCR LTDC_LAYER1)
           (uint32 (Z.lor (LTDC_WVSTPOS (vsync_bp lcd_panel))
                          (LTDC_WVSPPOS (int_sub (vsync_bp_adr lcd_panel) 1))));
         RegStore (LTDC_LPFCR LTDC_LAYER1) (uint32 LTDC_PF_L8);
         RegStore (LTDC_LCFBAR LTDC_LAYER1) (uint32 ION_FRAMEBUFFER_ADDRESS);
         RegStore (LTDC_LCFBLR LTDC_LAYER1)
           (uint32 (Z.lor (LTDC_CFBLL (int_add ION_FRAMEBUFFER_WIDTH 3))
                          (LTDC_CFBP ION_FRAMEBUFFER_WIDTH)));
         RegStore (LTDC_LCFBLNR LTDC_LAYER1)
           (uint32 (LTDC_CFBLNR ION_FRAMEBUFFER_HEIGHT));
         RegStore (LTDC_LCR LTDC_LAYER1) (uint32 LTDC_LEN);
         RegStore LTDC_SRCR (uint32 LTDC_IMR);
         RegLoad LTDC_GCR g2;
         RegStore LTDC_GCR (uint32 (Z.lor g2 LTDC_LTDCEN)) ]
       /\ (reads_back hw LTDC_GCR -> g1 = uint32 (regs m LTDC_GCR))
       /\ (Z.land g1 LTDC_LTDCEN = 0 ->
           Z.land LTDC_PCPOL LTDC_LTDCEN = 0 ->
           existsb (enables_engine LTDC_LTDCEN)
             (removelast (trace (init_rgb_timings hw) m)) = false)
       /\ (0 < LTDC_LTDCEN < 2 ^ 32 ->
           enables_engine LTDC_LTDCEN
             (last (trace (init_rgb_timings hw) m) (RegLoad LTDC_GCR 0))
           = true))
    /\ fst (init_rgb_timings hw m) = Some tt
    /\ loads_of LTDC_SRCR (trace (init_rgb_timings hw) m) = O
    /\ (accesses_only not_ltdc (trace (init_display hw script fuel) m) = true
        \/ exists pre m1 post,
             trace (init_display hw script fuel) m =
               pre ++ trace (init_rgb_timings hw) m1 ++ post
             /\ accesses_only not_ltdc pre = true
             /\ accesses_only not_ltdc post = true).
Proof.
  intros hdr hw script fuel m.
  split; [|split; [reflexivity|split]].
  - destruct (program_rgb_timings_trace hw lcd_panel m) as (g1 & g2 & Tr).
    exists g1, g2. unfold init_rgb_timings.
    split; [exact Tr|]. split; [|split].
    + intros Back.
      pose proof (program_rgb_timings_entry_load hw lcd_panel m Back) as L.
      rewrite Tr in L. cbn [nth] in L. injection L as L. exact L.
    + intros Off Other. rewrite Tr.
      cbn [removelast existsb enables_engine orb].
      unfold flag_set.
      rewrite (land_uint32_lor_clear g1 LTDC_PCPOL LTDC_LTDCEN Off Other).
      reflexivity.
    + intros R. rewrite Tr. cbn [last enables_engine]. unfold flag_set.
      rewrite (land_uint32_lor_set g2 LTDC_LTDCEN R).
      destruct (Z.eqb_spec LTDC_LTDCEN 0) as [Z0|_]; [lia|reflexivity].
  - apply init_rgb_timings_never_loads_SRCR.
  - apply init_display_ltdc_accesses.
Qed.

(** After reset, on a chip whose LTDC_GCR reads back, the engine is
    disabled on entry: C7 gives that only the last access of
    [init_rgb_timings] sets the global enable. *)
Lemma enable_follows_layer_and_reload_request_witness :
  existsb (enables_engine (@LTDC_LTDCEN stm32f429))
    (removelast
       (trace (init_rgb_timings (hdr:=stm32f429) idle_no_reload)
          reset_machine)) = false
  /\ enables_engine (@LTDC_LTDCEN stm32f429)
       (last (trace (init_rgb_timings (hdr:=stm32f429) idle_no_reload)
                reset_machine) (RegLoad LTDC_GCR 0)) = true.
Proof.
  destruct (enable_follows_layer_and_reload_request stm32f429 idle_no_reload
              [] 1 reset_machine)
    as ((g1 & g2 & _ & Entry & Before & Last) & _).
  split.
  - apply Before; [|reflexivity].
    rewrite (Entry (fun _ => eq_refl)). reflexivity.
  - apply Last. split; reflexivity.
Defined.

(** C7 as worded fails: on silicon that never carries the reload out
    (LTDC_SRCR keeps IMR set), [init_rgb_timings] returns with the engine
    enabled all the same; it never looked at LTDC_SRCR. *)
Lemma enable_without_confirmation :
  enable_follows_reload (@LTDC_IMR stm32f429) (@LTDC_LTDCEN stm32f429)
    false false
    (trace (init_rgb_timings (hdr:=stm32f429) idle_no_reload) reset_machine)
  = false
  /\ fst (init_rgb_timings (hdr:=stm32f429) idle_no_reload reset_machine)
     = Some tt
  /\ stored_values LTDC_GCR
       (trace (init_rgb_timings (hdr:=stm32f429) idle_no_reload) reset_machine)
     = [ 0x10000000; 0x10000001 ]
  /\ loads_of LTDC_SRCR
       (trace (init_rgb_timings (hdr:=stm32f429) idle_no_reload) reset_machine)
     = O.
Proof. vm_compute. repeat split. Qed.

(** ** Setting one bit of a register *)

Lemma testbit_one (k : Z) : Z.testbit 1 k = (k =? 0).
Proof.
  destruct (Z.eqb_spec k 0) as [->|N]; [reflexivity|].
  destruct (Z.lt_ge_cases k 0) as [Neg|Pos].
  - apply Z.testbit_neg_r. exact Neg.
  - apply Z.bits_above_log2; [lia|]. change (Z.log2 1) with 0. lia.
Qed.

Lemma testbit_b2z (b : bool) (k : Z) : Z.testbit (b2z b) k = b && (k =? 0).
Proof.
  destruct b; cbn [b2z andb]; [apply testbit_one|apply Z.testbit_0_l].
Qed.

Lemma testbit_all_ones (i : Z) : 0 <= i < 32 -> Z.testbit (2 ^ 32 - 1) i = true.
Proof.
  intros R. change (2 ^ 32 - 1) with (Z.ones 32). apply Z.ones_spec_low. exact R.
Qed.

(** The value [REGISTER_SET_VALUE] stores for a one-bit field, bit by bit. *)
Lemma single_bit_value (x n i : Z) (b : bool) :
  0 <= n < 32 -> 0 <= i < 32 ->
  Z.testbit
    (uint32 (Z.lor (Z.land (uint32 x)
                      (Z.lxor (2 ^ 32 - 1) (REGISTER_FIELD_MASK (mkField n n))))
                   (REGISTER_FIELD_VALUE (mkField n n) (b2z b)))) i
  = if i =? n then b else Z.testbit x i.
Proof.
  intros Rn Ri.
  unfold REGISTER_FIELD_VALUE, REGISTER_FIELD_MASK. cbn [LOW_BIT HIGH_BIT].
  replace (n - n + 1) with 1 by lia. change (Z.shiftl 1 1 - 1) with 1.
  rewrite uint32_testbit.
  destruct (Z.ltb_spec i 32) as [_|]; [|lia].
  rewrite Z.lor_spec, !Z.land_spec, Z.lxor_spec, uint32_testbit.
  destruct (Z.ltb_spec i 32) as [_|]; [|lia].
  rewrite testbit_all_ones by exact Ri.
  rewrite !Z.shiftl_spec by lia.
  rewrite testbit_one, testbit_b2z.
  replace (i - n =? 0) with (i =? n)
    by (destruct (Z.eqb_spec i n), (Z.eqb_spec (i - n) 0); lia || reflexivity).
  destruct (i =? n), b, (Z.testbit x i); reflexivity.
Qed.

Section OneBit.

Context {hdr : registers_h}.
Variable hw : silicon.

(** Setting the one-bit field [n] of a register that reads back: the bit
    becomes the argument, the other bits and the other registers stay. *)
Lemma set_one_bit (r : reg) (n : Z) (b : bool) (m : machine) :
  0 <= n < 32 ->
  reads_back hw r ->
  fst (REGISTER_SET_VALUE hw r (mkField n n) (b2z b) m) = Some tt
  /\ Z.testbit (regs (snd (REGISTER_SET_VALUE hw r (mkField n n) (b2z b) m)) r) n = b
  /\ (forall i, 0 <= i < 32 -> i <> n ->
        Z.testbit (regs (snd (REGISTER_SET_VALUE hw r (mkField n n) (b2z b) m)) r) i
        = Z.testbit (regs m r) i)
  /\ (forall r', r' <> r ->
        regs (snd (REGISTER_SET_VALUE hw r (mkField n n) (b2z b) m)) r' = regs m r')
  /\ stored_regs (trace (REGISTER_SET_VALUE hw r (mkField n n) (b2z b)) m) = [r].
Proof.
  intros Rn Back.
  assert (Tr : trace (REGISTER_SET_VALUE hw r (mkField n n) (b2z b)) m =
               [ RegLoad r (uint32 (hw m r));
                 RegStore r
                   (uint32 (Z.lor (Z.land (uint32 (hw m r))
                      (Z.lxor (2 ^ 32 - 1) (REGISTER_FIELD_MASK (mkField n n))))
                      (REGISTER_FIELD_VALUE (mkField n n) (b2z b)))) ])
    by read_off_trace.
  rewrite Tr. clear Tr.
  unfold REGISTER_SET_VALUE, bind, load, store.
  cbn [fst snd regs log]. unfold upd.
  split; [reflexivity|].
  split; [|split; [|split]].
  - rewrite reg_eqb_refl, single_bit_value by lia.
    rewrite Z.eqb_refl. reflexivity.
  - intros i Ri Ni. rewrite reg_eqb_refl, single_bit_value by lia.
    destruct (Z.eqb_spec i n); [contradiction|]. rewrite Back. reflexivity.
  - intros r' Nr. rewrite reg_eqb_neq by congruence. reflexivity.
  - reflexivity.
Qed.

End OneBit.

(** C10. When ODR(n) names bit n of the output-data register and the
    register reads back what it holds, [gpio_c2_write] sets bit 2 of
    GPIOC's ODR to its argument and [gpio_d13_write] sets bit 13 of GPIOD's
    ODR to its argument; the other bits of that register and all other
    registers keep their values, and the register is the only one stored
    to. *)
Theorem gpio_writes_touch_one_bit :
  forall (hdr : registers_h) (hw : silicon) (pin_state : bool) (m : machine),
    ODR 2 = mkField 2 2 ->
    ODR 13 = mkField 13 13 ->
    reads_back hw (GPIO_ODR GPIOC) ->
    reads_back hw (GPIO_ODR GPIOD) ->
    (fst (gpio_c2_write hw pin_state m) = Some tt
     /\ Z.testbit (regs (snd (gpio_c2_write hw pin_state m)) (GPIO_ODR GPIOC)) 2
        = pin_state
     /\ (forall i, 0 <= i < 32 -> i <> 2 ->
           Z.testbit (regs (snd (gpio_c2_write hw pin_state m)) (GPIO_ODR GPIOC)) i
           = Z.testbit (regs m (GPIO_ODR GPIOC)) i)
     /\ (forall r, r <> GPIO_ODR GPIOC ->
           regs (snd (gpio_c2_write hw pin_state m)) r = regs m r)
     /\ stored_regs (trace (gpio_c2_write hw pin_state) m) = [GPIO_ODR GPIOC])
    /\
    (fst (gpio_d13_write hw pin_state m) = Some tt
     /\ Z.testbit (regs (snd (gpio_d13_write hw pin_state m)) (GPIO_ODR GPIOD)) 13
        = pin_state
     /\ (forall i, 0 <= i < 32 -> i <> 13 ->
           Z.testbit (regs (snd (gpio_d13_write hw pin_state m)) (GPIO_ODR GPIOD)) i
           = Z.testbit (regs m (GPIO_ODR GPIOD)) i)
     /\ (forall r, r <> GPIO_ODR GPIOD ->
           regs (snd (gpio_d13_write hw pin_state m)) r = regs m r)
     /\ stored_regs (trace (gpio_d13_write hw pin_state) m) = [GPIO_ODR GPIOD]).
Proof.
  intros hdr hw pin_state m O2 O13 BackC BackD.
  unfold gpio_c2_write, gpio_d13_write. rewrite O2, O13.
  split; apply set_one_bit; (lia || assumption).
Qed.

(** On the reference header and a chip whose registers read back, raising
    the chip-select line of a machine just out of reset gives ODR = 4. *)
Lemma gpio_writes_touch_one_bit_witness :
  Z.testbit (regs (snd (gpio_c2_write (hdr:=stm32f429) latch true reset_machine))
               (GPIO_ODR GPIOC)) 2 = true
  /\ regs (snd (gpio_c2_write (hdr:=stm32f429) latch true reset_machine))
       (GPIO_ODR GPIOD) = regs reset_machine (GPIO_ODR GPIOD).
Proof.
  destruct (gpio_writes_touch_one_bit stm32f429 latch true reset_machine
              eq_refl eq_refl (fun _ => eq_refl) (fun _ => eq_refl))
    as ((_ & B & _ & F & _) & _).
  split; [exact B|]. apply F. discriminate.
Defined.

(** ** Busy-wait loops *)

Lemma bind_spinning {A B} (c : M A) (k : A -> M B) (m : machine) :
  fst (c m) = None -> fst (bind c k m) = None.
Proof. unfold bind. destruct (c m) as [[a|] m1]; [discriminate|reflexivity]. Qed.

Lemma bind_returns {A B} (c : M A) (k : A -> M B) (m : machine) (a : A) :
  fst (c m) = Some a -> bind c k m = k a (snd (c m)).
Proof.
  unfold bind. destruct (c m) as [[a'|] m1]; simpl; [|discriminate].
  intros [= ->]. reflexivity.
Qed.

Lemma busy_wait_S (n : nat) (cond : M bool) (m : machine) :
  busy_wait (S n) cond m =
  match cond m with
  | (Some true, m1) => busy_wait n cond m1
  | (Some false, m1) => (Some tt, m1)
  | (None, m1) => (None, m1)
  end.
Proof.
  cbn [busy_wait]. unfold bind. destruct (cond m) as [[[|]|] m1]; reflexivity.
Qed.

(** A loop whose condition holds at every evaluation never returns,
    however long it is watched. *)
Lemma busy_wait_never_returns (cond : M bool) :
  (forall m, fst (cond m) = Some true) ->
  forall fuel m, fst (busy_wait fuel cond m) = None.
Proof.
  intros Stuck fuel. induction fuel as [|n IH]; intro m; [reflexivity|].
  cbn [busy_wait]. rewrite (bind_returns _ _ _ _ (Stuck m)). apply IH.
Qed.

(** A loop whose condition, from the states satisfying [I] on, holds and
    costs one load of [r]: watched for [fuel] evaluations it has loaded [r]
    [fuel] times and has not returned. *)
Lemma busy_wait_keeps_polling (cond : M bool) (r : reg) (I : machine -> Prop) :
  (forall m, I m -> exists v, cond m = (Some true, after_load r v m)
                              /\ I (after_load r v m)) ->
  forall fuel m, I m ->
    fst (busy_wait fuel cond m) = None
    /\ exists polls, log (snd (busy_wait fuel cond m)) = log m ++ polls
                     /\ loads_of r polls = fuel.
Proof.
  intros Step fuel. induction fuel as [|n IH]; intros m Im.
  - split; [reflexivity|]. exists []. split; [|reflexivity].
    simpl. symmetry. apply app_nil_r.
  - destruct (Step m Im) as (v & E & Im').
    rewrite busy_wait_S, E.
    destruct (IH _ Im') as (N & polls & L & C).
    split; [exact N|]. exists (RegLoad r v :: polls). split.
    + rewrite L. apply log_snoc_app.
    + cbn [loads_of]. rewrite reg_eqb_refl, C. reflexivity.
Qed.

(** A loop whose condition always terminates and is false once [T]
    accesses have been logged returns when watched long enough. *)
Lemma busy_wait_returns (cond : M bool) (T : nat) :
  (forall m, exists b m', cond m = (Some b, m')
                          /\ (length (log m) < length (log m'))%nat) ->
  (forall m, (T <= length (log m))%nat -> fst (cond m) = Some false) ->
  forall fuel m, (T - length (log m) < fuel)%nat ->
    fst (busy_wait fuel cond m) = Some tt.
Proof.
  intros Progress Ready fuel. induction fuel as [|n IH]; intros m Lt; [lia|].
  rewrite busy_wait_S.
  destruct (Progress m) as (b & m' & E & Longer). rewrite E.
  destruct b; [|reflexivity].
  apply IH.
  destruct (Nat.le_gt_cases T (length (log m))) as [Le|Gt].
  - specialize (Ready m Le). rewrite E in Ready. discriminate.
  - lia.
Qed.

(** The accesses of a returned loop whose condition is one load of [r]
    and which goes on while the value does not satisfy [leave]: a
    completed wait, and no store. *)
Lemma busy_wait_completed (hw : silicon) (cond : M bool) (r : reg)
  (leave : Z -> bool) :
  (forall m, cond m = (Some (negb (leave (uint32 (hw m r)))),
                       after_load r (uint32 (hw m r)) m)) ->
  forall fuel m,
    fst (busy_wait fuel cond m) = Some tt ->
    exists polls,
      log (snd (busy_wait fuel cond m)) = log m ++ polls
      /\ (forall rest, skip_polls r leave (polls ++ rest) = Some rest)
      /\ stored_regs polls = [].
Proof.
  intros Cond fuel. induction fuel as [|n IH]; intros m Ret; [discriminate|].
  rewrite busy_wait_S, Cond in *.
  destruct (leave (uint32 (hw m r))) eqn:L; cbn [negb] in *.
  - exists [RegLoad r (uint32 (hw m r))]. split; [reflexivity|].
    split; [|reflexivity]. intro rest.
    cbn [app skip_polls]. rewrite reg_eqb_refl, L. reflexivity.
  - destruct (IH _ Ret) as (polls & Lg & Sk & St).
    exists (RegLoad r (uint32 (hw m r)) :: polls).
    split; [rewrite Lg; apply log_snoc_app|].
    split; [|exact St]. intro rest.
    cbn [app skip_polls]. rewrite reg_eqb_refl, L. apply Sk.
Qed.

(** Whether it returns or not, a loop adds to the log only what its
    condition adds. *)
Lemma busy_wait_forall (Q : event -> bool) (cond : M bool) :
  (forall m, exists new, log (snd (cond m)) = log m ++ new
                         /\ forallb Q new = true) ->
  forall fuel m,
    exists polls,
      log (snd (busy_wait fuel cond m)) = log m ++ polls
      /\ forallb Q polls = true.
Proof.
  intros Cond fuel. induction fuel as [|n IH]; intros m.
  - exists []. split; [|reflexivity]. simpl. symmetry. apply app_nil_r.
  - rewrite busy_wait_S. destruct (Cond m) as (new & Lg & Fa).
    destruct (cond m) as [[[|]|] m1]; cbn [snd] in *.
    + destruct (IH m1) as (polls & Lg' & Fa'). exists (new ++ polls).
      split; [rewrite Lg', Lg; symmetry; apply app_assoc|].
      rewrite forallb_app, Fa, Fa'. reflexivity.
    + exists new. split; assumption.
    + exists new. split; assumption.
Qed.

(** ** The clock derivation engine *)

Section Clocks.

Context {hdr : registers_h}.
Variable hw : silicon.

Lemma run_pll_not_ready (m : machine) :
  pll_not_ready hw m =
  if Z.land (uint32 (hw m RCC_CR)) PLLSAIRDY =? 0
  then (Some true, after_load RCC_CR (uint32 (hw m RCC_CR)) m)
  else (Some (Z.land (uint32 (hw (after_load RCC_CR (uint32 (hw m RCC_CR)) m)
                                 RCC_CR)) PLLRDY =? 0),
        after_load RCC_CR
          (uint32 (hw (after_load RCC_CR (uint32 (hw m RCC_CR)) m) RCC_CR))
          (after_load RCC_CR (uint32 (hw m RCC_CR)) m)).
Proof.
  unfold pll_not_ready. rewrite run_load_bind.
  destruct (Z.land (uint32 (hw m RCC_CR)) PLLSAIRDY =? 0); reflexivity.
Qed.

Lemma pll_not_ready_progress (m : machine) :
  exists b m', pll_not_ready hw m = (Some b, m')
               /\ (length (log m) < length (log m'))%nat.
Proof.
  rewrite run_pll_not_ready.
  destruct (Z.land (uint32 (hw m RCC_CR)) PLLSAIRDY =? 0);
    do 2 eexists; (split; [reflexivity|]);
    cbn [after_load log]; rewrite ?length_app; cbn [length]; lia.
Qed.

Lemma pll_not_ready_polls (m : machine) :
  exists new, log (snd (pll_not_ready hw m)) = log m ++ new
              /\ forallb (is_load_of RCC_CR) new = true.
Proof.
  rewrite run_pll_not_ready.
  destruct (Z.land (uint32 (hw m RCC_CR)) PLLSAIRDY =? 0); cbn [snd].
  - eexists. split; [reflexivity|reflexivity].
  - eexists. split; [|].
    + cbn [after_load log]. rewrite <- app_assoc. reflexivity.
    + reflexivity.
Qed.

Lemma pll_not_ready_stuck :
  flag_low hw RCC_CR PLLSAIRDY \/ flag_low hw RCC_CR PLLRDY ->
  forall m, fst (pll_not_ready hw m) = Some true.
Proof.
  intros Stuck m. rewrite run_pll_not_ready.
  destruct (Z.eqb_spec (Z.land (uint32 (hw m RCC_CR)) PLLSAIRDY) 0) as [E|N];
    [reflexivity|].
  destruct Stuck as [Low|Low].
  - contradiction (N (Low m)).
  - cbn [fst]. rewrite Low. reflexivity.
Qed.

Lemma pll_not_ready_locked (T : nat) :
  flag_high_from T hw RCC_CR PLLSAIRDY ->
  flag_high_from T hw RCC_CR PLLRDY ->
  forall m, (T <= length (log m))%nat -> fst (pll_not_ready hw m) = Some false.
Proof.
  intros Sai Pll m Le. rewrite run_pll_not_ready.
  destruct (Z.eqb_spec (Z.land (uint32 (hw m RCC_CR)) PLLSAIRDY) 0) as [E|N].
  - contradiction (Sai m Le E).
  - cbn [fst].
    destruct (Z.eqb_spec
                (Z.land (uint32 (hw (after_load RCC_CR (uint32 (hw m RCC_CR)) m)
                                    RCC_CR)) PLLRDY) 0) as [E|_];
      [|reflexivity].
    exfalso. refine (Pll _ _ E).
    cbn [after_load log]. rewrite length_app. lia.
Qed.

(** [init_rgb_clocks] up to its loop: five read-modify-writes, whatever the
    stage values. *)
Lemma program_rgb_clocks_prefix (c : clock_stages) (fuel : nat) (m : machine) :
  exists a b d e f m5,
    program_rgb_clocks hw c fuel m = busy_wait fuel (pll_not_ready hw) m5
    /\ log m5 = log m ++
       [ RegLoad RCC_APB2ENR a;
         RegStore RCC_APB2ENR (uint32 (Z.lor a LTDCEN));
         RegLoad RCC_PLLSAICFGR b;
         RegStore RCC_PLLSAICFGR
           (uint32 (Z.lor (Z.land b (Z.lxor (2 ^ 32 - 1) (REGISTER_FIELD_MASK PLLSAIN)))
                          (REGISTER_FIELD_VALUE PLLSAIN (sain c))));
         RegLoad RCC_PLLSAICFGR d;
         RegStore RCC_PLLSAICFGR
           (uint32 (Z.lor (Z.land d (Z.lxor (2 ^ 32 - 1) (REGISTER_FIELD_MASK PLLSAIR)))
                          (REGISTER_FIELD_VALUE PLLSAIR (sair c))));
         RegLoad RCC_DCKCFGR e;
         RegStore RCC_DCKCFGR
           (uint32 (Z.lor (Z.land e (Z.lxor (2 ^ 32 - 1) (REGISTER_FIELD_MASK PLLSAIDIVR)))
                          (REGISTER_FIELD_VALUE PLLSAIDIVR (saidivr c))));
         RegLoad RCC_CR f;
         RegStore RCC_CR (uint32 (Z.lor f (Z.lor PLLSAION PLLON))) ].
Proof.
  unfold program_rgb_clocks.
  repeat (rewrite run_or_assign_bind || rewrite run_REGISTER_SET_VALUE_bind).
  do 6 eexists. split; [reflexivity|].
  match goal with |- ?l = _ => rewrite <- (app_nil_r l) end.
  repeat (rewrite log_after_store || rewrite log_after_load).
  reflexivity.
Qed.

Lemma program_rgb_clocks_never_returns (c : clock_stages) (fuel : nat) (m : machine) :
  flag_low hw RCC_CR PLLSAIRDY \/ flag_low hw RCC_CR PLLRDY ->
  fst (program_rgb_clocks hw c fuel m) = None.
Proof.
  intros Stuck.
  destruct (program_rgb_clocks_prefix c fuel m) as (a & b & d & e & f & m5 & E & _).
  rewrite E. apply busy_wait_never_returns, pll_not_ready_stuck, Stuck.
Qed.

Lemma program_rgb_clocks_returns (c : clock_stages) (T fuel : nat) (m : machine) :
  flag_high_from T hw RCC_CR PLLSAIRDY ->
  flag_high_from T hw RCC_CR PLLRDY ->
  (T < fuel)%nat ->
  fst (program_rgb_clocks hw c fuel m) = Some tt.
Proof.
  intros Sai Pll Lt.
  destruct (program_rgb_clocks_prefix c fuel m) as (a & b & d & e & f & m5 & E & _).
  rewrite E. apply (busy_wait_returns _ T).
  - apply pll_not_ready_progress.
  - apply pll_not_ready_locked; assumption.
  - lia.
Qed.

End Clocks.


(** ** The control-channel transport *)

Lemma stored_values_app (r : reg) (l1 l2 : list event) :
  stored_values r (l1 ++ l2) = stored_values r l1 ++ stored_values r l2.
Proof.
  induction l1 as [|[r' v|r' v] l1 IH]; cbn [app stored_values];
    [reflexivity|exact IH|].
  destruct (reg_eqb r r'); cbn [app]; rewrite IH; reflexivity.
Qed.

Lemma loads_of_app (r : reg) (l1 l2 : list event) :
  loads_of r (l1 ++ l2) = (loads_of r l1 + loads_of r l2)%nat.
Proof.
  induction l1 as [|[r' v|r' v] l1 IH]; cbn [app loads_of];
    [reflexivity| |exact IH].
  destruct (reg_eqb r r'); rewrite IH; reflexivity.
Qed.

Lemma no_store_no_value (r : reg) (evs : list event) :
  stored_regs evs = [] -> stored_values r evs = [].
Proof.
  induction evs as [|[r' v|r' v] evs IH]; cbn [stored_regs stored_values];
    [reflexivity|exact IH|discriminate].
Qed.

Section Transport.

Context {hdr : registers_h}.
Variable hw : silicon.

Lemma run_spi_busy (m : machine) :
  spi_busy hw m =
  (Some (negb (flag_clear SPI_BSY (uint32 (hw m (SPI_SR SPI5))))),
   after_load (SPI_SR SPI5) (uint32 (hw m (SPI_SR SPI5))) m).
Proof. reflexivity. Qed.

Lemma run_spi_tx_not_empty (m : machine) :
  spi_tx_not_empty hw m =
  (Some (negb (flag_set SPI_TXE (uint32 (hw m (SPI_SR SPI5))))),
   after_load (SPI_SR SPI5) (uint32 (hw m (SPI_SR SPI5))) m).
Proof.
  unfold flag_set. rewrite negb_involutive. reflexivity.
Qed.

Lemma one_load_progress (cond : M bool) (f : Z -> bool) (r : reg) :
  (forall m, cond m = (Some (f (uint32 (hw m r))),
                       after_load r (uint32 (hw m r)) m)) ->
  forall m, exists b m', cond m = (Some b, m')
                         /\ (length (log m) < length (log m'))%nat.
Proof.
  intros Run m. do 2 eexists. split; [apply Run|].
  cbn [after_load log]. rewrite length_app. cbn [length]. lia.
Qed.

(** *** When [spi_5_write] returns *)

Lemma spi_5_send_returns (T fuel : nat) (data : list byte) (m : machine) :
  flag_high_from T hw (SPI_SR SPI5) SPI_TXE ->
  (T < fuel)%nat ->
  fst (spi_5_send hw fuel data m) = Some tt.
Proof.
  intros Txe Lt. revert m.
  induction data as [|b rest IH]; intro m; [reflexivity|].
  cbn [spi_5_send]. rewrite run_store_bind.
  assert (W : fst (busy_wait fuel (spi_tx_not_empty hw)
                     (after_store (SPI_DR SPI5) (char_value b) m)) = Some tt).
  { apply (busy_wait_returns _ T).
    - apply (one_load_progress _ (fun v => negb (flag_set SPI_TXE v))
               (SPI_SR SPI5) run_spi_tx_not_empty).
    - intros m' Le. rewrite run_spi_tx_not_empty. cbn [fst]. unfold flag_set.
      destruct (Z.eqb_spec (Z.land (uint32 (hw m' (SPI_SR SPI5))) SPI_TXE) 0)
        as [E|_]; [|reflexivity].
      contradiction (Txe m' Le E).
    - lia. }
  rewrite (bind_returns _ _ _ _ W). apply IH.
Qed.

Lemma spi_busy_wait_returns (T fuel : nat) (m : machine) :
  flag_low_from T hw (SPI_SR SPI5) SPI_BSY ->
  (T < fuel)%nat ->
  fst (busy_wait fuel (spi_busy hw) m) = Some tt.
Proof.
  intros Bsy Lt. apply (busy_wait_returns _ T).
  - apply (one_load_progress _ (fun v => negb (flag_clear SPI_BSY v))
             (SPI_SR SPI5) run_spi_busy).
  - intros m' Le. rewrite run_spi_busy. cbn [fst]. unfold flag_clear.
    rewrite (Bsy m' Le). reflexivity.
  - lia.
Qed.

Lemma spi_5_write_returns (T fuel : nat) (data : list byte) (m : machine) :
  flag_low_from T hw (SPI_SR SPI5) SPI_BSY ->
  flag_high_from T hw (SPI_SR SPI5) SPI_TXE ->
  (T < fuel)%nat ->
  fst (spi_5_write hw fuel data m) = Some tt.
Proof.
  intros Bsy Txe Lt. unfold spi_5_write.
  rewrite (bind_returns _ _ _ _ (spi_busy_wait_returns T fuel m Bsy Lt)).
  rewrite (bind_returns _ _ _ _ (spi_5_send_returns T fuel data _ Txe Lt)).
  apply (spi_busy_wait_returns T); assumption.
Qed.

(** *** When it does not *)

Lemma spi_5_write_busy_forever (fuel : nat) (data : list byte) (m : machine) :
  flag_high hw (SPI_SR SPI5) SPI_BSY ->
  fst (spi_5_write hw fuel data m) = None.
Proof.
  intros Bsy. unfold spi_5_write. apply bind_spinning.
  apply busy_wait_never_returns. intro m'.
  rewrite run_spi_busy. cbn [fst]. unfold flag_clear.
  destruct (Z.eqb_spec (Z.land (uint32 (hw m' (SPI_SR SPI5))) SPI_BSY) 0)
    as [E|_]; [|reflexivity].
  contradiction (Bsy m' E).
Qed.

Lemma spi_5_write_never_ready (fuel : nat) (data : list byte) (m : machine) :
  flag_low hw (SPI_SR SPI5) SPI_TXE ->
  data <> [] ->
  fst (spi_5_write hw fuel data m) = None.
Proof.
  intros Txe Ne. unfold spi_5_write.
  destruct (fst (busy_wait fuel (spi_busy hw) m)) as [[]|] eqn:W;
    [|apply bind_spinning; exact W].
  rewrite (bind_returns _ _ _ _ W). apply bind_spinning.
  destruct data as [|b rest]; [contradiction|].
  cbn [spi_5_send]. rewrite run_store_bind. apply bind_spinning.
  apply busy_wait_never_returns. intro m'.
  rewrite run_spi_tx_not_empty. cbn [fst]. unfold flag_set.
  rewrite (Txe m'). reflexivity.
Qed.

End Transport.

Lemma busy_wait_never_returns_from (cond : M bool) (I : machine -> Prop) :
  (forall m, I m -> fst (cond m) = Some true /\ I (snd (cond m))) ->
  forall fuel m, I m -> fst (busy_wait fuel cond m) = None.
Proof.
  intros Stuck fuel. induction fuel as [|n IH]; intros m Im; [reflexivity|].
  destruct (Stuck m Im) as [E Im'].
  cbn [busy_wait]. rewrite (bind_returns _ _ _ _ E). apply IH, Im'.
Qed.

Lemma byte_sent_later (m m' : machine) (new : list event) :
  log m' = log m ++ new -> byte_sent m = true -> byte_sent m' = true.
Proof.
  unfold byte_sent. intros -> S. rewrite existsb_app, S. reflexivity.
Qed.

Section TransportProtocol.

Context {hdr : registers_h}.
Variable hw : silicon.

Lemma spi_5_send_sends (fuel : nat) (data : list byte) (m : machine) :
  data <> [] -> byte_sent (snd (spi_5_send hw fuel data m)) = true.
Proof.
  intros Ne. destruct data as [|b rest]; [contradiction|].
  cbn [spi_5_send]. rewrite run_store_bind.
  set (m1 := after_store (SPI_DR SPI5) (char_value b) m).
  assert (G : grows (bind (busy_wait fuel (spi_tx_not_empty hw))
                          (fun _ => spi_5_send hw fuel rest))).
  { apply grows_bind.
    - apply grows_busy_wait. apply (spi_tx_not_empty_confined hw).
    - intro. apply (spi_5_send_confined hw). }
  destruct (G m1) as [new L].
  apply (byte_sent_later m1 _ new L).
  unfold byte_sent, m1. cbn [after_store log].
  rewrite existsb_app. cbn [existsb]. apply orb_true_r.
Qed.

Lemma spi_5_write_never_completes (fuel : nat) (data : list byte) (m : machine) :
  (forall m', byte_sent m' = true ->
              Z.land (uint32 (hw m' (SPI_SR SPI5))) SPI_BSY <> 0) ->
  data <> [] ->
  fst (spi_5_write hw fuel data m) = None.
Proof.
  intros Bsy Ne. unfold spi_5_write.
  destruct (fst (busy_wait fuel (spi_busy hw) m)) as [[]|] eqn:W;
    [|apply bind_spinning; exact W].
  rewrite (bind_returns _ _ _ _ W).
  set (m1 := snd (busy_wait fuel (spi_busy hw) m)).
  destruct (fst (spi_5_send hw fuel data m1)) as [[]|] eqn:S;
    [|apply bind_spinning; exact S].
  rewrite (bind_returns _ _ _ _ S).
  apply (busy_wait_never_returns_from _ (fun m' => byte_sent m' = true)).
  - intros m' Sent. rewrite run_spi_busy. cbn [fst snd]. split.
    + unfold flag_clear.
      destruct (Z.eqb_spec (Z.land (uint32 (hw m' (SPI_SR SPI5))) SPI_BSY) 0)
        as [E|_]; [|reflexivity].
      contradiction (Bsy m' Sent E).
    + apply (byte_sent_later m' _ [RegLoad (SPI_SR SPI5)
                                     (uint32 (hw m' (SPI_SR SPI5)))]);
        [reflexivity|exact Sent].
  - apply spi_5_send_sends, Ne.
Qed.

(** The accesses of a returned [spi_5_send]: each byte stored, then a
    completed wait for TXE. *)
Lemma spi_5_send_completed (fuel : nat) (data : list byte) (m : machine) :
  fst (spi_5_send hw fuel data m) = Some tt ->
  exists evs,
    log (snd (spi_5_send hw fuel data m)) = log m ++ evs
    /\ (forall rest, sent_then_waited SPI_TXE data (evs ++ rest) = Some rest)
    /\ stored_values (SPI_DR SPI5) evs = map char_value data.
Proof.
  revert m. induction data as [|b bs IH]; intros m Ret.
  - exists []. split; [simpl; symmetry; apply app_nil_r|].
    split; [reflexivity|reflexivity].
  - cbn [spi_5_send] in *. rewrite run_store_bind in *.
    set (m1 := after_store (SPI_DR SPI5) (char_value b) m) in *.
    destruct (fst (busy_wait fuel (spi_tx_not_empty hw) m1)) as [[]|] eqn:W;
      [|rewrite (bind_spinning _ _ _ W) in Ret; discriminate].
    rewrite (bind_returns _ _ _ _ W) in *.
    destruct (busy_wait_completed hw (spi_tx_not_empty hw) (SPI_SR SPI5)
                (flag_set SPI_TXE) (run_spi_tx_not_empty hw) fuel m1 W)
      as (polls & Lp & Sk & St).
    destruct (IH _ Ret) as (evs & Le & Sw & Sv).
    exists (RegStore (SPI_DR SPI5) (uint32 (char_value b)) :: polls ++ evs).
    split; [|split].
    + rewrite Le, Lp. unfold m1. cbn [after_store log].
      rewrite <- !app_assoc. reflexivity.
    + intro rest. cbn [app sent_then_waited].
      rewrite uint32_char_value, Z.eqb_refl, <- app_assoc, Sk. apply Sw.
    + cbn [stored_values reg_eqb]. rewrite uint32_char_value.
      rewrite stored_values_app, (no_store_no_value _ _ St), Sv. reflexivity.
Qed.

(** The accesses of a returned [spi_5_write] follow its protocol, and the
    bytes stored to SPI_DR are those of the buffer, in order. *)
Lemma spi_5_write_completed (fuel : nat) (data : list byte) (m : machine) :
  fst (spi_5_write hw fuel data m) = Some tt ->
  write_protocol SPI_BSY SPI_TXE data (trace (spi_5_write hw fuel data) m) = true
  /\ stored_values (SPI_DR SPI5) (trace (spi_5_write hw fuel data) m)
     = map char_value data.
Proof.
  intros Ret.
  assert (E0 : spi_5_write hw fuel data m =
               bind (busy_wait fuel (spi_busy hw))
                 (fun _ => bind (spi_5_send hw fuel data)
                             (fun _ => busy_wait fuel (spi_busy hw))) m)
    by reflexivity.
  destruct (fst (busy_wait fuel (spi_busy hw) m)) as [[]|] eqn:W1;
    [|rewrite E0, (bind_spinning _ _ _ W1) in Ret; discriminate].
  rewrite (bind_returns _ _ _ _ W1) in E0.
  destruct (busy_wait_completed hw (spi_busy hw) (SPI_SR SPI5)
              (flag_clear SPI_BSY) (run_spi_busy hw) fuel m W1)
    as (p1 & L1 & S1 & V1).
  destruct (fst (spi_5_send hw fuel data
                   (snd (busy_wait fuel (spi_busy hw) m)))) as [[]|] eqn:W2;
    [|rewrite E0, (bind_spinning _ _ _ W2) in Ret; discriminate].
  rewrite (bind_returns _ _ _ _ W2) in E0.
  destruct (spi_5_send_completed fuel data _ W2) as (evs & L2 & S2 & V2).
  rewrite E0 in Ret.
  destruct (busy_wait_completed hw (spi_busy hw) (SPI_SR SPI5)
              (flag_clear SPI_BSY) (run_spi_busy hw) fuel _ Ret)
    as (p3 & L3 & S3 & V3).
  assert (Tr : trace (spi_5_write hw fuel data) m = p1 ++ evs ++ p3).
  { apply trace_intro. rewrite E0, L3, L2, L1, <- !app_assoc. reflexivity. }
  rewrite Tr. split.
  - unfold write_protocol. rewrite S1, S2.
    rewrite <- (app_nil_r p3), S3. reflexivity.
  - rewrite !stored_values_app.
    rewrite (no_store_no_value _ _ V1), (no_store_no_value _ _ V3), V2.
    apply app_nil_r.
Qed.

End TransportProtocol.

(** C8, as the code has it.  A returned [spi_5_write] has made exactly
    these accesses: loads of SPI_SR until BSY reads clear; then, for each
    byte of the buffer in order, a store of the byte to SPI_DR followed by
    loads of SPI_SR until TXE reads set; then loads of SPI_SR until BSY
    reads clear.  So every byte has been stored, in order, and the transfer
    has been seen complete.  The write does return when, from some access
    on, BSY reads clear and TXE reads set, and it is watched long enough. *)
Theorem write_sends_every_byte_then_waits :
  forall (hdr : registers_h) (hw : silicon) (fuel : nat) (data : list byte)
         (m : machine),
    (fst (spi_5_write hw fuel data m) = Some tt ->
     write_protocol SPI_BSY SPI_TXE data (trace (spi_5_write hw fuel data) m)
       = true
     /\ stored_values (SPI_DR SPI5) (trace (spi_5_write hw fuel data) m)
        = map char_value data)
    /\ (forall T : nat,
          flag_low_from T hw (SPI_SR SPI5) SPI_BSY ->
          flag_high_from T hw (SPI_SR SPI5) SPI_TXE ->
          (T < fuel)%nat ->
          fst (spi_5_write hw fuel data m) = Some tt).
Proof.
  intros hdr hw fuel data m. split.
  - apply spi_5_write_completed.
  - intros T Bsy Txe Lt. apply (spi_5_write_returns hw T); assumption.
Qed.

(** On an idle SPI the write of the two bytes 'a', 'b' returns at the first
    poll of each wait, and C8 (as the code has it) describes its accesses. *)
Lemma write_sends_every_byte_then_waits_witness :
  fst (spi_5_write (hdr:=stm32f429) idle_no_reload 1 [x61; x62] reset_machine)
    = Some tt
  /\ stored_values (SPI_DR SPI5)
       (trace (spi_5_write (hdr:=stm32f429) idle_no_reload 1 [x61; x62])
          reset_machine)
     = [97; 98].
Proof.
  assert (R : fst (spi_5_write (hdr:=stm32f429) idle_no_reload 1 [x61; x62]
                     reset_machine) = Some tt) by reflexivity.
  split; [exact R|].
  exact (proj2 (proj1 (write_sends_every_byte_then_waits stm32f429
                         idle_no_reload 1 [x61; x62] reset_machine) R)).
Defined.

(** C8 as worded fails: the first byte is stored without a wait for TXE.
    On a chip whose status reads 0 at first and has TXE set afterwards the
    write returns, and the byte went to SPI_DR when the only load of SPI_SR
    so far had shown TXE clear. *)
Lemma first_byte_loaded_unchecked :
  fst (spi_5_write (hdr:=stm32f429) tx_empty_late 1 [x61] reset_machine)
    = Some tt
  /\ trace (spi_5_write (hdr:=stm32f429) tx_empty_late 1 [x61]) reset_machine
     = [ RegLoad (SPI_SR SPI5) 0; RegStore (SPI_DR SPI5) 97;
         RegLoad (SPI_SR SPI5) 2; RegLoad (SPI_SR SPI5) 2 ]
  /\ loads_follow_ready (@SPI_TXE stm32f429) false
       (trace (spi_5_write (hdr:=stm32f429) tx_empty_late 1 [x61])
          reset_machine)
     = false.
Proof. vm_compute. repeat split. Qed.




(** * Further properties of the routines *)

(** ** What a routine leaves alone *)

Lemma preserves_ret {A} (r : reg) (a : A) : preserves r (ret a).
Proof. intro m. reflexivity. Qed.

Lemma preserves_load (r : reg) (hw : silicon) (r' : reg) : preserves r (load hw r').
Proof. intro m. reflexivity. Qed.

Lemma preserves_store (r r' : reg) (v : Z) : r' <> r -> preserves r (store r' v).
Proof.
  intros N m. unfold store. cbn [snd regs]. unfold upd.
  rewrite reg_eqb_neq by exact N. reflexivity.
Qed.

Lemma preserves_bind {A B} (r : reg) (c : M A) (k : A -> M B) :
  preserves r c -> (forall a, preserves r (k a)) -> preserves r (bind c k).
Proof.
  intros Pc Pk m. unfold bind. specialize (Pc m).
  destruct (c m) as [[a|] m1]; cbn [snd] in *; [|exact Pc].
  rewrite (Pk a m1). exact Pc.
Qed.

Lemma preserves_busy_wait (r : reg) (fuel : nat) (cond : M bool) :
  preserves r cond -> preserves r (busy_wait fuel cond).
Proof.
  intros P. induction fuel as [|n IH]; cbn [busy_wait].
  - intro m. reflexivity.
  - apply preserves_bind; [exact P|]. intros [|]; [exact IH|apply preserves_ret].
Qed.

Lemma preserves_or_assign (r : reg) (hw : silicon) (r' : reg) (bits : Z) :
  r' <> r -> preserves r (or_assign hw r' bits).
Proof.
  intros N. apply preserves_bind; [apply preserves_load|].
  intro. apply preserves_store, N.
Qed.

Lemma preserves_REGISTER_SET_VALUE (r : reg) (hw : silicon) (r' : reg)
  (f : field) (v : Z) :
  r' <> r -> preserves r (REGISTER_SET_VALUE hw r' f v).
Proof.
  intros N. apply preserves_bind; [apply preserves_load|].
  intro. apply preserves_store, N.
Qed.

Lemma loads_store_nothing (r : reg) (evs : list event) :
  forallb (is_load_of r) evs = true -> stored_regs evs = [].
Proof.
  induction evs as [|[r' v|r' v] evs IH]; cbn [forallb is_load_of stored_regs].
  - reflexivity.
  - rewrite andb_true_iff. intros [_ F]. apply IH, F.
  - discriminate.
Qed.

Lemma stored_regs_app (l1 l2 : list event) :
  stored_regs (l1 ++ l2) = stored_regs l1 ++ stored_regs l2.
Proof.
  induction l1 as [|[r v|r v] l1 IH]; cbn [app stored_regs];
    [reflexivity|exact IH|rewrite IH; reflexivity].
Qed.

Section TransportFrame.

Context {hdr : registers_h}.
Variable hw : silicon.

Lemma spi_busy_preserves (r : reg) : preserves r (spi_busy hw).
Proof. intro m. reflexivity. Qed.

Lemma spi_tx_not_empty_preserves (r : reg) : preserves r (spi_tx_not_empty hw).
Proof. intro m. reflexivity. Qed.

Lemma spi_5_send_preserves (r : reg) (fuel : nat) (data : list byte) :
  r <> SPI_DR SPI5 -> preserves r (spi_5_send hw fuel data).
Proof.
  intros N. induction data as [|b rest IH]; cbn [spi_5_send].
  - apply preserves_ret.
  - apply preserves_bind; [apply preserves_store; congruence|]. intro.
    apply preserves_bind; [|intro; exact IH].
    apply preserves_busy_wait, spi_tx_not_empty_preserves.
Qed.

Lemma spi_5_write_preserves (r : reg) (fuel : nat) (data : list byte) :
  r <> SPI_DR SPI5 -> preserves r (spi_5_write hw fuel data).
Proof.
  intros N. unfold spi_5_write.
  apply preserves_bind; [apply preserves_busy_wait, spi_busy_preserves|]. intro.
  apply preserves_bind; [apply spi_5_send_preserves, N|]. intro.
  apply preserves_busy_wait, spi_busy_preserves.
Qed.

Lemma spi_busy_polls (m : machine) :
  exists new, log (snd (spi_busy hw m)) = log m ++ new
              /\ forallb (is_load_of (SPI_SR SPI5)) new = true.
Proof. rewrite run_spi_busy. eexists. split; reflexivity. Qed.

(** The data register after a returned [spi_5_send] of a non-empty buffer
    holds its last byte. *)
Lemma spi_5_send_last (fuel : nat) (data : list byte) (m : machine) :
  data <> [] ->
  fst (spi_5_send hw fuel data m) = Some tt ->
  regs (snd (spi_5_send hw fuel data m)) (SPI_DR SPI5)
  = char_value (last data x00).
Proof.
  revert m. induction data as [|b bs IH]; intros m Ne Ret; [contradiction|].
  cbn [spi_5_send] in *. rewrite run_store_bind in *.
  set (m1 := after_store (SPI_DR SPI5) (char_value b) m) in *.
  destruct (fst (busy_wait fuel (spi_tx_not_empty hw) m1)) as [[]|] eqn:W;
    [|rewrite (bind_spinning _ _ _ W) in Ret; discriminate].
  rewrite (bind_returns _ _ _ _ W) in *.
  destruct bs as [|b' bs'].
  - cbn [spi_5_send last]. unfold ret. cbn [snd].
    rewrite (preserves_busy_wait (SPI_DR SPI5) fuel _
               (spi_tx_not_empty_preserves (SPI_DR SPI5)) m1).
    unfold m1. cbn [after_store regs]. unfold upd.
    rewrite reg_eqb_refl. apply uint32_char_value.
  - rewrite IH by (discriminate || exact Ret). reflexivity.
Qed.

End TransportFrame.

(** X1. A write of an empty buffer stores nothing: whatever the silicon
    and however long it is watched, its accesses are loads of SPI_SR only
    and every register keeps its value. *)
Theorem empty_write_stores_nothing :
  forall (hdr : registers_h) (hw : silicon) (fuel : nat) (m : machine),
    forallb (is_load_of (SPI_SR SPI5)) (trace (spi_5_write hw fuel []) m) = true
    /\ stored_regs (trace (spi_5_write hw fuel []) m) = []
    /\ forall r, regs (snd (spi_5_write hw fuel [] m)) r = regs m r.
Proof.
  intros hdr hw fuel m.
  assert (F : forallb (is_load_of (SPI_SR SPI5))
                (trace (spi_5_write hw fuel []) m) = true).
  { unfold spi_5_write. cbn [spi_5_send].
    destruct (busy_wait_forall (is_load_of (SPI_SR SPI5)) (spi_busy hw)
                (spi_busy_polls hw) fuel m) as (p1 & L1 & F1).
    destruct (busy_wait (fuel) (spi_busy hw) m) as [[[]|] m1] eqn:E1;
      cbn [snd] in L1.
    - destruct (busy_wait_forall (is_load_of (SPI_SR SPI5)) (spi_busy hw)
                  (spi_busy_polls hw) fuel m1) as (p2 & L2 & F2).
      rewrite (trace_intro _ m (p1 ++ p2)).
      + rewrite forallb_app, F1, F2. reflexivity.
      + unfold bind. rewrite E1. unfold ret. rewrite L2, L1.
        symmetry. apply app_assoc.
    - rewrite (trace_intro _ m p1); [exact F1|].
      unfold bind. rewrite E1. exact L1. }
  split; [exact F|]. split; [apply (loads_store_nothing _ _ F)|].
  intro r. unfold spi_5_write. cbn [spi_5_send].
  apply (preserves_bind r).
  - apply preserves_busy_wait, spi_busy_preserves.
  - intro. apply preserves_bind; [apply preserves_ret|].
    intro. apply preserves_busy_wait, spi_busy_preserves.
Qed.

(** X2. A write changes the data register of the SPI and nothing else:
    every other register keeps its value, returned or not; and when a
    write of a non-empty buffer returns, SPI_DR holds the last byte. *)
Theorem write_changes_only_the_data_register :
  forall (hdr : registers_h) (hw : silicon) (fuel : nat) (data : list byte)
         (m : machine),
    (forall r, r <> SPI_DR SPI5 ->
               regs (snd (spi_5_write hw fuel data m)) r = regs m r)
    /\ (data <> [] ->
        fst (spi_5_write hw fuel data m) = Some tt ->
        regs (snd (spi_5_write hw fuel data m)) (SPI_DR SPI5)
        = char_value (last data x00)).
Proof.
  intros hdr hw fuel data m. split.
  - intros r N. apply spi_5_write_preserves, N.
  - intros Ne Ret.
    assert (E0 : spi_5_write hw fuel data m =
                 bind (busy_wait fuel (spi_busy hw))
                   (fun _ => bind (spi_5_send hw fuel data)
                               (fun _ => busy_wait fuel (spi_busy hw))) m)
      by reflexivity.
    destruct (fst (busy_wait fuel (spi_busy hw) m)) as [[]|] eqn:W1;
      [|rewrite E0, (bind_spinning _ _ _ W1) in Ret; discriminate].
    rewrite (bind_returns _ _ _ _ W1) in E0.
    destruct (fst (spi_5_send hw fuel data
                     (snd (busy_wait fuel (spi_busy hw) m)))) as [[]|] eqn:W2;
      [|rewrite E0, (bind_spinning _ _ _ W2) in Ret; discriminate].
    rewrite (bind_returns _ _ _ _ W2) in E0.
    rewrite E0.
    rewrite (preserves_busy_wait (SPI_DR SPI5) fuel _
               (spi_busy_preserves hw (SPI_DR SPI5))).
    apply spi_5_send_last; assumption.
Qed.

(** The premises of X2 hold of a write of 'a', 'b' on an idle SPI. *)
Lemma write_changes_only_the_data_register_witness :
  regs (snd (spi_5_write (hdr:=stm32f429) idle_no_reload 1 [x61; x62]
               reset_machine)) (SPI_DR SPI5) = 98.
Proof.
  refine (proj2 (write_changes_only_the_data_register stm32f429 idle_no_reload
                   1 [x61; x62] reset_machine) _ _).
  - discriminate.
  - reflexivity.
Defined.

(** X3. Two writes in a row that return have stored to SPI_DR the bytes
    of the first buffer followed by those of the second, which is what a
    returned write of the two buffers joined stores. *)
Theorem split_write_sends_same_bytes :
  forall (hdr : registers_h) (hw : silicon) (fuel : nat) (a b : list byte)
         (m : machine),
    (fst ((spi_5_write hw fuel a ;; spi_5_write hw fuel b) m) = Some tt ->
     stored_values (SPI_DR SPI5)
       (trace (spi_5_write hw fuel a ;; spi_5_write hw fuel b) m)
     = map char_value (a ++ b))
    /\ (fst (spi_5_write hw fuel (a ++ b) m) = Some tt ->
        stored_values (SPI_DR SPI5) (trace (spi_5_write hw fuel (a ++ b)) m)
        = map char_value (a ++ b)).
Proof.
  intros hdr hw fuel a b m. split.
  - intros Ret.
    destruct (spi_5_write hw fuel a m) as [[[]|] m1] eqn:E1;
      [|unfold bind in Ret; rewrite E1 in Ret; discriminate].
    assert (R1 : fst (spi_5_write hw fuel a m) = Some tt)
      by (rewrite E1; reflexivity).
    assert (R2 : fst (spi_5_write hw fuel b m1) = Some tt)
      by (unfold bind in Ret; rewrite E1 in Ret; exact Ret).
    rewrite (trace_bind_some (spi_5_write hw fuel a)
               (fun _ => spi_5_write hw fuel b) m m1 tt
               (proj1 (spi_5_write_confined hw fuel a))
               (proj1 (spi_5_write_confined hw fuel b)) E1).
    rewrite stored_values_app.
    rewrite (proj2 (spi_5_write_completed hw fuel a m R1)).
    rewrite (proj2 (spi_5_write_completed hw fuel b m1 R2)).
    symmetry. apply map_app.
  - intros Ret. apply spi_5_write_completed, Ret.
Qed.

(** On an idle SPI the writes of 'a' and then of 'b' return: X3 gives the
    bytes stored. *)
Lemma split_write_sends_same_bytes_witness :
  stored_values (SPI_DR SPI5)
    (trace (spi_5_write (hdr:=stm32f429) idle_no_reload 1 [x61] ;;
            spi_5_write (hdr:=stm32f429) idle_no_reload 1 [x62])
       reset_machine)
  = [97; 98].
Proof.
  exact (proj1 (split_write_sends_same_bytes stm32f429 idle_no_reload 1
                  [x61] [x62] reset_machine) eq_refl).
Defined.

(** X4. [init_spi_interface] always returns, and stores in this order:
    the clock enable of the GPIO groups, the modes of PC2, PD13, PF7 and
    PF9, the alternate functions of PF7 and PF9, the clock enable of the
    SPI port, and last the configuration of the port, a value that does
    not depend on what the registers held. *)
Theorem spi_port_configured_last :
  forall (hdr : registers_h) (hw : silicon) (m : machine),
    fst (init_spi_interface hw m) = Some tt
    /\ stored_regs (trace (init_spi_interface hw) m) =
       [ RCC_AHB1ENR; GPIO_MODER GPIOC; GPIO_MODER GPIOD; GPIO_MODER GPIOF;
         GPIO_MODER GPIOF; GPIO_AFR GPIOF 7; GPIO_AFR GPIOF 9;
         RCC_APB2ENR; SPI_CR1 SPI5 ]
    /\ last (trace (init_spi_interface hw) m) (RegLoad RCC_CR 0) =
       RegStore (SPI_CR1 SPI5)
         (uint32 (Z.lor (Z.lor (Z.lor (Z.lor (Z.lor (Z.lor (Z.lor
            SPI_BIDIMODE SPI_BIDIOE) SPI_MSTR) SPI_DFF_8_BITS)
            (SPI_BR SPI_BR_DIV_2)) SPI_SSM) SPI_SSI) SPI_SPE))
    /\ regs (snd (init_spi_interface hw m)) (SPI_CR1 SPI5) =
       uint32 (Z.lor (Z.lor (Z.lor (Z.lor (Z.lor (Z.lor (Z.lor
         SPI_BIDIMODE SPI_BIDIOE) SPI_MSTR) SPI_DFF_8_BITS)
         (SPI_BR SPI_BR_DIV_2)) SPI_SSM) SPI_SSI) SPI_SPE).
Proof.
  intros hdr hw m.
  assert (Tr : exists evs,
             trace (init_spi_interface hw) m = evs
             /\ stored_regs evs =
                [ RCC_AHB1ENR; GPIO_MODER GPIOC; GPIO_MODER GPIOD;
                  GPIO_MODER GPIOF; GPIO_MODER GPIOF; GPIO_AFR GPIOF 7;
                  GPIO_AFR GPIOF 9; RCC_APB2ENR; SPI_CR1 SPI5 ]
             /\ last evs (RegLoad RCC_CR 0) =
                RegStore (SPI_CR1 SPI5)
                  (uint32 (Z.lor (Z.lor (Z.lor (Z.lor (Z.lor (Z.lor (Z.lor
                     SPI_BIDIMODE SPI_BIDIOE) SPI_MSTR) SPI_DFF_8_BITS)
                     (SPI_BR SPI_BR_DIV_2)) SPI_SSM) SPI_SSI) SPI_SPE))).
  { eexists. split; [|split].
    - unfold init_spi_interface, init_spi_gpios, init_spi_port.
      apply trace_intro.
      repeat (rewrite bind_assoc || rewrite run_store_bind
              || rewrite run_or_assign_bind
              || rewrite run_REGISTER_SET_VALUE_bind
              || rewrite run_REGISTER_SET_VALUE || rewrite run_store).
      cbn [snd].
      match goal with |- ?l = _ => rewrite <- (app_nil_r l) end.
      repeat (rewrite log_after_store || rewrite log_after_load).
      reflexivity.
    - reflexivity.
    - reflexivity. }
  destruct Tr as (evs & Tr & St & La). rewrite Tr.
  split; [reflexivity|]. split; [exact St|]. split; [exact La|reflexivity].
Qed.

(** ** Clock enables *)

Lemma bits_kept_refl (x : Z) : bits_kept x x.
Proof. intros i _ H. exact H. Qed.

Lemma bits_kept_trans (x y z : Z) : bits_kept x y -> bits_kept y z -> bits_kept x z.
Proof. intros A B i R H. apply B, A; assumption. Qed.

Lemma keeps_preserves {A} (r : reg) (c : M A) : preserves r c -> keeps r c.
Proof. intros P m. rewrite (P m). apply bits_kept_refl. Qed.

Lemma keeps_bind {A B} (r : reg) (c : M A) (k : A -> M B) :
  keeps r c -> (forall a, keeps r (k a)) -> keeps r (bind c k).
Proof.
  intros Kc Kk m. unfold bind. specialize (Kc m).
  destruct (c m) as [[a|] m1]; cbn [snd] in *; [|exact Kc].
  exact (bits_kept_trans _ _ _ Kc (Kk a m1)).
Qed.

Lemma keeps_or_assign (hw : silicon) (r : reg) (bits : Z) :
  reads_back hw r -> keeps r (or_assign hw r bits).
Proof.
  intros Back m i R H. rewrite run_or_assign. cbn [snd after_store regs].
  unfold upd. rewrite reg_eqb_refl, Back.
  rewrite uint32_testbit, Z.lor_spec, uint32_testbit.
  destruct (Z.ltb_spec i 32); [|lia]. rewrite H. reflexivity.
Qed.

Lemma sets_or_assign (hw : silicon) (r : reg) (bits : Z) :
  sets r bits (or_assign hw r bits).
Proof.
  intros m i R H. rewrite run_or_assign. cbn [snd after_store regs].
  unfold upd. rewrite reg_eqb_refl.
  rewrite uint32_testbit in H |- *. rewrite Z.lor_spec.
  destruct (Z.ltb_spec i 32); [|lia]. rewrite H. apply orb_true_r.
Qed.

Lemma sets_bind_keep {A B} (r : reg) (bits : Z) (c : M A) (k : A -> M B) :
  sets r bits c -> (forall a, keeps r (k a)) -> sets r bits (bind c k).
Proof.
  intros Sc Kk m. unfold bind. specialize (Sc m).
  destruct (c m) as [[a|] m1]; cbn [snd] in *; [|exact Sc].
  exact (bits_kept_trans _ _ _ Sc (Kk a m1)).
Qed.

Lemma sets_bind_later {B} (r : reg) (bits : Z) (c : M unit) (k : unit -> M B) :
  always_returns c -> (forall a, sets r bits (k a)) -> sets r bits (bind c k).
Proof.
  intros Rc Sk m. unfold bind. specialize (Rc m).
  destruct (c m) as [[[]|] m1]; cbn [fst snd] in *; [|discriminate].
  apply Sk.
Qed.

Lemma always_returns_bind (c : M unit) (k : unit -> M unit) :
  always_returns c -> (forall a, always_returns (k a)) ->
  always_returns (bind c k).
Proof.
  intros Rc Rk m. unfold bind. specialize (Rc m).
  destruct (c m) as [[[]|] m1]; cbn [fst] in *; [apply Rk|discriminate].
Qed.

Lemma always_returns_store (r : reg) (v : Z) : always_returns (store r v).
Proof. intro m. reflexivity. Qed.

Lemma always_returns_or_assign (hw : silicon) (r : reg) (bits : Z) :
  always_returns (or_assign hw r bits).
Proof. intro m. reflexivity. Qed.

Lemma always_returns_REGISTER_SET_VALUE (hw : silicon) (r : reg) (f : field)
  (v : Z) : always_returns (REGISTER_SET_VALUE hw r f v).
Proof. intro m. reflexivity. Qed.

Lemma always_returns_ret : always_returns (ret tt).
Proof. intro m. reflexivity. Qed.

Ltac returns_always :=
  repeat lazymatch goal with
    | |- always_returns (ret tt) => apply always_returns_ret
    | |- always_returns (bind _ _) => apply always_returns_bind; [|intro]
    | |- always_returns (or_assign _ _ _) => apply always_returns_or_assign
    | |- always_returns (REGISTER_SET_VALUE _ _ _ _) =>
        apply always_returns_REGISTER_SET_VALUE
    | |- always_returns (store _ _) => apply always_returns_store
    end.

Lemma GPIO_AFR_cases {hdr : registers_h} (g : gpio_group) (n : Z) :
  GPIO_AFR g n = GPIO_AFRL g \/ GPIO_AFR g n = GPIO_AFRH g.
Proof. unfold GPIO_AFR. destruct (GPIO_AFR_HIGH n); [right|left]; reflexivity. Qed.

Ltac other_register :=
  first [ discriminate
        | match goal with
          | |- GPIO_AFR ?g ?n <> _ =>
              destruct (GPIO_AFR_cases g n) as [-> | ->]; discriminate
          end
        | congruence ].

Ltac preserve :=
  repeat lazymatch goal with
    | |- preserves _ (ret _) => apply preserves_ret
    | |- preserves _ (bind _ _) => apply preserves_bind; [|intro]
    | |- preserves _ (or_assign _ _ _) => apply preserves_or_assign; other_register
    | |- preserves _ (REGISTER_SET_VALUE _ _ _ _) =>
        apply preserves_REGISTER_SET_VALUE; other_register
    | |- preserves _ (store _ _) => apply preserves_store; other_register
    | |- preserves _ (load _ _) => apply preserves_load
    end.

Ltac keep :=
  repeat lazymatch goal with
    | |- keeps _ (bind _ _) => apply keeps_bind; [|intro]
    | |- keeps ?r (or_assign _ ?r _) => apply keeps_or_assign; assumption
    | |- keeps _ _ => apply keeps_preserves; preserve
    end.

Section Preservation.

Context {hdr : registers_h}.
Variable hw : silicon.

Lemma init_rgb_pins_returns (pins : list gpio_pin_t) :
  always_returns (init_rgb_pins hw pins).
Proof.
  induction pins as [|pin rest IH]; cbn [init_rgb_pins]; [returns_always|].
  apply always_returns_bind; [returns_always|]. intro.
  apply always_returns_bind; [returns_always|]. intro. exact IH.
Qed.

Lemma init_rgb_gpios_returns : always_returns (init_rgb_gpios hw).
Proof.
  unfold init_rgb_gpios. apply always_returns_bind; [returns_always|].
  intro. apply init_rgb_pins_returns.
Qed.

Lemma init_spi_gpios_returns : always_returns (init_spi_gpios hw).
Proof. unfold init_spi_gpios. returns_always. Qed.

Lemma init_spi_port_returns : always_returns (init_spi_port hw).
Proof. unfold init_spi_port. returns_always. Qed.

Lemma init_spi_interface_returns : always_returns (init_spi_interface hw).
Proof.
  unfold init_spi_interface.
  apply always_returns_bind; [apply init_spi_gpios_returns|].
  intro. apply init_spi_port_returns.
Qed.

Lemma init_rgb_timings_returns : always_returns (init_rgb_timings hw).
Proof. unfold init_rgb_timings, program_rgb_timings. returns_always. Qed.

(** A register that is neither a GPIO mode nor an alternate-function
    register is left alone by the pin loop. *)
Lemma init_rgb_pins_preserves (r : reg) (pins : list gpio_pin_t) :
  (forall g, r <> GPIO_MODER g) ->
  (forall g, r <> GPIO_AFRL g) ->
  (forall g, r <> GPIO_AFRH g) ->
  preserves r (init_rgb_pins hw pins).
Proof.
  intros Nm Nl Nh.
  induction pins as [|pin rest IH]; cbn [init_rgb_pins]; [preserve|].
  apply preserves_bind; [|intro; apply preserves_bind; [|intro; exact IH]].
  - apply preserves_REGISTER_SET_VALUE.
    destruct (GPIO_AFR_cases (group pin) (number pin)) as [-> | ->];
      intro E; symmetry in E; revert E; [apply Nl|apply Nh].
  - apply preserves_REGISTER_SET_VALUE. intro E. symmetry in E. revert E. apply Nm.
Qed.

Lemma pll_not_ready_preserves (r : reg) : preserves r (pll_not_ready hw).
Proof.
  unfold pll_not_ready. apply preserves_bind; [apply preserves_load|].
  intro x. destruct (Z.land x PLLSAIRDY =? 0); preserve.
Qed.

Lemma init_panel_preserves (r : reg) (script : list panel_op) (fuel : nat) :
  (forall g, r <> GPIO_ODR g) -> r <> SPI_DR SPI5 ->
  preserves r (init_panel hw script fuel).
Proof.
  intros No Nd. unfold init_panel.
  induction script as [|[b|b|data] rest IH]; cbn [ili9341_initialize];
    [apply preserves_ret| | |];
    (apply preserves_bind; [|intro; exact IH]);
    cbn [Platform_display chip_select_pin_write data_command_pin_write spi_write].
  - apply preserves_REGISTER_SET_VALUE. intro E. symmetry in E. revert E. apply No.
  - apply preserves_REGISTER_SET_VALUE. intro E. symmetry in E. revert E. apply No.
  - apply spi_5_write_preserves, Nd.
Qed.

Lemma init_rgb_timings_preserves (r : reg) :
  not_ltdc r = true -> preserves r (init_rgb_timings hw).
Proof.
  intros N. unfold init_rgb_timings, program_rgb_timings.
  destruct r; try discriminate N; preserve.
Qed.

End Preservation.

Section ClockEnables.

Context {hdr : registers_h}.
Variable hw : silicon.
Hypothesis ahb1_reads_back : reads_back hw RCC_AHB1ENR.
Hypothesis apb2_reads_back : reads_back hw RCC_APB2ENR.

Lemma init_rgb_pins_keeps_rcc (r : reg) (pins : list gpio_pin_t) :
  r = RCC_AHB1ENR \/ r = RCC_APB2ENR -> keeps r (init_rgb_pins hw pins).
Proof.
  intros R. apply keeps_preserves, init_rgb_pins_preserves;
    intros g; destruct R as [-> | ->]; discriminate.
Qed.

Lemma program_rgb_clocks_keeps_rcc (r : reg) (c : clock_stages) (fuel : nat) :
  r = RCC_AHB1ENR \/ r = RCC_APB2ENR -> keeps r (program_rgb_clocks hw c fuel).
Proof.
  intros R. unfold program_rgb_clocks.
  destruct R as [-> | ->]; keep;
    apply preserves_busy_wait, pll_not_ready_preserves.
Qed.

Lemma init_panel_keeps_rcc (r : reg) (script : list panel_op) (fuel : nat) :
  r = RCC_AHB1ENR \/ r = RCC_APB2ENR -> keeps r (init_panel hw script fuel).
Proof.
  intros R. apply keeps_preserves, init_panel_preserves;
    try intros g; destruct R as [-> | ->]; discriminate.
Qed.

Lemma init_rgb_timings_keeps_rcc (r : reg) :
  r = RCC_AHB1ENR \/ r = RCC_APB2ENR -> keeps r (init_rgb_timings hw).
Proof.
  intros R. apply keeps_preserves, init_rgb_timings_preserves.
  destruct R as [-> | ->]; reflexivity.
Qed.

Lemma init_spi_interface_keeps_rcc (r : reg) :
  r = RCC_AHB1ENR \/ r = RCC_APB2ENR -> keeps r (init_spi_interface hw).
Proof.
  intros R. unfold init_spi_interface, init_spi_gpios, init_spi_port.
  destruct R as [-> | ->]; keep.
Qed.

Lemma init_rgb_gpios_keeps_rcc (r : reg) :
  r = RCC_AHB1ENR \/ r = RCC_APB2ENR -> keeps r (init_rgb_gpios hw).
Proof.
  intros R. unfold init_rgb_gpios. apply keeps_bind.
  - destruct R as [-> | ->]; keep.
  - intro. apply init_rgb_pins_keeps_rcc, R.
Qed.

Lemma init_rgb_interface_keeps_rcc (r : reg) (fuel : nat) :
  r = RCC_AHB1ENR \/ r = RCC_APB2ENR -> keeps r (init_rgb_interface hw fuel).
Proof.
  intros R. unfold init_rgb_interface.
  apply keeps_bind; [apply init_rgb_gpios_keeps_rcc, R|]. intro.
  apply keeps_bind; [apply program_rgb_clocks_keeps_rcc, R|]. intro.
  apply init_rgb_timings_keeps_rcc, R.
Qed.

Lemma init_display_keeps_rcc (r : reg) (script : list panel_op) (fuel : nat) :
  r = RCC_AHB1ENR \/ r = RCC_APB2ENR -> keeps r (init_display hw script fuel).
Proof.
  intros R. unfold init_display.
  apply keeps_bind; [apply init_spi_interface_keeps_rcc, R|]. intro.
  apply keeps_bind; [apply init_rgb_interface_keeps_rcc, R|]. intro.
  apply init_panel_keeps_rcc, R.
Qed.

Lemma init_display_sets_gpio_clocks (script : list panel_op) (fuel : nat) :
  sets RCC_AHB1ENR
    (Z.lor (Z.lor (Z.lor (Z.lor (Z.lor GPIOAEN GPIOBEN) GPIOCEN) GPIODEN)
              GPIOFEN) GPIOGEN)
    (init_display hw script fuel).
Proof.
  unfold init_display.
  apply sets_bind_later; [apply init_spi_interface_returns|]. intro.
  apply sets_bind_keep; [|intro; apply init_panel_keeps_rcc; left; reflexivity].
  unfold init_rgb_interface.
  apply sets_bind_keep.
  - unfold init_rgb_gpios. apply sets_bind_keep; [apply sets_or_assign|].
    intro. apply init_rgb_pins_keeps_rcc. left. reflexivity.
  - intro. apply keeps_bind.
    + apply program_rgb_clocks_keeps_rcc. left. reflexivity.
    + intro. apply init_rgb_timings_keeps_rcc. left. reflexivity.
Qed.

Lemma init_display_sets_spi_clock (script : list panel_op) (fuel : nat) :
  sets RCC_APB2ENR SPI5EN (init_display hw script fuel).
Proof.
  unfold init_display.
  apply sets_bind_keep.
  - unfold init_spi_interface.
    apply sets_bind_later; [apply init_spi_gpios_returns|]. intro.
    unfold init_spi_port. apply sets_bind_keep; [apply sets_or_assign|].
    intro. keep.
  - intro. apply keeps_bind.
    + apply init_rgb_interface_keeps_rcc. right. reflexivity.
    + intro. apply init_panel_keeps_rcc. right. reflexivity.
Qed.

Lemma init_display_sets_ltdc_clock (script : list panel_op) (fuel : nat) :
  sets RCC_APB2ENR LTDCEN (init_display hw script fuel).
Proof.
  unfold init_display.
  apply sets_bind_later; [apply init_spi_interface_returns|]. intro.
  apply sets_bind_keep; [|intro; apply init_panel_keeps_rcc; right; reflexivity].
  unfold init_rgb_interface.
  apply sets_bind_later; [apply init_rgb_gpios_returns|]. intro.
  apply sets_bind_keep; [|intro; apply init_rgb_timings_keeps_rcc; right; reflexivity].
  unfold init_rgb_clocks, program_rgb_clocks.
  apply sets_bind_keep; [apply sets_or_assign|]. intro.
  keep; apply preserves_busy_wait, pll_not_ready_preserves.
Qed.

End ClockEnables.

(** X5. Clock enables only accumulate.  When the two enable registers of
    the RCC read back, then after [init_display], whether it returned or
    is still waiting and whatever the panel driver did, RCC_AHB1ENR has
    the six GPIO enable bits set, RCC_APB2ENR has SPI5EN and LTDCEN set,
    and no bit that was set in either register has been cleared. *)
Theorem clock_enables_accumulate :
  forall (hdr : registers_h) (hw : silicon) (script : list panel_op)
         (fuel : nat) (m : machine),
    reads_back hw RCC_AHB1ENR ->
    reads_back hw RCC_APB2ENR ->
    bits_kept (regs m RCC_AHB1ENR)
      (regs (snd (init_display hw script fuel m)) RCC_AHB1ENR)
    /\ bits_kept
         (uint32 (Z.lor (Z.lor (Z.lor (Z.lor (Z.lor GPIOAEN GPIOBEN) GPIOCEN)
                                  GPIODEN) GPIOFEN) GPIOGEN))
         (regs (snd (init_display hw script fuel m)) RCC_AHB1ENR)
    /\ bits_kept (regs m RCC_APB2ENR)
         (regs (snd (init_display hw script fuel m)) RCC_APB2ENR)
    /\ bits_kept (uint32 SPI5EN)
         (regs (snd (init_display hw script fuel m)) RCC_APB2ENR)
    /\ bits_kept (uint32 LTDCEN)
         (regs (snd (init_display hw script fuel m)) RCC_APB2ENR).
Proof.
  intros hdr hw script fuel m A B.
  split; [|split; [|split; [|split]]].
  - apply init_display_keeps_rcc; (assumption || (left; reflexivity)).
  - apply init_display_sets_gpio_clocks; assumption.
  - apply init_display_keeps_rcc; (assumption || (right; reflexivity)).
  - apply init_display_sets_spi_clock; assumption.
  - apply init_display_sets_ltdc_clock; assumption.
Qed.

(** On a chip whose PLL never locks (and whose other registers read back)
    the bring-up is caught in the clock wait, and X5 still gives the LTDC
    clock enable, bit 26 of RCC_APB2ENR. *)
Lemma clock_enables_accumulate_witness :
  Z.testbit (regs (snd (init_display (hdr:=stm32f429) stuck_low [] 3
                          reset_machine)) RCC_APB2ENR) 26 = true.
Proof.
  refine (proj2 (proj2 (proj2 (proj2
            (clock_enables_accumulate stm32f429 stuck_low [] 3 reset_machine
               (fun _ => eq_refl) (fun _ => eq_refl))))) 26 _ _).
  - lia.
  - reflexivity.
Defined.

(** ** The whole bring-up *)

Section WholeBringUp.

Context {hdr : registers_h}.
Variable hw : silicon.

(** [init_display] as one sequence of its five steps. *)
Lemma init_display_flat (script : list panel_op) (fuel : nat) (m : machine) :
  init_display hw script fuel m =
  (init_spi_interface hw ;; init_rgb_gpios hw ;; init_rgb_clocks hw fuel ;;
   init_rgb_timings hw ;; init_panel hw script fuel) m.
Proof.
  unfold init_display, init_rgb_interface.
  apply bind_cong; intros [] m1.
  rewrite bind_assoc. apply bind_cong; intros [] m2.
  rewrite bind_assoc. reflexivity.
Qed.

Lemma init_panel_returns (T fuel : nat) (script : list panel_op) (m : machine) :
  flag_low_from T hw (SPI_SR SPI5) SPI_BSY ->
  flag_high_from T hw (SPI_SR SPI5) SPI_TXE ->
  (T < fuel)%nat ->
  fst (init_panel hw script fuel m) = Some tt.
Proof.
  intros Bsy Txe Lt. unfold init_panel. revert m.
  induction script as [|[b|b|data] rest IH]; intro m;
    cbn [ili9341_initialize]; [reflexivity| | |];
    cbn [Platform_display chip_select_pin_write data_command_pin_write spi_write].
  - unfold gpio_c2_write. rewrite run_REGISTER_SET_VALUE_bind. apply IH.
  - unfold gpio_d13_write. rewrite run_REGISTER_SET_VALUE_bind. apply IH.
  - rewrite (bind_returns _ _ _ _
               (spi_5_write_returns hw T fuel data m Bsy Txe Lt)).
    apply IH.
Qed.

Lemma init_display_returns (T fuel : nat) (script : list panel_op) (m : machine) :
  flag_high_from T hw RCC_CR PLLSAIRDY ->
  flag_high_from T hw RCC_CR PLLRDY ->
  flag_low_from T hw (SPI_SR SPI5) SPI_BSY ->
  flag_high_from T hw (SPI_SR SPI5) SPI_TXE ->
  (T < fuel)%nat ->
  fst (init_display hw script fuel m) = Some tt.
Proof.
  intros Sai Pll Bsy Txe Lt. rewrite init_display_flat.
  rewrite (bind_returns _ _ _ _ (init_spi_interface_returns hw m)).
  rewrite (bind_returns _ _ _ _ (init_rgb_gpios_returns hw _)).
  match goal with
  | |- fst (bind (init_rgb_clocks hw fuel) ?k ?x) = _ =>
      rewrite (bind_returns (init_rgb_clocks hw fuel) k x tt
                 (program_rgb_clocks_returns hw lcd_clock_stages T fuel x
                    Sai Pll Lt))
  end.
  rewrite (bind_returns _ _ _ _ (init_rgb_timings_returns hw _)).
  apply (init_panel_returns T); assumption.
Qed.

Lemma init_display_caught (fuel : nat) (script : list panel_op) (m : machine) :
  flag_low hw RCC_CR PLLSAIRDY \/ flag_low hw RCC_CR PLLRDY ->
  init_display hw script fuel m =
  (init_spi_interface hw ;; init_rgb_gpios hw ;; init_rgb_clocks hw fuel) m
  /\ fst (init_display hw script fuel m) = None.
Proof.
  intros Stuck. rewrite init_display_flat.
  rewrite !(bind_returns _ _ _ _ (init_spi_interface_returns hw m)).
  rewrite !(bind_returns _ _ _ _ (init_rgb_gpios_returns hw _)).
  pose proof (program_rgb_clocks_never_returns hw lcd_clock_stages fuel
                (snd (init_rgb_gpios hw (snd (init_spi_interface hw m))))
                Stuck) as N.
  fold (init_rgb_clocks hw fuel) in N.
  unfold bind.
  destruct (init_rgb_clocks hw fuel
              (snd (init_rgb_gpios hw (snd (init_spi_interface hw m)))))
    as [[[]|] m3]; [discriminate N|].
  split; reflexivity.
Qed.

End WholeBringUp.

(** X6. [init_display] returns when, from some access on, both PLLs read
    ready, BSY reads clear and TXE reads set, and the waits are watched for
    more polls than that: whatever the panel driver sends, no wait of the
    bring-up is left open. *)
Theorem bring_up_returns_when_flags_respond :
  forall (hdr : registers_h) (hw : silicon) (script : list panel_op)
         (T fuel : nat) (m : machine),
    flag_high_from T hw RCC_CR PLLSAIRDY ->
    flag_high_from T hw RCC_CR PLLRDY ->
    flag_low_from T hw (SPI_SR SPI5) SPI_BSY ->
    flag_high_from T hw (SPI_SR SPI5) SPI_TXE ->
    (T < fuel)%nat ->
    fst (init_display hw script fuel m) = Some tt.
Proof.
  intros hdr hw script T fuel m. apply init_display_returns.
Qed.

(** X7. While a PLL-ready flag reads 0, [init_display] has not returned,
    however long it is watched, and it has got no further than the clock
    wait: no register of the LTDC has been accessed, and the registers
    that are only stored to later (those of the LTDC, the GPIO output data,
    the SPI data register) hold what they held. *)
Theorem bring_up_stops_at_unlocked_pll :
  forall (hdr : registers_h) (hw : silicon) (script : list panel_op)
         (fuel : nat) (m : machine),
    flag_low hw RCC_CR PLLSAIRDY \/ flag_low hw RCC_CR PLLRDY ->
    fst (init_display hw script fuel m) = None
    /\ accesses_only not_ltdc (trace (init_display hw script fuel) m) = true
    /\ forall r, stored_after_clock_wait r = true ->
                 regs (snd (init_display hw script fuel m)) r = regs m r.
Proof.
  intros hdr hw script fuel m Stuck.
  destruct (init_display_caught hw fuel script m Stuck) as [E N].
  split; [exact N|]. split.
  - rewrite (trace_ext _ _ m E).
    apply (confined_bind not_ltdc); [apply init_spi_interface_confined|].
    intro. apply confined_bind; [apply init_rgb_gpios_confined|].
    intro. apply program_rgb_clocks_confined.
  - intros r S. rewrite E. clear E N Stuck. apply (preserves_bind r).
    + unfold init_spi_interface, init_spi_gpios, init_spi_port.
      destruct r; try discriminate S; preserve.
    + intro. apply preserves_bind.
      * unfold init_rgb_gpios.
        apply preserves_bind;
          [destruct r; try discriminate S; preserve|].
        intro. apply init_rgb_pins_preserves;
          intro g; destruct r; discriminate.
      * intro. unfold init_rgb_clocks, program_rgb_clocks.
        destruct r; try discriminate S; preserve;
          apply preserves_busy_wait, pll_not_ready_preserves.
Qed.

(** On a chip whose RCC_CR reads 0 the premise of X7 holds: the bring-up
    is caught whatever the patience. *)
Lemma bring_up_stops_at_unlocked_pll_witness :
  fst (init_display (hdr:=stm32f429) stuck_low [spi_send [x61]] 5 reset_machine)
  = None.
Proof.
  refine (proj1 (bring_up_stops_at_unlocked_pll stm32f429 stuck_low
                   [spi_send [x61]] 5 reset_machine _)).
  right. intro m. reflexivity.
Defined.

(** The flags of the reference header on the silicon [idle_no_reload]. *)
Lemma idle_pll_locked (T : nat) :
  flag_high_from T idle_no_reload RCC_CR (@PLLSAIRDY stm32f429)
  /\ flag_high_from T idle_no_reload RCC_CR (@PLLRDY stm32f429).
Proof.
  split; intros m _; unfold idle_no_reload.
  - change (@PLLSAIRDY stm32f429) with (bit 29). rewrite Z.land_comm.
    intro E. apply (f_equal (fun z => Z.testbit z 29)) in E.
    rewrite Z.land_spec, uint32_testbit, Z.lor_spec, Z.lor_spec in E.
    cbn in E. rewrite !orb_true_r in E. discriminate E.
  - change (@PLLRDY stm32f429) with (bit 25). rewrite Z.land_comm.
    intro E. apply (f_equal (fun z => Z.testbit z 25)) in E.
    rewrite Z.land_spec, uint32_testbit, Z.lor_spec, Z.lor_spec in E.
    cbn in E. rewrite !orb_true_r in E. discriminate E.
Qed.

Lemma idle_spi_ready (T : nat) :
  flag_low_from T idle_no_reload (SPI_SR SPI5) (@SPI_BSY stm32f429)
  /\ flag_high_from T idle_no_reload (SPI_SR SPI5) (@SPI_TXE stm32f429).
Proof.
  split; intros m _; [reflexivity|]. vm_compute. discriminate.
Qed.

(** On an idle chip with locked PLLs any driver script is run to its end:
    X6 applies from the first access on. *)
Lemma bring_up_returns_when_flags_respond_witness :
  fst (init_display (hdr:=stm32f429) idle_no_reload
         [chip_select_pin true; spi_send [x61; x62]; chip_select_pin false]
         1 reset_machine) = Some tt.
Proof.
  apply (bring_up_returns_when_flags_respond stm32f429 idle_no_reload _ O).
  - exact (proj1 (idle_pll_locked O)).
  - exact (proj2 (idle_pll_locked O)).
  - exact (proj1 (idle_spi_ready O)).
  - exact (proj2 (idle_spi_ready O)).
  - lia.
Defined.

(** ** The timing generator, again *)

(** X8. [init_rgb_timings] assigns thirteen registers of the LTDC values
    that depend neither on what the machine held nor on the silicon, so a
    second bring-up reproduces them; it leaves every register outside the
    LTDC alone; and of LTDC_GCR, which it only or-s into, it never clears a
    bit: when the register reads back, what was set stays set, with PCPOL
    and LTDCEN set as well. *)
Theorem timings_assign_all_but_the_control_register :
  forall (hdr : registers_h) (hw : silicon) (m : machine),
    (forall hw' m' r,
       assigned_by_timings r = true ->
       regs (snd (init_rgb_timings hw m)) r
       = regs (snd (init_rgb_timings hw' m')) r)
    /\ (forall r, not_ltdc r = true ->
                  regs (snd (init_rgb_timings hw m)) r = regs m r)
    /\ (reads_back hw LTDC_GCR ->
        bits_kept (regs m LTDC_GCR) (regs (snd (init_rgb_timings hw m)) LTDC_GCR)
        /\ bits_kept (uint32 LTDC_PCPOL)
             (regs (snd (init_rgb_timings hw m)) LTDC_GCR)
        /\ bits_kept (uint32 LTDC_LTDCEN)
             (regs (snd (init_rgb_timings hw m)) LTDC_GCR)).
Proof.
  intros hdr hw m. split; [|split].
  - intros hw' m' r A.
    destruct r as [| | | | |g|g|g|g|[]|[]|[]| | | | | | | |[]|[]|[]|[]|[]|[]|[]];
      try discriminate A; reflexivity.
  - intros r N. apply init_rgb_timings_preserves, N.
  - intros Back. split; [|split].
    + refine ((_ : keeps LTDC_GCR (init_rgb_timings hw)) m).
      unfold init_rgb_timings, program_rgb_timings. keep.
    + refine ((_ : sets LTDC_GCR LTDC_PCPOL (init_rgb_timings hw)) m).
      unfold init_rgb_timings, program_rgb_timings.
      do 4 (apply sets_bind_later; [apply always_returns_store|intro]).
      apply sets_bind_keep; [apply sets_or_assign|]. intro. keep.
    + refine ((_ : sets LTDC_GCR LTDC_LTDCEN (init_rgb_timings hw)) m).
      unfold init_rgb_timings, program_rgb_timings.
      do 4 (apply sets_bind_later; [apply always_returns_store|intro]).
      apply sets_bind_later; [apply always_returns_or_assign|intro].
      do 9 (apply sets_bind_later; [apply always_returns_store|intro]).
      apply sets_or_assign.
Qed.

(** On a chip whose LTDC_GCR is plain memory the premise of the last part
    of X8 holds: after the timings the engine is enabled. *)
Lemma timings_assign_all_but_the_control_register_witness :
  bits_kept (uint32 (LTDC_LTDCEN (registers_h:=stm32f429)))
    (regs (snd (init_rgb_timings (hdr:=stm32f429) latch reset_machine))
       LTDC_GCR).
Proof.
  exact (proj2 (proj2 (proj2 (proj2
           (timings_assign_all_but_the_control_register stm32f429 latch
              reset_machine)) (fun _ => eq_refl)))).
Defined.

(** ** Pin multiplexing *)

(** What [REGISTER_SET_VALUE] leaves in a register that reads back, bit by
    bit: inside the mask of the field the bit of the value in place,
    outside it the bit that was there. *)
Lemma REGISTER_SET_VALUE_bit (hw : silicon) (r : reg) (f : field) (v : Z)
  (m : machine) (i : Z) :
  reads_back hw r -> 0 <= i < 32 ->
  Z.testbit (regs (snd (REGISTER_SET_VALUE hw r f v m)) r) i
  = if Z.testbit (REGISTER_FIELD_MASK f) i
    then Z.testbit (Z.shiftl v (LOW_BIT f)) i
    else Z.testbit (regs m r) i.
Proof.
  intros Back R. rewrite run_REGISTER_SET_VALUE.
  cbn [snd after_store regs]. unfold upd. rewrite reg_eqb_refl.
  unfold REGISTER_FIELD_VALUE.
  rewrite uint32_testbit. destruct (Z.ltb_spec i 32); [|lia].
  rewrite Z.lor_spec, !Z.land_spec, Z.lxor_spec, uint32_testbit.
  destruct (Z.ltb_spec i 32); [|lia].
  rewrite testbit_all_ones by exact R. rewrite Back.
  destruct (Z.testbit (REGISTER_FIELD_MASK f) i), (Z.testbit (regs m r) i),
    (Z.testbit (Z.shiftl v (LOW_BIT f)) i); reflexivity.
Qed.

Lemma or_assign_bit (hw : silicon) (r : reg) (bits : Z) (m : machine) (i : Z) :
  reads_back hw r -> 0 <= i < 32 ->
  Z.testbit (regs (snd (or_assign hw r bits m)) r) i
  = if Z.testbit bits i then true else Z.testbit (regs m r) i.
Proof.
  intros Back R. rewrite run_or_assign.
  cbn [snd after_store regs]. unfold upd. rewrite reg_eqb_refl.
  rewrite uint32_testbit. destruct (Z.ltb_spec i 32); [|lia].
  rewrite Z.lor_spec, uint32_testbit. destruct (Z.ltb_spec i 32); [|lia].
  rewrite Back. destruct (Z.testbit bits i), (Z.testbit (regs m r) i); reflexivity.
Qed.

(** The mask of a well-formed field covers the bits from its lowest to its
    highest. *)
Lemma REGISTER_FIELD_MASK_bit (lo hi i : Z) :
  0 <= lo <= hi -> 0 <= i ->
  Z.testbit (REGISTER_FIELD_MASK (mkField lo hi)) i = (lo <=? i) && (i <=? hi).
Proof.
  intros W R. unfold REGISTER_FIELD_MASK. cbn [LOW_BIT HIGH_BIT].
  rewrite Z.shiftl_spec by exact R.
  rewrite Z.shiftl_1_l, Z.sub_1_r, <- Z.ones_equiv.
  destruct (Z.leb_spec lo i) as [L|L].
  - rewrite Z.testbit_ones_nonneg by lia.
    destruct (Z.ltb_spec (i - lo) (hi - lo + 1)), (Z.leb_spec i hi);
      (reflexivity || lia).
  - rewrite Z.testbit_neg_r by lia. reflexivity.
Qed.

(** *** Routines that act bit by bit *)

Lemma acts_bitwise_masked (hw : silicon) (c : M unit) (r : reg)
  (rho : Z -> option bool) :
  (forall m, fst (c m) = Some tt) ->
  (forall m r', r' <> r -> regs (snd (c m)) r' = regs m r') ->
  (forall m, 0 <= regs (snd (c m)) r < 2 ^ 32) ->
  (forall m i, 0 <= i < 32 ->
     Z.testbit (regs (snd (c m)) r) i
     = ruled_bit (rho i) (Z.testbit (regs m r) i)) ->
  acts_bitwise c (reg_eqb r)
    (fun r' i => if reg_eqb r r' then rho i else None).
Proof.
  intros Ret Frame Range Bits. split.
  - intros r' i ->. reflexivity.
  - intro m. split; [apply Ret|]. intro r'. split.
    + intros N. apply Frame. intros ->. rewrite reg_eqb_refl in N. discriminate.
    + intros E. apply reg_eqb_eq in E. subst r'. rewrite reg_eqb_refl.
      split; [apply Range|]. apply Bits.
Qed.

Lemma acts_bitwise_or_assign (hw : silicon) (r : reg) (bits : Z) :
  reads_back hw r ->
  exists touched rule, acts_bitwise (or_assign hw r bits) touched rule.
Proof.
  intros Back. do 2 eexists.
  apply (acts_bitwise_masked hw _ r
           (fun i => if Z.testbit bits i then Some true else None)).
  - intro m. reflexivity.
  - intros m r' N. apply preserves_or_assign. congruence.
  - intro m. rewrite run_or_assign. cbn [snd after_store regs]. unfold upd.
    rewrite reg_eqb_refl. apply uint32_range.
  - intros m i R. rewrite or_assign_bit by assumption.
    destruct (Z.testbit bits i); reflexivity.
Qed.

Lemma acts_bitwise_REGISTER_SET_VALUE (hw : silicon) (r : reg) (f : field) (v : Z) :
  reads_back hw r ->
  exists touched rule, acts_bitwise (REGISTER_SET_VALUE hw r f v) touched rule.
Proof.
  intros Back. do 2 eexists.
  apply (acts_bitwise_masked hw _ r
           (fun i => if Z.testbit (REGISTER_FIELD_MASK f) i
                     then Some (Z.testbit (Z.shiftl v (LOW_BIT f)) i)
                     else None)).
  - intro m. reflexivity.
  - intros m r' N. apply preserves_REGISTER_SET_VALUE. congruence.
  - intro m. rewrite run_REGISTER_SET_VALUE. cbn [snd after_store regs].
    unfold upd. rewrite reg_eqb_refl. apply uint32_range.
  - intros m i R. rewrite REGISTER_SET_VALUE_bit by assumption.
    destruct (Z.testbit (REGISTER_FIELD_MASK f) i); reflexivity.
Qed.

Lemma acts_bitwise_store (r : reg) (v : Z) :
  exists touched rule, acts_bitwise (store r v) touched rule.
Proof.
  do 2 eexists.
  apply (acts_bitwise_masked latch _ r (fun i => Some (Z.testbit v i))).
  - intro m. reflexivity.
  - intros m r' N. apply preserves_store. congruence.
  - intro m. unfold store. cbn [snd regs]. unfold upd.
    rewrite reg_eqb_refl. apply uint32_range.
  - intros m i R. unfold store. cbn [snd regs ruled_bit]. unfold upd.
    rewrite reg_eqb_refl, uint32_testbit.
    destruct (Z.ltb_spec i 32); [reflexivity|lia].
Qed.

Lemma acts_bitwise_ret : exists touched rule, acts_bitwise (ret tt) touched rule.
Proof.
  exists (fun _ => false), (fun _ _ => None). split; [reflexivity|].
  intro m. split; [reflexivity|]. intro r. split; [reflexivity|discriminate].
Qed.

Lemma acts_bitwise_seq (c1 c2 : M unit) :
  (exists touched rule, acts_bitwise c1 touched rule) ->
  (exists touched rule, acts_bitwise c2 touched rule) ->
  exists touched rule, acts_bitwise (c1 ;; c2) touched rule.
Proof.
  intros (t1 & rho1 & N1 & A1) (t2 & rho2 & N2 & A2).
  exists (fun r => t1 r || t2 r),
         (fun r i => match rho2 r i with
                     | Some b => Some b
                     | None => rho1 r i
                     end).
  split.
  - intros r i E. apply orb_false_iff in E. destruct E as [E1 E2].
    rewrite (N2 r i E2). apply N1, E1.
  - intro m. destruct (A1 m) as [R1 B1].
    rewrite (bind_returns _ _ _ _ R1).
    destruct (A2 (snd (c1 m))) as [R2 B2].
    split; [exact R2|]. intro r.
    destruct (B1 r) as [U1 T1], (B2 r) as [U2 T2].
    destruct (t1 r) eqn:E1, (t2 r) eqn:E2; cbn [orb]; split; intros H;
      try discriminate H.
    + destruct (T1 eq_refl) as [Rg1 Bi1], (T2 eq_refl) as [Rg2 Bi2].
      split; [exact Rg2|]. intros i R. rewrite (Bi2 i R), (Bi1 i R).
      destruct (rho2 r i); reflexivity.
    + destruct (T1 eq_refl) as [Rg1 Bi1].
      rewrite (U2 eq_refl). split; [exact Rg1|]. intros i R.
      rewrite (N2 r i E2). apply Bi1, R.
    + destruct (T2 eq_refl) as [Rg2 Bi2].
      split; [exact Rg2|]. intros i R. rewrite (Bi2 i R), (U1 eq_refl).
      rewrite (N1 r i E1). destruct (rho2 r i); reflexivity.
    + rewrite (U2 eq_refl). apply U1. reflexivity.
Qed.

(** Running such a routine a second time changes no register. *)
Lemma acts_bitwise_idempotent (c : M unit) :
  (exists touched rule, acts_bitwise c touched rule) ->
  forall m r, regs (snd (c (snd (c m)))) r = regs (snd (c m)) r.
Proof.
  intros (t & rho & N & A) m r.
  destruct (A m) as [_ B1], (A (snd (c m))) as [_ B2].
  destruct (B1 r) as [U1 T1], (B2 r) as [U2 T2].
  destruct (t r) eqn:E; [|apply U2; reflexivity].
  destruct (T1 eq_refl) as [Rg1 Bi1], (T2 eq_refl) as [Rg2 Bi2].
  apply Z.bits_inj'. intros i Pos.
  destruct (Z.lt_ge_cases i 32) as [Lt|Ge].
  - rewrite (Bi2 i (conj Pos Lt)), (Bi1 i (conj Pos Lt)).
    destruct (rho r i); reflexivity.
  - rewrite <- (uint32_small _ Rg1), <- (uint32_small _ Rg2), !uint32_testbit.
    destruct (Z.ltb_spec i 32); [lia|reflexivity].
Qed.

Ltac bitwise :=
  repeat lazymatch goal with
    | |- exists t rho, acts_bitwise (bind _ (fun _ => _)) t rho =>
        apply acts_bitwise_seq
    | |- exists t rho, acts_bitwise (or_assign _ _ _) t rho =>
        apply acts_bitwise_or_assign; auto
    | |- exists t rho, acts_bitwise (REGISTER_SET_VALUE _ _ _ _) t rho =>
        apply acts_bitwise_REGISTER_SET_VALUE; auto
    | |- exists t rho, acts_bitwise (store _ _) t rho =>
        apply acts_bitwise_store
    | |- exists t rho, acts_bitwise (ret tt) t rho =>
        apply acts_bitwise_ret
    end.

Section PinMux.

Context {hdr : registers_h}.
Variable hw : silicon.
Hypothesis all_read_back : forall r, reads_back hw r.

Lemma init_spi_interface_acts :
  exists touched rule, acts_bitwise (init_spi_interface hw) touched rule.
Proof. unfold init_spi_interface, init_spi_gpios, init_spi_port. bitwise. Qed.

Lemma init_rgb_pins_acts (pins : list gpio_pin_t) :
  exists touched rule, acts_bitwise (init_rgb_pins hw pins) touched rule.
Proof.
  induction pins as [|pin rest IH]; cbn [init_rgb_pins]; [bitwise|].
  apply acts_bitwise_seq; [bitwise|].
  apply acts_bitwise_seq; [bitwise|exact IH].
Qed.

Lemma init_rgb_gpios_acts :
  exists touched rule, acts_bitwise (init_rgb_gpios hw) touched rule.
Proof.
  unfold init_rgb_gpios. apply acts_bitwise_seq; [bitwise|].
  apply init_rgb_pins_acts.
Qed.

Lemma init_rgb_timings_acts :
  exists touched rule, acts_bitwise (init_rgb_timings hw) touched rule.
Proof. unfold init_rgb_timings, program_rgb_timings. bitwise. Qed.

End PinMux.

(** X9. The configuration routines are idempotent.  When every register
    reads back what it holds, running [init_spi_interface] a second time,
    [init_rgb_gpios] a second time, the two in sequence a second time, or
    [init_rgb_timings] a second time leaves every register with the value
    it had after the first run. *)
Theorem configuration_is_idempotent :
  forall (hdr : registers_h) (hw : silicon) (m : machine) (r : reg),
    (forall r', reads_back hw r') ->
    regs (snd (init_spi_interface hw (snd (init_spi_interface hw m)))) r
    = regs (snd (init_spi_interface hw m)) r
    /\ regs (snd (init_rgb_gpios hw (snd (init_rgb_gpios hw m)))) r
       = regs (snd (init_rgb_gpios hw m)) r
    /\ regs (snd ((init_spi_interface hw ;; init_rgb_gpios hw)
                    (snd ((init_spi_interface hw ;; init_rgb_gpios hw) m)))) r
       = regs (snd ((init_spi_interface hw ;; init_rgb_gpios hw) m)) r
    /\ regs (snd (init_rgb_timings hw (snd (init_rgb_timings hw m)))) r
       = regs (snd (init_rgb_timings hw m)) r.
Proof.
  intros hdr hw m r Back. split; [|split; [|split]].
  - apply acts_bitwise_idempotent, init_spi_interface_acts, Back.
  - apply acts_bitwise_idempotent, init_rgb_gpios_acts, Back.
  - apply (acts_bitwise_idempotent
             (init_spi_interface hw ;; init_rgb_gpios hw)).
    apply acts_bitwise_seq;
      [apply init_spi_interface_acts|apply init_rgb_gpios_acts]; exact Back.
  - apply acts_bitwise_idempotent, init_rgb_timings_acts, Back.
Qed.

(** On a chip all of whose registers are plain memory, a second run of the
    RGB pin setup leaves the modes of group A as the first did. *)
Lemma configuration_is_idempotent_witness :
  regs (snd (init_rgb_gpios (hdr:=stm32f429) latch
               (snd (init_rgb_gpios (hdr:=stm32f429) latch reset_machine))))
    (GPIO_MODER GPIOA)
  = regs (snd (init_rgb_gpios (hdr:=stm32f429) latch reset_machine))
      (GPIO_MODER GPIOA).
Proof.
  exact (proj1 (proj2 (configuration_is_idempotent stm32f429 latch reset_machine
                         (GPIO_MODER GPIOA) (fun _ _ => eq_refl)))).
Defined.

Lemma step_REGISTER_SET_VALUE {B} (hw : silicon) (r : reg) (f : field) (v : Z)
  (k : unit -> M B) (m : machine) :
  bind (REGISTER_SET_VALUE hw r f v) k m
  = k tt (snd (REGISTER_SET_VALUE hw r f v m)).
Proof. reflexivity. Qed.

Lemma step_or_assign {B} (hw : silicon) (r : reg) (bits : Z)
  (k : unit -> M B) (m : machine) :
  bind (or_assign hw r bits) k m = k tt (snd (or_assign hw r bits m)).
Proof. reflexivity. Qed.

(** *** The mode of each pin *)

Section PinModes.

Context {hdr : registers_h}.
Variable hw : silicon.
Hypothesis MODER_layout : forall n, MODER n = mkField (2 * n) (2 * n + 1).
Hypothesis moder_reads_back : forall g, reads_back hw (GPIO_MODER g).

(** Setting the mode of pin [n] of a group: the two bits of the pin take
    the two low bits of the mode, the other pins keep theirs. *)
Lemma set_mode (g : gpio_group) (n v : Z) (m : machine) :
  0 <= n < 16 ->
  mode_bits (regs (snd (REGISTER_SET_VALUE hw (GPIO_MODER g) (MODER n) v m))
               (GPIO_MODER g)) n
  = (Z.testbit v 0, Z.testbit v 1)
  /\ forall n', 0 <= n' < 16 -> n' <> n ->
       mode_bits (regs (snd (REGISTER_SET_VALUE hw (GPIO_MODER g) (MODER n) v m))
                    (GPIO_MODER g)) n'
       = mode_bits (regs m (GPIO_MODER g)) n'.
Proof.
  intros R. rewrite MODER_layout. unfold mode_bits. split.
  - rewrite !REGISTER_SET_VALUE_bit by (auto; lia).
    rewrite !REGISTER_FIELD_MASK_bit by lia. cbn [LOW_BIT].
    rewrite !Z.shiftl_spec by lia.
    replace (2 * n - 2 * n) with 0 by lia.
    replace (2 * n + 1 - 2 * n) with 1 by lia.
    destruct (Z.leb_spec (2 * n) (2 * n)), (Z.leb_spec (2 * n) (2 * n + 1)),
      (Z.leb_spec (2 * n + 1) (2 * n + 1)); try lia. reflexivity.
  - intros n' R' N.
    rewrite !REGISTER_SET_VALUE_bit by (auto; lia).
    rewrite !REGISTER_FIELD_MASK_bit by lia.
    destruct (Z.leb_spec (2 * n) (2 * n')), (Z.leb_spec (2 * n') (2 * n + 1)),
      (Z.leb_spec (2 * n) (2 * n' + 1)), (Z.leb_spec (2 * n' + 1) (2 * n + 1));
      try lia; reflexivity.
Qed.

Lemma GPIO_AFR_not_MODER (g g' : gpio_group) (n : Z) : GPIO_AFR g n <> GPIO_MODER g'.
Proof. destruct (GPIO_AFR_cases g n) as [-> | ->]; discriminate. Qed.

(** After the pin loop, a pin of the list is in alternate-function mode and
    any other pin is in the mode it was in. *)
Lemma init_rgb_pins_modes (pins : list gpio_pin_t) :
  (forall p, In p pins -> 0 <= number p < 16) ->
  forall m g n, 0 <= n < 16 ->
    mode_bits (regs (snd (init_rgb_pins hw pins m)) (GPIO_MODER g)) n
    = if existsb (same_pin g n) pins
      then (Z.testbit GPIO_MODE_ALTERNATE_FUNCTION 0,
            Z.testbit GPIO_MODE_ALTERNATE_FUNCTION 1)
      else mode_bits (regs m (GPIO_MODER g)) n.
Proof.
  induction pins as [|p rest IH]; intros Rg m g n Rn; [reflexivity|].
  cbn [init_rgb_pins existsb].
  rewrite !step_REGISTER_SET_VALUE.
  rewrite IH by (auto using in_cons).
  destruct (existsb (same_pin g n) rest); [rewrite orb_true_r; reflexivity|].
  rewrite orb_false_r.
  set (m1 := snd (REGISTER_SET_VALUE hw (GPIO_AFR (group p) (number p))
                    (AFR (number p)) 14 m)).
  assert (E1 : regs m1 (GPIO_MODER g) = regs m (GPIO_MODER g))
    by (apply preserves_REGISTER_SET_VALUE, GPIO_AFR_not_MODER).
  assert (Rp : 0 <= number p < 16) by (apply Rg; left; reflexivity).
  destruct (set_mode (group p) (number p) GPIO_MODE_ALTERNATE_FUNCTION m1 Rp)
    as [Given Others].
  unfold same_pin.
  destruct (gpio_group_eqb (group p) g) eqn:G; cbn [andb].
  - apply gpio_group_eqb_eq in G. subst g.
    destruct (Z.eqb_spec (number p) n) as [<-|N]; [exact Given|].
    rewrite Others by (auto; congruence). rewrite E1. reflexivity.
  - rewrite (preserves_REGISTER_SET_VALUE (GPIO_MODER g) hw
               (GPIO_MODER (group p)) _ _).
    + rewrite E1. reflexivity.
    + intro E. injection E as E. subst g.
      rewrite (proj2 (gpio_group_eqb_eq _ _) eq_refl) in G. discriminate.
Qed.

Lemma rgb_pins_in_range (p : gpio_pin_t) : In p rgb_pins -> 0 <= number p < 16.
Proof.
  intros I.
  assert (F : forallb (fun q => (0 <=? number q) && (number q <? 16)) rgb_pins
              = true) by reflexivity.
  rewrite forallb_forall in F. specialize (F p I).
  apply andb_true_iff in F. destruct F as [A B].
  apply Z.leb_le in A. apply Z.ltb_lt in B. lia.
Qed.

Lemma init_rgb_gpios_modes (m : machine) (g : gpio_group) (n : Z) :
  0 <= n < 16 ->
  mode_bits (regs (snd (init_rgb_gpios hw m)) (GPIO_MODER g)) n
  = if existsb (same_pin g n) rgb_pins
    then (Z.testbit GPIO_MODE_ALTERNATE_FUNCTION 0,
          Z.testbit GPIO_MODE_ALTERNATE_FUNCTION 1)
    else mode_bits (regs m (GPIO_MODER g)) n.
Proof.
  intros R. unfold init_rgb_gpios.
  rewrite step_or_assign.
  rewrite init_rgb_pins_modes by (exact rgb_pins_in_range || exact R).
  rewrite (preserves_or_assign (GPIO_MODER g) hw RCC_AHB1ENR _) by discriminate.
  reflexivity.
Qed.

(** After [init_spi_interface], PC2 and PD13 are in output mode. *)
Lemma init_spi_interface_modes (m : machine) :
  mode_bits (regs (snd (init_spi_interface hw m)) (GPIO_MODER GPIOC)) 2
  = (Z.testbit GPIO_MODE_OUTPUT 0, Z.testbit GPIO_MODE_OUTPUT 1)
  /\ mode_bits (regs (snd (init_spi_interface hw m)) (GPIO_MODER GPIOD)) 13
     = (Z.testbit GPIO_MODE_OUTPUT 0, Z.testbit GPIO_MODE_OUTPUT 1).
Proof.
  unfold init_spi_interface, init_spi_gpios.
  rewrite !bind_assoc, !step_or_assign.
  set (m1 := snd (or_assign hw RCC_AHB1ENR _ m)).
  rewrite !bind_assoc, !step_REGISTER_SET_VALUE.
  set (m2 := snd (REGISTER_SET_VALUE hw (GPIO_MODER GPIOC) _ _ m1)).
  split.
  - match goal with
    | |- mode_bits (regs (snd (?c m2)) _) _ = _ =>
        assert (P : preserves (GPIO_MODER GPIOC) c)
          by (unfold init_spi_port; preserve)
    end.
    rewrite P. apply set_mode. lia.
  - rewrite !bind_assoc, !step_REGISTER_SET_VALUE.
    set (m3 := snd (REGISTER_SET_VALUE hw (GPIO_MODER GPIOD) _ _ m2)).
    match goal with
    | |- mode_bits (regs (snd (?c m3)) _) _ = _ =>
        assert (P : preserves (GPIO_MODER GPIOD) c)
          by (unfold init_spi_port; preserve)
    end.
    rewrite P. apply set_mode. lia.
Qed.

End PinModes.

(** X10. The RGB pin setup takes the chip-select pin over.  When MODER(n)
    names bits 2n and 2n+1 of a mode register and the mode registers read
    back: after [init_spi_interface], PC2 and PD13 are in output mode;
    after [init_rgb_gpios] has run as well, every pin of [rgb_pins] is in
    alternate-function mode, PC2 among them, while PD13 is still in output
    mode; and neither routine changes an output-data register. *)
Theorem rgb_pins_take_over_chip_select :
  forall (hdr : registers_h) (hw : silicon) (m : machine),
    (forall n, MODER n = mkField (2 * n) (2 * n + 1)) ->
    (forall g, reads_back hw (GPIO_MODER g)) ->
    mode_bits (regs (snd (init_spi_interface hw m)) (GPIO_MODER GPIOC)) 2
    = (Z.testbit GPIO_MODE_OUTPUT 0, Z.testbit GPIO_MODE_OUTPUT 1)
    /\ mode_bits (regs (snd (init_spi_interface hw m)) (GPIO_MODER GPIOD)) 13
       = (Z.testbit GPIO_MODE_OUTPUT 0, Z.testbit GPIO_MODE_OUTPUT 1)
    /\ (forall pin, In pin rgb_pins ->
          mode_bits (regs (snd (init_rgb_gpios hw (snd (init_spi_interface hw m))))
                       (GPIO_MODER (group pin))) (number pin)
          = (Z.testbit GPIO_MODE_ALTERNATE_FUNCTION 0,
             Z.testbit GPIO_MODE_ALTERNATE_FUNCTION 1))
    /\ mode_bits (regs (snd (init_rgb_gpios hw (snd (init_spi_interface hw m))))
                    (GPIO_MODER GPIOC)) 2
       = (Z.testbit GPIO_MODE_ALTERNATE_FUNCTION 0,
          Z.testbit GPIO_MODE_ALTERNATE_FUNCTION 1)
    /\ mode_bits (regs (snd (init_rgb_gpios hw (snd (init_spi_interface hw m))))
                    (GPIO_MODER GPIOD)) 13
       = (Z.testbit GPIO_MODE_OUTPUT 0, Z.testbit GPIO_MODE_OUTPUT 1)
    /\ (forall g,
          regs (snd (init_rgb_gpios hw (snd (init_spi_interface hw m))))
            (GPIO_ODR g)
          = regs m (GPIO_ODR g)).
Proof.
  intros hdr hw m Layout Back.
  destruct (init_spi_interface_modes hw Layout Back m) as [C2 D13].
  split; [exact C2|]. split; [exact D13|].
  split; [|split; [|split]].
  - intros pin I.
    rewrite (init_rgb_gpios_modes hw Layout Back)
      by (apply rgb_pins_in_range, I).
    assert (E : existsb (same_pin (group pin) (number pin)) rgb_pins = true).
    { apply existsb_exists. exists pin. split; [exact I|].
      unfold same_pin. rewrite Z.eqb_refl.
      rewrite (proj2 (gpio_group_eqb_eq _ _) eq_refl). reflexivity. }
    rewrite E. reflexivity.
  - rewrite (init_rgb_gpios_modes hw Layout Back) by lia. reflexivity.
  - rewrite (init_rgb_gpios_modes hw Layout Back) by lia. exact D13.
  - intro g. clear C2 D13 Layout Back.
    assert (P1 : preserves (GPIO_ODR g) (init_rgb_gpios hw)).
    { unfold init_rgb_gpios. apply preserves_bind; [preserve|].
      intro. apply init_rgb_pins_preserves; intro; discriminate. }
    assert (P2 : preserves (GPIO_ODR g) (init_spi_interface hw))
      by (unfold init_spi_interface, init_spi_gpios, init_spi_port; preserve).
    rewrite P1. apply P2.
Qed.

(** On the reference header (output mode 1, alternate function 2) and a
    chip whose registers are plain memory, X10 gives PC2 the mode bits of
    the alternate function after both setups. *)
Lemma rgb_pins_take_over_chip_select_witness :
  mode_bits (regs (snd (init_spi_interface (hdr:=stm32f429) latch reset_machine))
               (GPIO_MODER GPIOC)) 2 = (true, false)
  /\ mode_bits
       (regs (snd (init_rgb_gpios (hdr:=stm32f429) latch
                     (snd (init_spi_interface (hdr:=stm32f429) latch
                             reset_machine))))
          (GPIO_MODER GPIOC)) 2 = (false, true).
Proof.
  destruct (rgb_pins_take_over_chip_select stm32f429 latch reset_machine
              (fun _ => eq_refl) (fun _ _ => eq_refl))
    as (A & _ & _ & B & _).
  split; [exact A|exact B].
Defined.

(** ** The clock wait, again *)

(** A returned loop ended on an evaluation of its condition that was
    false; the machine it returned is the one that evaluation left. *)
Lemma busy_wait_last (cond : M bool) :
  grows cond ->
  forall fuel m,
    fst (busy_wait fuel cond m) = Some tt ->
    exists m' pre,
      log m' = log m ++ pre
      /\ cond m' = (Some false, snd (busy_wait fuel cond m)).
Proof.
  intros G fuel. induction fuel as [|n IH]; intros m Ret; [discriminate|].
  rewrite busy_wait_S in *.
  destruct (G m) as [new L].
  destruct (cond m) as [[[|]|] m1] eqn:E; cbn [snd] in *; try discriminate.
  - destruct (IH m1 Ret) as (m' & pre & Lp & C).
    exists m', (new ++ pre). split; [|exact C].
    rewrite Lp, L. symmetry. apply app_assoc.
  - exists m, []. split; [symmetry; apply app_nil_r|exact E].
Qed.

(** X11. [init_rgb_clocks] returns only on lock seen: when it returns,
    its last two accesses are loads of RCC_CR, the first of which showed
    PLLSAIRDY set and the second PLLRDY set. *)
Theorem clocks_return_only_on_lock_seen :
  forall (hdr : registers_h) (hw : silicon) (fuel : nat) (m : machine),
    fst (init_rgb_clocks hw fuel m) = Some tt ->
    exists before x y,
      trace (init_rgb_clocks hw fuel) m
      = before ++ [RegLoad RCC_CR x; RegLoad RCC_CR y]
      /\ Z.land x PLLSAIRDY <> 0
      /\ Z.land y PLLRDY <> 0.
Proof.
  intros hdr hw fuel m Ret. unfold init_rgb_clocks in *.
  destruct (program_rgb_clocks_prefix hw lcd_clock_stages fuel m)
    as (a & b & d & e & f & m5 & E & L).
  rewrite E in Ret.
  destruct (busy_wait_last (pll_not_ready hw)
              (proj1 (pll_not_ready_confined hw)) fuel m5 Ret)
    as (m' & pre & Lp & C).
  rewrite run_pll_not_ready in C.
  destruct (Z.eqb_spec (Z.land (uint32 (hw m' RCC_CR)) PLLSAIRDY) 0) as [Z0|NZ];
    [discriminate C|].
  injection C as C1 C2.
  apply Z.eqb_neq in C1.
  match type of L with
  | _ = _ ++ ?ten => exists (ten ++ pre)
  end.
  exists (uint32 (hw m' RCC_CR)).
  exists (uint32 (hw (after_load RCC_CR (uint32 (hw m' RCC_CR)) m') RCC_CR)).
  split; [|split; [exact NZ|exact C1]].
  apply trace_intro. rewrite E, <- C2.
  cbn [after_load log]. rewrite Lp, L.
  rewrite <- !app_assoc. reflexivity.
Qed.

(** With both PLLs locked from the start the routine returns at its first
    poll, and X11 describes its last two loads. *)
Lemma clocks_return_only_on_lock_seen_witness :
  exists before x y,
    trace (init_rgb_clocks (hdr:=stm32f429) idle_no_reload 1) reset_machine
    = before ++ [RegLoad RCC_CR x; RegLoad RCC_CR y]
    /\ Z.land x (@PLLSAIRDY stm32f429) <> 0
    /\ Z.land y (@PLLRDY stm32f429) <> 0.
Proof.
  exact (clocks_return_only_on_lock_seen stm32f429 idle_no_reload 1
           reset_machine eq_refl).
Defined.

(** ** The two pins of the panel *)

Section PanelPins.

Context {hdr : registers_h}.
Variable hw : silicon.

(** Two settings of the same one-bit field in a row leave what the second
    alone leaves. *)
Lemma set_one_bit_twice (r : reg) (n : Z) (b b' : bool) (m : machine) (r' : reg) :
  0 <= n < 32 -> reads_back hw r ->
  regs (snd ((REGISTER_SET_VALUE hw r (mkField n n) (b2z b) ;;
              REGISTER_SET_VALUE hw r (mkField n n) (b2z b')) m)) r'
  = regs (snd (REGISTER_SET_VALUE hw r (mkField n n) (b2z b') m)) r'.
Proof.
  intros Rn Back. rewrite step_REGISTER_SET_VALUE.
  set (m1 := snd (REGISTER_SET_VALUE hw r (mkField n n) (b2z b) m)).
  destruct (set_one_bit hw r n b m Rn Back) as (_ & B1 & O1 & F1 & _).
  destruct (set_one_bit hw r n b' m1 Rn Back) as (_ & B2 & O2 & F2 & _).
  destruct (set_one_bit hw r n b' m Rn Back) as (_ & B3 & O3 & F3 & _).
  fold m1 in B1, O1, F1.
  destruct (reg_eqb r r') eqn:E.
  - apply reg_eqb_eq in E. subst r'.
    apply Z.bits_inj'. intros i Pos.
    destruct (Z.lt_ge_cases i 32) as [Lt|Ge].
    + destruct (Z.eq_dec i n) as [->|N].
      * rewrite B2, B3. reflexivity.
      * rewrite O2, O3, O1 by (lia || exact N). reflexivity.
    + rewrite !run_REGISTER_SET_VALUE. cbn [snd after_store regs]. unfold upd.
      rewrite !reg_eqb_refl, !uint32_testbit.
      destruct (Z.ltb_spec i 32); [lia|reflexivity].
  - assert (N : r' <> r)
      by (intros ->; rewrite reg_eqb_refl in E; discriminate).
    rewrite F2, F3, F1 by exact N. reflexivity.
Qed.

Lemma REGISTER_SET_VALUE_regs (r : reg) (f : field) (v : Z) (m : machine)
  (r' : reg) :
  reads_back hw r ->
  regs (snd (REGISTER_SET_VALUE hw r f v m)) r'
  = if reg_eqb r r'
    then uint32 (Z.lor (Z.land (uint32 (regs m r))
                          (Z.lxor (2 ^ 32 - 1) (REGISTER_FIELD_MASK f)))
                       (REGISTER_FIELD_VALUE f v))
    else regs m r'.
Proof.
  intros Back. rewrite run_REGISTER_SET_VALUE.
  cbn [snd after_store regs]. unfold upd. rewrite Back. reflexivity.
Qed.

(** Settings of fields of two different registers that read back can be
    made in either order. *)
Lemma set_fields_commute (r1 r2 : reg) (f1 f2 : field) (v1 v2 : Z)
  (m : machine) (r' : reg) :
  r1 <> r2 -> reads_back hw r1 -> reads_back hw r2 ->
  regs (snd ((REGISTER_SET_VALUE hw r1 f1 v1 ;;
              REGISTER_SET_VALUE hw r2 f2 v2) m)) r'
  = regs (snd ((REGISTER_SET_VALUE hw r2 f2 v2 ;;
                REGISTER_SET_VALUE hw r1 f1 v1) m)) r'.
Proof.
  intros N B1 B2. rewrite !step_REGISTER_SET_VALUE.
  rewrite !REGISTER_SET_VALUE_regs by assumption.
  rewrite (reg_eqb_neq r1 r2) by exact N.
  rewrite (reg_eqb_neq r2 r1) by congruence.
  destruct (reg_eqb r2 r') eqn:E2, (reg_eqb r1 r') eqn:E1; try reflexivity.
  apply reg_eqb_eq in E1, E2. congruence.
Qed.

End PanelPins.

(** X12. The two pin writes compose as line settings should.  When ODR(n)
    names bit n and the two output-data registers read back: a chip-select
    (or mode-select) write followed by another leaves every register as the
    second write alone does, and a chip-select write and a mode-select
    write leave the same registers in either order. *)
Theorem pin_writes_overwrite_and_commute :
  forall (hdr : registers_h) (hw : silicon) (b b' : bool) (m : machine)
         (r : reg),
    ODR 2 = mkField 2 2 ->
    ODR 13 = mkField 13 13 ->
    reads_back hw (GPIO_ODR GPIOC) ->
    reads_back hw (GPIO_ODR GPIOD) ->
    regs (snd ((gpio_c2_write hw b ;; gpio_c2_write hw b') m)) r
    = regs (snd (gpio_c2_write hw b' m)) r
    /\ regs (snd ((gpio_d13_write hw b ;; gpio_d13_write hw b') m)) r
       = regs (snd (gpio_d13_write hw b' m)) r
    /\ regs (snd ((gpio_c2_write hw b ;; gpio_d13_write hw b') m)) r
       = regs (snd ((gpio_d13_write hw b' ;; gpio_c2_write hw b) m)) r.
Proof.
  intros hdr hw b b' m r O2 O13 BackC BackD.
  unfold gpio_c2_write, gpio_d13_write. rewrite O2, O13.
  split; [|split].
  - apply set_one_bit_twice; [lia|exact BackC].
  - apply set_one_bit_twice; [lia|exact BackD].
  - apply set_fields_commute; [discriminate|exact BackC|exact BackD].
Qed.

(** On the reference header and plain-memory registers: selecting the chip
    and then deselecting it leaves GPIOC's ODR as deselecting alone. *)
Lemma pin_writes_overwrite_and_commute_witness :
  regs (snd ((gpio_c2_write (hdr:=stm32f429) latch true ;;
              gpio_c2_write (hdr:=stm32f429) latch false) reset_machine))
    (GPIO_ODR GPIOC)
  = regs (snd (gpio_c2_write (hdr:=stm32f429) latch false reset_machine))
      (GPIO_ODR GPIOC).
Proof.
  exact (proj1 (pin_writes_overwrite_and_commute stm32f429 latch true false
                  reset_machine (GPIO_ODR GPIOC) eq_refl eq_refl
                  (fun _ => eq_refl) (fun _ => eq_refl))).
Defined.

(** ** The clock stages *)

(** X13. [init_rgb_clocks] programs its clock stages without a test:
    whatever the silicon answers and however long the wait is watched, it
    makes five read-modify-writes (LTDCEN or-ed into RCC_APB2ENR; PLLSAIN
    set to 192 and PLLSAIR to 4 in RCC_PLLSAICFGR; PLLSAIDIVR set to
    RCC_PLLSAIDIVR_DIV8 in RCC_DCKCFGR; PLLSAION and PLLON or-ed into
    RCC_CR), and every access after them is a load of RCC_CR. *)
Theorem clocks_program_fixed_stages :
  forall (hdr : registers_h) (hw : silicon) (fuel : nat) (m : machine),
    exists a b d e f polls,
      trace (init_rgb_clocks hw fuel) m =
      [ RegLoad RCC_APB2ENR a;
        RegStore RCC_APB2ENR (uint32 (Z.lor a LTDCEN));
        RegLoad RCC_PLLSAICFGR b;
        RegStore RCC_PLLSAICFGR
          (uint32 (Z.lor (Z.land b (Z.lxor (2 ^ 32 - 1) (REGISTER_FIELD_MASK PLLSAIN)))
                         (REGISTER_FIELD_VALUE PLLSAIN 192)));
        RegLoad RCC_PLLSAICFGR d;
        RegStore RCC_PLLSAICFGR
          (uint32 (Z.lor (Z.land d (Z.lxor (2 ^ 32 - 1) (REGISTER_FIELD_MASK PLLSAIR)))
                         (REGISTER_FIELD_VALUE PLLSAIR 4)));
        RegLoad RCC_DCKCFGR e;
        RegStore RCC_DCKCFGR
          (uint32 (Z.lor (Z.land e (Z.lxor (2 ^ 32 - 1) (REGISTER_FIELD_MASK PLLSAIDIVR)))
                         (REGISTER_FIELD_VALUE PLLSAIDIVR RCC_PLLSAIDIVR_DIV8)));
        RegLoad RCC_CR f;
        RegStore RCC_CR (uint32 (Z.lor f (Z.lor PLLSAION PLLON))) ] ++ polls
      /\ forallb (is_load_of RCC_CR) polls = true.
Proof.
  intros hdr hw fuel m.
  destruct (program_rgb_clocks_prefix hw lcd_clock_stages fuel m)
    as (a & b & d & e & f & m5 & E & L).
  destruct (busy_wait_forall (is_load_of RCC_CR) (pll_not_ready hw)
              (pll_not_ready_polls hw) fuel m5) as (polls & Lp & Fa).
  exists a, b, d, e, f, polls. split; [|exact Fa].
  apply trace_intro. unfold init_rgb_clocks. rewrite E, Lp, L.
  rewrite <- app_assoc. reflexivity.
Qed.
